(** * Todo routes of the MERN todo application

    A shallow embedding of the Express router of the todo resource
    (list, get, create, update and delete handlers, together with their
    express-validator chains) and of the parts of JavaScript, validator.js,
    Mongoose and MongoDB that the handlers rely on, followed by the
    properties of the handlers.

    Conventions.
    - A [string] is a text whose characters have code points below 256
      (Basic Latin and Latin-1 Supplement), one character per code point.
      White space is JavaScript's [\s] on these characters, NO-BREAK SPACE
      included.  Letter case is folded for the ASCII letters only; a
      statement about case-insensitive search says that the text searched
      for is ASCII.
    - JavaScript numbers that hold integers are modelled by [Z], which is
      exact for the safe integers (below 2^53 in absolute value).  A
      statement that reads a number off a request as the number written
      assumes it is a safe integer ([safeInteger]).
    - A request body or query is a finite map from field names to values;
      an absent key is JavaScript's [undefined].  The values are [null],
      booleans and strings: a body with nested objects (the update
      operators of MongoDB among them), arrays or numbers is outside the
      model.  A statement about what an update stores assumes that the
      keys of the body are among the fields the model casts
      ([onlyFields]).
    - The collection of todos is the list of its documents in insertion
      order.  Todos with the same creation time are listed in insertion
      order; a statement about the position of a todo in the listing
      assumes distinct creation times. *)

From Stdlib Require Import ZArith String Ascii List Lia Bool.
From stdpp Require Import base option list strings gmap.
From stdpp Require Import sorting.

Local Open Scope string_scope.
Local Open Scope Z_scope.

(** ** Characters and strings *)

Module Str.

Definition code (c : ascii) : N := N_of_ascii c.

(** JavaScript's [\s] on the characters below 256: TAB, LF, VT, FF, CR,
    SPACE and NO-BREAK SPACE (U+00A0). *)
Definition isSpace (c : ascii) : bool :=
  let n := code c in
  ((9 <=? n) && (n <=? 13))%N || (n =? 32)%N || (n =? 160)%N.


Definition isDigit (c : ascii) : bool :=
  let n := code c in ((48 <=? n) && (n <=? 57))%N.

Definition digitVal (c : ascii) : Z := Z.of_N (code c) - 48.

Definition isUpper (c : ascii) : bool :=
  let n := code c in ((65 <=? n) && (n <=? 90))%N.

Definition lowerChar (c : ascii) : ascii :=
  if isUpper c then ascii_of_N (code c + 32) else c.

Definition chars (s : string) : list ascii := list_ascii_of_string s.
Definition ofChars (l : list ascii) : string := string_of_list_ascii l.

Fixpoint dropSpaces (l : list ascii) : list ascii :=
  match l with
  | c :: l' => if isSpace c then dropSpaces l' else l
  | [] => []
  end.

(** validator.js [trim(str)] without a character set: both ends are
    stripped of whitespace. *)
Definition trimChars (l : list ascii) : list ascii :=
  rev (dropSpaces (rev (dropSpaces l))).

Definition trim (s : string) : string := ofChars (trimChars (chars s)).

Definition lower (l : list ascii) : list ascii := map lowerChar l.

Fixpoint prefixb (p l : list ascii) : bool :=
  match p, l with
  | [], _ => true
  | a :: p', b :: l' => if Ascii.eqb a b then prefixb p' l' else false
  | _ :: _, [] => false
  end.

(** [p] occurs in [l] as a contiguous block. *)
Fixpoint infixb (p l : list ascii) : bool :=
  prefixb p l ||
  match l with
  | [] => false
  | _ :: l' => infixb p l'
  end.

(** Case-insensitive substring test, the case of the ASCII letters being
    folded. *)
Definition containsCI (needle hay : string) : bool :=
  infixb (lower (chars needle)) (lower (chars hay)).

End Str.

(** ** JavaScript values and number parsing *)

(** The values a parsed JSON body or a query string gives to a field, and
    the [Date] objects the [toDate] sanitizer puts in their place.  A date
    is its number of milliseconds since the epoch.  Numbers, arrays and
    nested objects are not among them. *)
Inductive jsval :=
| JNull
| JBool (b : bool)
| JStr (s : string)
| JDate (d : Z).

#[global] Instance jsval_eq_dec : EqDecision jsval.
Proof. solve_decision. Defined.

(** A JavaScript object holding request data: [req.body], [req.query]. *)
Abbreviation Obj := (gmap string jsval).

(** What the handlers use of the libraries below them and cannot be read off
    their own code: ISO 8601 recognition and [Date] parsing and printing,
    and the regular expression engine of the database. *)
Record Lib := {
  (** validator.js [isISO8601(str)] *)
  lib_isISO8601 : string -> bool;
  (** [Date.parse(str)]; [None] is [NaN] *)
  lib_dateParse : string -> option Z;
  (** [Date.prototype.toISOString] *)
  lib_toISOString : Z -> string;
  (** [Date.prototype.toString] *)
  lib_dateToString : Z -> string;
  (** [{ $regex: pattern, $options: 'i' }]: [None] when the pattern does not
      compile, else the unanchored, case-insensitive test of a subject *)
  lib_regex : string -> option (string -> bool)
}.

Module JS.

(** The value of a digit character in the given radix. *)
Definition digitOf (radix : Z) (c : ascii) : option Z :=
  let n := Z.of_N (Str.code c) in
  let v := if (48 <=? n) && (n <=? 57) then Some (n - 48)
           else if (97 <=? n) && (n <=? 122) then Some (n - 87)
           else if (65 <=? n) && (n <=? 90) then Some (n - 55)
           else None in
  match v with
  | Some d => if d <? radix then Some d else None
  | None => None
  end.

(** Reads the longest prefix of digits; [None] when there is no digit. *)
Fixpoint readDigits (radix : Z) (acc : option Z) (l : list ascii) : option Z :=
  match l with
  | c :: l' =>
      match digitOf radix c with
      | Some d => readDigits radix (Some (default 0 acc * radix + d)) l'
      | None => acc
      end
  | [] => acc
  end.

Definition isX (c : ascii) : bool :=
  (Str.code c =? 120)%N || (Str.code c =? 88)%N.

(** The digits of [parseInt(string)] once blanks and sign are gone: a
    leading [0x] or [0X] selects radix 16, and the longest prefix of digits
    is read. *)
Definition parseUnsigned (l : list ascii) : option Z :=
  let '(radix, l) :=
    match l with
    | "0"%char :: x :: l' => if isX x then (16, l') else (10, l)
    | _ => (10, l)
    end in
  readDigits radix None l.

(** [parseInt(string)] with no radix argument; [None] is [NaN]. *)
Definition parseIntChars (l : list ascii) : option Z :=
  match Str.dropSpaces l with
  | "-"%char :: l' => Z.opp <$> parseUnsigned l'
  | "+"%char :: l' => parseUnsigned l'
  | l' => parseUnsigned l'
  end.

(** [parseInt(v)]: the argument is first converted to a string.  The text
    of a [Date] starts with a day name, which is no number.  The result is
    the integer written; [parseInt] gives the double nearest to it, which
    is that integer when it is a safe integer. *)
Definition parseInt (v : option jsval) : option Z :=
  match v with
  | Some (JStr s) => parseIntChars (Str.chars s)
  | _ => None
  end.

(** [x || d] for a number [x]: [NaN] and [0] are falsy. *)
Definition orNum (x : option Z) (d : Z) : Z :=
  match x with
  | Some n => if n =? 0 then d else n
  | None => d
  end.

(** Truthiness of a value. *)
Definition truthy (v : option jsval) : bool :=
  match v with
  | None | Some JNull => false
  | Some (JBool b) => b
  | Some (JStr s) => negb (String.eqb s "")
  | Some (JDate _) => true
  end.

(** [Math.ceil(a / b)] for integers [a >= 0] and [b > 0]. *)
Definition ceilDiv (a b : Z) : Z := (a + b - 1) / b.

End JS.

(** ** validator.js *)

Module Validator.

Definition isEmpty (s : string) : bool := String.eqb s "".

(** The number a string of decimal digits denotes. *)
Definition digitsValue (ds : list ascii) : Z :=
  fold_left (fun acc c => acc * 10 + Str.digitVal c) ds 0.

(** Splits an optional sign off. *)
Definition splitSign (l : list ascii) : Z * list ascii :=
  match l with
  | "-"%char :: l' => (-1, l')
  | "+"%char :: l' => (1, l')
  | _ => (1, l)
  end.

Definition geMin (n : Z) (min : option Z) : bool :=
  match min with Some m => m <=? n | None => true end.

Definition leMax (n : Z) (max : option Z) : bool :=
  match max with Some m => n <=? m | None => true end.

(** [isInt(str, { min, max })]: the text matches [^[-+]?[0-9]+$] and the
    number it denotes lies within the bounds that are given. *)
Definition isInt (s : string) (min max : option Z) : bool :=
  let '(sign, ds) := splitSign (Str.chars s) in
  match ds with
  | [] => false
  | _ => forallb Str.isDigit ds
         && geMin (sign * digitsValue ds) min
         && leMax (sign * digitsValue ds) max
  end.

Definition isIn (s : string) (values : list string) : bool :=
  existsb (String.eqb s) values.

Definition isBoolean (s : string) : bool :=
  isIn s ["true"; "false"; "1"; "0"].

Definition trim (s : string) : string := Str.trim s.

(** [toDate(str)]: a [Date], or [null] when the text does not parse. *)
Definition toDate (L : Lib) (s : string) : jsval :=
  match lib_dateParse L s with
  | Some d => JDate d
  | None => JNull
  end.

End Validator.

(** ** Requests *)

(** The identifier of a stored document, in its 24-digit hexadecimal form
    with lower-case letters. *)
Definition ObjectId := string.

(** What a handler reads of the request: the [:id] segment of the path, the
    identity the authentication middleware attached ([req.user._id]), the
    parsed body and the parsed query string. *)
Record request := {
  req_params_id : string;
  req_user_id : ObjectId;
  req_body : Obj;
  req_query : Obj
}.

(** ** express-validator *)

Module EV.

(** The steps of a validation chain, in the order they are chained. *)
Inductive item :=
| optional
| notEmpty
| trim
| isInt (min max : option Z)
| isString
| isISO8601
| toDate
| isIn (values : list string)
| isBoolean
| withMessage (msg : string).

Inductive location := Body | Query.

Record chain := { loc : location; field : string; items : list item }.

Definition body (f : string) (its : list item) : chain :=
  {| loc := Body; field := f; items := its |}.

Definition query (f : string) (its : list item) : chain :=
  {| loc := Query; field := f; items := its |}.

(** The text a standard validator or sanitizer is applied to:
    [undefined] and [null] give the empty text. *)
Definition toString (L : Lib) (v : option jsval) : string :=
  match v with
  | None | Some JNull => ""
  | Some (JBool true) => "true"
  | Some (JBool false) => "false"
  | Some (JStr s) => s
  | Some (JDate d) => lib_toISOString L d
  end.

Definition isOptional (it : item) : bool :=
  match it with optional => true | _ => false end.

(** The outcome of a validator on the current value; [None] for the steps
    that are not validators. *)
Definition check (L : Lib) (it : item) (v : option jsval) : option bool :=
  let s := toString L v in
  match it with
  | notEmpty => Some (negb (Validator.isEmpty s))
  | isInt min max => Some (Validator.isInt s min max)
  | isString => Some (match v with Some (JStr _) => true | _ => false end)
  | isISO8601 => Some (lib_isISO8601 L s)
  | isIn values => Some (Validator.isIn s values)
  | isBoolean => Some (Validator.isBoolean s)
  | optional | trim | toDate | withMessage _ => None
  end.

(** The value a sanitizer puts in place of the current one; [None] for the
    steps that are not sanitizers. *)
Definition sanitize (L : Lib) (it : item) (v : option jsval) : option jsval :=
  let s := toString L v in
  match it with
  | trim => Some (JStr (Validator.trim s))
  | toDate => Some (Validator.toDate L s)
  | _ => None
  end.

(** One step on one field.  With [optional()] anywhere in the chain, a
    step is skipped while the value is [undefined].  A failing validator
    records an error and the chain goes on. *)
Definition step (L : Lib) (f : string) (opt : bool)
    (st : list string * option jsval) (it : item) : list string * option jsval :=
  let '(errs, v) := st in
  if opt && negb (bool_decide (is_Some v)) then st
  else
    match check L it v, sanitize L it v with
    | Some false, _ => ((errs ++ [f])%list, v)
    | Some true, _ => st
    | None, Some v' => (errs, Some v')
    | None, None => st
    end.

Definition runItems (L : Lib) (f : string) (its : list item)
    (v : option jsval) : list string * option jsval :=
  fold_left (step L f (existsb isOptional its)) its ([], v).

Definition getLoc (l : location) (req : request) : Obj :=
  match l with Body => req_body req | Query => req_query req end.

Definition setLoc (l : location) (o : Obj) (req : request) : request :=
  match l with
  | Body => {| req_params_id := req_params_id req; req_user_id := req_user_id req;
               req_body := o; req_query := req_query req |}
  | Query => {| req_params_id := req_params_id req; req_user_id := req_user_id req;
                req_body := req_body req; req_query := o |}
  end.

(** Runs a chain as a middleware: the errors of the field, and the request
    with the sanitized value written back. *)
Definition runChain (L : Lib) (c : chain) (req : request) : list string * request :=
  let o := getLoc (loc c) req in
  let '(errs, v) := runItems L (field c) (items c) (o !! field c) in
  (errs, match v with
         | Some x => setLoc (loc c) (<[field c := x]> o) req
         | None => req
         end).

(** Runs the chains of a route one after the other; the result is what
    [validationResult(req)] reports, and the request the handler sees. *)
Fixpoint run (L : Lib) (cs : list chain) (req : request) : list string * request :=
  match cs with
  | [] => ([], req)
  | c :: cs' =>
      let '(e1, req1) := runChain L c req in
      let '(e2, req2) := run L cs' req1 in
      ((e1 ++ e2)%list, req2)
  end.

End EV.

(** ** Mongoose and the todo collection *)

(** A stored todo document.  [description] and [dueDate] may be missing or
    [null] ([None]); the other fields always hold a value. *)
Record Todo := {
  _id : ObjectId;
  userId : ObjectId;
  title : string;
  description : option string;
  completed : bool;
  dueDate : option Z;
  priority : string;
  createdAt : Z
}.

(** Modelled from the spec: the schema of the Todo model, whose file is not
    among the sources.  The data model gives the paths above with a
    required title, bounds on the lengths of title and description, the
    priorities low, medium and high, and the defaults [completed = false]
    and [createdAt = now]; whether the schema itself enforces the title and
    the bounds is left open here, as three options.  Every path is an
    ordinary path otherwise: writable by an update, and [userId] required. *)
Record TodoSchema := {
  title_required : bool;
  title_maxlength : option nat;
  description_maxlength : option nat
}.

Definition priorities : list string := ["low"; "medium"; "high"].

Module Mongoose.

Inductive cast (A : Type) :=
| Cast (a : A)
| CastNull
| CastError.
Arguments Cast {A} a.
Arguments CastNull {A}.
Arguments CastError {A}.

(** A computation that may throw. *)
Inductive outcome (A : Type) :=
| Return (a : A)
| Throw.
Arguments Return {A} a.
Arguments Throw {A}.

Definition isHexDigit (c : ascii) : bool :=
  match JS.digitOf 16 c with Some _ => true | None => false end.

(** The ObjectId a 24-digit hexadecimal text denotes. *)
Definition castObjectId (s : string) : option ObjectId :=
  let l := Str.chars s in
  if (length l =? 24)%nat && forallb isHexDigit l
  then Some (Str.ofChars (Str.lower l)) else None.

Definition castObjectIdVal (v : jsval) : cast ObjectId :=
  match v with
  | JStr s => match castObjectId s with Some i => Cast i | None => CastError end
  | JNull => CastNull
  | _ => CastError
  end.

Definition castString (L : Lib) (v : jsval) : cast string :=
  match v with
  | JStr s => Cast s
  | JBool true => Cast "true"
  | JBool false => Cast "false"
  | JDate d => Cast (lib_dateToString L d)
  | JNull => CastNull
  end.

Definition castBoolean (v : jsval) : cast bool :=
  match v with
  | JBool b => Cast b
  | JStr s =>
      if Validator.isIn s ["true"; "1"; "yes"] then Cast true
      else if Validator.isIn s ["false"; "0"; "no"] then Cast false
      else CastError
  | JNull => CastNull
  | JDate _ => CastError
  end.

Definition castDate (L : Lib) (v : jsval) : cast Z :=
  match v with
  | JDate d => Cast d
  | JNull => CastNull
  | JStr s => match lib_dateParse L s with Some d => Cast d | None => CastError end
  | JBool _ => CastError
  end.

(** *** Schema validators *)

Definition withinLength (max : option nat) (s : string) : bool :=
  match max with
  | Some n => (String.length s <=? n)%nat
  | None => true
  end.

Definition validTitle (sch : TodoSchema) (t : string) : bool :=
  (negb (title_required sch) || negb (String.eqb t ""))
  && withinLength (title_maxlength sch) t.

Definition validDescription (sch : TodoSchema) (d : string) : bool :=
  withinLength (description_maxlength sch) d.

Definition validPriority (p : string) : bool := Validator.isIn p priorities.

(** *** Queries *)

(** A branch of [$or]: a regular expression on one field. *)
Inductive clause :=
| Title_regex (pattern : string)
| Description_regex (pattern : string).

(** A top-level key of a filter object. *)
Inductive cond :=
| Id_is (id : string)
| UserId_is (u : ObjectId)
| Or (branches : list clause).

(** A filter object: the conjunction of its keys. *)
Definition filter := list cond.

Definition compileClause (L : Lib) (c : clause) : option (Todo -> bool) :=
  match c with
  | Title_regex p =>
      match lib_regex L p with
      | Some test => Some (fun t => test (title t))
      | None => None
      end
  | Description_regex p =>
      match lib_regex L p with
      | Some test =>
          Some (fun t => match description t with
                         | Some d => test d
                         | None => false
                         end)
      | None => None
      end
  end.

Fixpoint compileOr (L : Lib) (cs : list clause) : option (Todo -> bool) :=
  match cs with
  | [] => Some (fun _ => false)
  | c :: cs' =>
      match compileClause L c, compileOr L cs' with
      | Some m, Some ms => Some (fun t => m t || ms t)
      | _, _ => None
      end
  end.

Definition compileCond (L : Lib) (c : cond) : option (Todo -> bool) :=
  match c with
  | Id_is v =>
      match castObjectId v with
      | Some i => Some (fun t => String.eqb (_id t) i)
      | None => None
      end
  | UserId_is u => Some (fun t => String.eqb (userId t) u)
  | Or cs => compileOr L cs
  end.

(** The test a filter makes of a document; [None] when the filter is
    refused (an identifier that does not cast, a pattern that does not
    compile), which the caller sees as an exception. *)
Fixpoint compile (L : Lib) (q : filter) : option (Todo -> bool) :=
  match q with
  | [] => Some (fun _ => true)
  | c :: q' =>
      match compileCond L c, compile L q' with
      | Some m, Some ms => Some (fun t => m t && ms t)
      | _, _ => None
      end
  end.

(** *** Reading *)

Fixpoint insertDesc (t : Todo) (l : list Todo) : list Todo :=
  match l with
  | [] => [t]
  | x :: l' =>
      if createdAt x <=? createdAt t then t :: l else x :: insertDesc t l'
  end.

(** [.sort({ createdAt: -1 })]: newest first.  Documents with the same
    [createdAt] keep their insertion order. *)
Definition sortCreatedAtDesc (l : list Todo) : list Todo :=
  foldr insertDesc [] l.

(** [Todo.find(q).sort({ createdAt: -1 }).skip(skip).limit(limit)] *)
Definition findPage (L : Lib) (store : list Todo) (q : filter)
    (skip limit : Z) : outcome (list Todo) :=
  match compile L q with
  | Some m =>
      Return (take (Z.to_nat limit)
                (drop (Z.to_nat skip) (sortCreatedAtDesc (List.filter m store))))
  | None => Throw
  end.

(** [Todo.countDocuments(q)] *)
Definition countDocuments (L : Lib) (store : list Todo) (q : filter) : outcome Z :=
  match compile L q with
  | Some m => Return (Z.of_nat (length (List.filter m store)))
  | None => Throw
  end.

(** [Todo.findOne(q)] *)
Definition findOne (L : Lib) (store : list Todo) (q : filter) : outcome (option Todo) :=
  match compile L q with
  | Some m => Return (List.find m store)
  | None => Throw
  end.

(** *** Writing *)

(** Replaces the first document that passes the test. *)
Fixpoint replaceFirst (m : Todo -> bool) (f : Todo -> Todo) (l : list Todo) : list Todo :=
  match l with
  | [] => []
  | x :: l' => if m x then f x :: l' else x :: replaceFirst m f l'
  end.

(** Removes the first document that passes the test. *)
Fixpoint removeFirst (m : Todo -> bool) (l : list Todo) : list Todo :=
  match l with
  | [] => []
  | x :: l' => if m x then l' else x :: removeFirst m l'
  end.

(** [Todo.findOneAndDelete(q)]: the document removed, if any, and the
    collection afterwards. *)
Definition findOneAndDelete (L : Lib) (store : list Todo) (q : filter)
    : outcome (option Todo) * list Todo :=
  match compile L q with
  | Some m =>
      match List.find m store with
      | Some t => (Return (Some t), removeFirst m store)
      | None => (Return None, store)
      end
  | None => (Throw, store)
  end.

(** The [$set] an update object amounts to once cast against the schema:
    per path, [None] when the object has no such key.  The paths are the
    six fields a todo is created with; the other keys are dropped, as
    Mongoose drops the keys that are no paths of the schema.  The paths
    [_id] and [createdAt] and the update operators are not modelled. *)
Record patch := {
  set_title : option string;
  set_description : option string;
  set_completed : option bool;
  set_dueDate : option (option Z);
  set_priority : option string;
  set_userId : option ObjectId
}.

(** Casts one key of the update object; [Throw] on a cast error, and on
    [null] for a path that must hold a value. *)
Definition castKey {A} (c : jsval -> cast A) (v : option jsval) : outcome (option A) :=
  match v with
  | None => Return None
  | Some x =>
      match c x with
      | Cast a => Return (Some a)
      | CastNull | CastError => Throw
      end
  end.

Definition castNullableKey {A} (c : jsval -> cast A) (v : option jsval)
    : outcome (option (option A)) :=
  match v with
  | None => Return None
  | Some x =>
      match c x with
      | Cast a => Return (Some (Some a))
      | CastNull => Return (Some None)
      | CastError => Throw
      end
  end.

Definition castUpdate (L : Lib) (o : Obj) : outcome patch :=
  match castKey (castString L) (o !! "title"),
        castKey (castString L) (o !! "description"),
        castKey castBoolean (o !! "completed"),
        castNullableKey (castDate L) (o !! "dueDate"),
        castKey (castString L) (o !! "priority"),
        castKey castObjectIdVal (o !! "userId") with
  | Return t, Return d, Return c, Return due, Return p, Return u =>
      Return {| set_title := t; set_description := d; set_completed := c;
                set_dueDate := due; set_priority := p; set_userId := u |}
  | _, _, _, _, _, _ => Throw
  end.

(** [runValidators]: the validators of the paths that are set. *)
Definition validatePatch (sch : TodoSchema) (p : patch) : bool :=
  from_option (validTitle sch) true (set_title p)
  && from_option (validDescription sch) true (set_description p)
  && from_option validPriority true (set_priority p).

(** The document once the [$set] is applied: a path that is set takes
    the value set, the other paths keep theirs.  No path of the [$set]
    is the identifier or the creation time. *)
Definition applyPatch (p : patch) (t : Todo) : Todo :=
  {| _id := _id t;
     userId := default (userId t) (set_userId p);
     title := default (title t) (set_title p);
     description := match set_description p with
                    | Some d => Some d
                    | None => description t
                    end;
     completed := default (completed t) (set_completed p);
     dueDate := default (dueDate t) (set_dueDate p);
     priority := default (priority t) (set_priority p);
     createdAt := createdAt t |}.

(** [Todo.findOneAndUpdate(q, update, { new: true, runValidators: true })]:
    the document after the update, if one matched, and the collection
    afterwards.  The update is cast and validated before the collection
    is consulted. *)
Definition findOneAndUpdate (L : Lib) (sch : TodoSchema) (store : list Todo)
    (q : filter) (update : Obj) : outcome (option Todo) * list Todo :=
  match compile L q, castUpdate L update with
  | Some m, Return p =>
      if validatePatch sch p then
        match List.find m store with
        | Some t => (Return (Some (applyPatch p t)), replaceFirst m (applyPatch p) store)
        | None => (Return None, store)
        end
      else (Throw, store)
  | _, _ => (Throw, store)
  end.

(** [new Todo(fields)] followed by [save()], for the fields the create
    handler passes: the document is validated, then inserted under a new
    identifier; an identifier already in use is refused. *)
Definition save (sch : TodoSchema) (store : list Todo) (t : Todo)
    : outcome Todo * list Todo :=
  if validTitle sch (title t)
     && from_option (validDescription sch) true (description t)
     && validPriority (priority t)
     && negb (existsb (fun x => String.eqb (_id x) (_id t)) store)
  then (Return t, (store ++ [t])%list)
  else (Throw, store).

End Mongoose.

(** ** The router *)

Record Pagination := {
  currentPage : Z;
  totalPages : Z;
  totalTodos : Z;
  hasNextPage : bool;
  hasPrevPage : bool
}.

(** The JSON documents the handlers answer with. *)
Inductive payload :=
| Todos (todos : list Todo) (pagination : Pagination)
| TodoDoc (todo : Todo)
| Message (message : string)
| MessageTodo (message : string) (todo : Todo)
| ValidationFailed (message : string) (errors : list string).

Record response := { status : nat; json : payload }.

Module Router.
Import EV Mongoose.

Definition respond (code : nat) (p : payload) : response :=
  {| status := code; json := p |}.

Definition validationFailed (errors : list string) : response :=
  respond 400 (ValidationFailed "Validation failed" errors).

Definition isEmpty (errors : list string) : bool :=
  match errors with [] => true | _ => false end.

(** *** GET / *)

Definition listValidators : list chain := [
  query "page" [optional; isInt (Some 1) None];
  query "limit" [optional; isInt (Some 1) (Some 100)];
  query "search" [optional; isString; trim]
].

(** [req.query.search || ''], a string once the chain has passed. *)
Definition searchOf (v : option jsval) : string :=
  match v with
  | Some (JStr s) => s
  | _ => ""
  end.

Definition searchQuery (user : ObjectId) (search : string) : filter :=
  if JS.truthy (Some (JStr search))
  then [UserId_is user; Or [Title_regex search; Description_regex search]]
  else [UserId_is user].

Definition get_todos (L : Lib) (store : list Todo) (req0 : request) : response :=
  let '(errors, req) := run L listValidators req0 in
  if negb (isEmpty errors) then validationFailed errors
  else
    let page := JS.orNum (JS.parseInt (req_query req !! "page")) 1 in
    let limit := JS.orNum (JS.parseInt (req_query req !! "limit")) 10 in
    let search := searchOf (req_query req !! "search") in
    let skip := (page - 1) * limit in
    let q := searchQuery (req_user_id req) search in
    match findPage L store q skip limit, countDocuments L store q with
    | Return todos, Return total =>
        let pages := JS.ceilDiv total limit in
        respond 200 (Todos todos
          {| currentPage := page;
             totalPages := pages;
             totalTodos := total;
             hasNextPage := page <? pages;
             hasPrevPage := 1 <? page |})
    | _, _ => respond 500 (Message "Server error while fetching todos")
    end.

(** *** GET /:id *)

Definition ownedBy (req : request) : filter :=
  [Id_is (req_params_id req); UserId_is (req_user_id req)].

Definition get_todo (L : Lib) (store : list Todo) (req : request) : response :=
  match findOne L store (ownedBy req) with
  | Return (Some todo) => respond 200 (TodoDoc todo)
  | Return None => respond 404 (Message "Todo not found")
  | Throw => respond 500 (Message "Server error while fetching todo")
  end.

(** *** POST / *)

Definition createValidators : list chain := [
  body "title" [notEmpty; trim; withMessage "Title is required"];
  body "description" [optional; trim];
  body "dueDate" [optional; isISO8601; toDate];
  body "priority" [optional; isIn ["low"; "medium"; "high"]]
].

(** [new Todo({ title, description, dueDate, priority, userId })]: the
    fields are cast to the types of their paths, [completed] takes its
    default, and the document gets its identifier and creation time.  A
    field that does not cast makes the later [save()] throw. *)
Definition newTodo (L : Lib) (title description dueDate priority : option jsval)
    (user id : ObjectId) (now : Z) : outcome Todo :=
  match castKey (castString L) title,
        castNullableKey (castString L) description,
        castNullableKey (castDate L) dueDate,
        castKey (castString L) priority with
  | Return (Some t), Return d, Return due, Return (Some p) =>
      Return {| _id := id; userId := user; title := t;
                description := mjoin d; completed := false;
                dueDate := mjoin due; priority := p; createdAt := now |}
  | _, _, _, _ => Throw
  end.

(** [id] and [now] are the identifier and the time the new document is
    given. *)
Definition post_todo (L : Lib) (sch : TodoSchema) (store : list Todo)
    (req0 : request) (id : ObjectId) (now : Z) : response * list Todo :=
  let '(errors, req) := run L createValidators req0 in
  if negb (isEmpty errors) then (validationFailed errors, store)
  else
    let title := req_body req !! "title" in
    let description := req_body req !! "description" in
    let dueDate := req_body req !! "dueDate" in
    let priority := req_body req !! "priority" in
    let doc := newTodo L title description dueDate
                 (if JS.truthy priority then priority else Some (JStr "medium"))
                 (req_user_id req) id now in
    match doc with
    | Return todo =>
        match save sch store todo with
        | (Return saved, store') =>
            (respond 201 (MessageTodo "Todo created successfully" saved), store')
        | (Throw, store') =>
            (respond 500 (Message "Server error while creating todo"), store')
        end
    | Throw => (respond 500 (Message "Server error while creating todo"), store)
    end.

(** *** PUT /:id *)

Definition updateValidators : list chain := [
  body "title" [optional; notEmpty; trim];
  body "description" [optional; trim];
  body "completed" [optional; isBoolean];
  body "dueDate" [optional; isISO8601; toDate];
  body "priority" [optional; isIn ["low"; "medium"; "high"]]
].

Definition put_todo (L : Lib) (sch : TodoSchema) (store : list Todo)
    (req0 : request) : response * list Todo :=
  let '(errors, req) := run L updateValidators req0 in
  if negb (isEmpty errors) then (validationFailed errors, store)
  else
    match findOneAndUpdate L sch store (ownedBy req) (req_body req) with
    | (Return (Some todo), store') =>
        (respond 200 (MessageTodo "Todo updated successfully" todo), store')
    | (Return None, store') =>
        (respond 404 (Message "Todo not found"), store')
    | (Throw, store') =>
        (respond 500 (Message "Server error while updating todo"), store')
    end.

(** *** DELETE /:id *)

Definition delete_todo (L : Lib) (store : list Todo) (req : request)
    : response * list Todo :=
  match findOneAndDelete L store (ownedBy req) with
  | (Return (Some _), store') =>
      (respond 200 (Message "Todo deleted successfully"), store')
  | (Return None, store') =>
      (respond 404 (Message "Todo not found"), store')
  | (Throw, store') =>
      (respond 500 (Message "Server error while deleting todo"), store')
  end.

End Router.

(** ** Vocabulary of the statements *)

(** [numeral ds n]: the digits [ds], most significant first, write [n]. *)
Inductive numeral : list ascii -> Z -> Prop :=
| numeral_one c :
    Str.isDigit c = true -> numeral [c] (Str.digitVal c)
| numeral_snoc ds n c :
    numeral ds n -> Str.isDigit c = true ->
    numeral (ds ++ [c]) (n * 10 + Str.digitVal c).

(** [denotes s n]: the text [s] is a decimal integer, with or without a
    sign, and [n] is its value. *)
Inductive denotes : string -> Z -> Prop :=
| denotes_plain ds n : numeral ds n -> denotes (Str.ofChars ds) n
| denotes_plus ds n : numeral ds n -> denotes (Str.ofChars ("+"%char :: ds)) n
| denotes_minus ds n : numeral ds n -> denotes (Str.ofChars ("-"%char :: ds)) (- n).

(** A query parameter that is either absent, and then stands for [dflt], or
    the text of an integer between [lo] and [hi]. *)
Definition intParam (v : option jsval) (dflt lo : Z) (hi : option Z) (n : Z) : Prop :=
  (v = None /\ n = dflt) \/
  (exists s, v = Some (JStr s) /\ denotes s n /\ lo <= n /\ Validator.leMax n hi = true).

(** The characters with a meaning of their own in a regular expression. *)
Definition isMeta (c : ascii) : bool :=
  existsb (Ascii.eqb c) (Str.chars "\^$.[]|()?*+{}").




(** The integers a JavaScript number holds exactly. *)
Definition safeInteger (n : Z) : Prop := Z.abs n <= 9007199254740991.

(** The fields of a todo a client may change. *)
Definition mutableFields : list string :=
  ["title"; "description"; "completed"; "dueDate"; "priority"].

(** Every key of [o] is among [fields]. *)
Definition onlyFields (fields : list string) (o : Obj) : Prop :=
  forall k, is_Some (o !! k) -> In k fields.


(** No two documents of the collection share an identifier. *)
Definition uniqueIds (store : list Todo) : Prop := NoDup (map _id store).

Definition setBody (o : Obj) (req : request) : request := EV.setLoc EV.Body o req.
Definition setQuery (o : Obj) (req : request) : request := EV.setLoc EV.Query o req.

(** The text of a body or query field once [trim()] has run on it. *)
Definition trimmed (L : Lib) (v : jsval) : string :=
  Validator.trim (EV.toString L (Some v)).

(** The error a validator of field [f] leaves when it fails. *)
Definition failing (f : string) (ok : bool) : list string :=
  if ok then [] else [f].

(** The errors of an optional field: none when the field is absent. *)
Definition whenPresent (v : option jsval) (errs : jsval -> list string) : list string :=
  match v with
  | Some x => errs x
  | None => []
  end.

Definition isStr (v : jsval) : bool :=
  match v with JStr _ => true | _ => false end.

(** What [trim()] and [toDate()] put in place of a field. *)
Definition trimField (L : Lib) (x : jsval) : jsval := JStr (trimmed L x).

Definition dateField (L : Lib) (x : jsval) : jsval :=
  Validator.toDate L (EV.toString L (Some x)).

(** The errors the chains of [POST /] report on a body, and the body they
    leave to the handler. *)
Definition createErrors (L : Lib) (o : Obj) : list string :=
  (failing "title" (negb (Validator.isEmpty (EV.toString L (o !! "title"))))
   ++ whenPresent (o !! "dueDate")
        (fun x => failing "dueDate" (lib_isISO8601 L (EV.toString L (Some x))))
   ++ whenPresent (o !! "priority")
        (fun x => failing "priority" (Validator.isIn (EV.toString L (Some x)) priorities)))%list.

Definition createBody (L : Lib) (o : Obj) : Obj :=
  alter (dateField L) "dueDate"
    (alter (trimField L) "description"
       (<["title" := JStr (Validator.trim (EV.toString L (o !! "title")))]> o)).

(** The same for [PUT /:id]. *)
Definition updateErrors (L : Lib) (o : Obj) : list string :=
  (whenPresent (o !! "title")
     (fun x => failing "title" (negb (Validator.isEmpty (EV.toString L (Some x)))))
   ++ whenPresent (o !! "completed")
        (fun x => failing "completed" (Validator.isBoolean (EV.toString L (Some x))))
   ++ whenPresent (o !! "dueDate")
        (fun x => failing "dueDate" (lib_isISO8601 L (EV.toString L (Some x))))
   ++ whenPresent (o !! "priority")
        (fun x => failing "priority" (Validator.isIn (EV.toString L (Some x)) priorities)))%list.

Definition updateBody (L : Lib) (o : Obj) : Obj :=
  alter (dateField L) "dueDate"
    (alter (trimField L) "description"
       (alter (trimField L) "title" o)).

(** The same for the query of [GET /]. *)
Definition listErrors (L : Lib) (q : Obj) : list string :=
  (whenPresent (q !! "page")
     (fun x => failing "page" (Validator.isInt (EV.toString L (Some x)) (Some 1) None))
   ++ whenPresent (q !! "limit")
        (fun x => failing "limit" (Validator.isInt (EV.toString L (Some x)) (Some 1) (Some 100)))
   ++ whenPresent (q !! "search") (fun x => failing "search" (isStr x)))%list.

Definition listQuery (L : Lib) (q : Obj) : Obj :=
  alter (trimField L) "search" q.

(** A search parameter the list route can serve: absent, or a string whose
    trimmed text is empty or a pattern that compiles. *)
Definition searchAccepted (L : Lib) (v : option jsval) : Prop :=
  match v with
  | None => True
  | Some x => isStr x = true /\ (trimmed L x = "" \/ is_Some (lib_regex L (trimmed L x)))
  end.

(** The documents of the collection that belong to [user]. *)
Definition ownedTodos (user : ObjectId) (store : list Todo) : list Todo :=
  List.filter (fun t => String.eqb (userId t) user) store.

(** The date the [dueDate] field of a body stands for, if it parses. *)
Definition dueOf (L : Lib) (x : jsval) : option Z :=
  lib_dateParse L (EV.toString L (Some x)).

(** No document of the collection has the identifier [id]. *)
Definition freshId (store : list Todo) (id : ObjectId) : Prop :=
  forall x, In x store -> _id x <> id.

(** ** A library instance and data for the examples *)

Module Sample.

(** A matcher for the patterns made of ordinary characters and [.]; it
    interprets no other pattern, and refuses those, as the engine refuses
    ["("] and ["*"]. *)
Fixpoint matchHere (p l : list ascii) : bool :=
  match p, l with
  | [], _ => true
  | c :: p', x :: l' =>
      (if Ascii.eqb c "."%char then negb (Ascii.eqb x "010"%char)
       else Ascii.eqb (Str.lowerChar c) (Str.lowerChar x))
      && matchHere p' l'
  | _ :: _, [] => false
  end.

Fixpoint matchAnywhere (p l : list ascii) : bool :=
  matchHere p l ||
  match l with
  | [] => false
  | _ :: l' => matchAnywhere p l'
  end.

Definition regex (p : string) : option (string -> bool) :=
  if forallb (fun c => negb (isMeta c) || Ascii.eqb c "."%char) (Str.chars p)
  then Some (fun s => matchAnywhere (Str.chars p) (Str.chars s))
  else None.

(** A toy calendar for the examples: the dates written [YYYY-MM-DD], each
    numbered by its eight digits, and printed the way it is read. *)
Definition isDate (s : string) : bool :=
  match Str.chars s with
  | [y1; y2; y3; y4; d1; m1; m2; d2; a1; a2] =>
      forallb Str.isDigit [y1; y2; y3; y4; m1; m2; a1; a2]
      && Ascii.eqb d1 "-"%char && Ascii.eqb d2 "-"%char
  | _ => false
  end.

Definition dateParse (s : string) : option Z :=
  if isDate s
  then Some (Validator.digitsValue (List.filter Str.isDigit (Str.chars s)))
  else None.

Fixpoint fixedDigits (n : nat) (z : Z) (acc : list ascii) : list ascii :=
  match n with
  | O => acc
  | S n' => fixedDigits n' (z / 10) (ascii_of_N (Z.to_N (48 + z mod 10)) :: acc)
  end.

Definition datePrint (d : Z) : string :=
  let ds := fixedDigits 8 d [] in
  Str.ofChars (take 4 ds ++ "-"%char :: take 2 (drop 4 ds) ++ "-"%char :: drop 6 ds)%list.

Definition lib : Lib := {|
  lib_isISO8601 := isDate;
  lib_dateParse := dateParse;
  lib_toISOString := datePrint;
  lib_dateToString := datePrint;
  lib_regex := regex
|}.

(** Modelled from the spec: the schema with the required title and the
    bounds of the data model. *)
Definition specSchema : TodoSchema :=
  {| title_required := true;
     title_maxlength := Some 100%nat;
     description_maxlength := Some 500%nat |}.

(** A schema that declares the paths and validates nothing. *)
Definition bareSchema : TodoSchema :=
  {| title_required := false;
     title_maxlength := None;
     description_maxlength := None |}.

Definition alice : ObjectId := "aaaaaaaaaaaaaaaaaaaaaaaa".
Definition bob : ObjectId := "bbbbbbbbbbbbbbbbbbbbbbbb".

Definition id1 : ObjectId := "000000000000000000000001".
Definition id2 : ObjectId := "000000000000000000000002".
Definition id3 : ObjectId := "000000000000000000000003".

Definition todo (id owner : ObjectId) (t : string) (at_ : Z) : Todo :=
  {| _id := id; userId := owner; title := t; description := None;
     completed := false; dueDate := None; priority := "medium";
     createdAt := at_ |}.

Definition buyMilk : Todo := todo id1 alice "Buy milk" 1.
Definition callMom : Todo := todo id2 alice "Call mom" 2.

Definition mkReq (id : string) (user : ObjectId) (b q : list (string * jsval)) : request :=
  {| req_params_id := id; req_user_id := user;
     req_body := list_to_map b; req_query := list_to_map q |}.

(** Fifteen todos of one account, created one after the other. *)
Definition numbered (n : nat) : Todo :=
  todo (Str.ofChars (repeat "0"%char 22 ++ [ascii_of_nat (48 + n / 10); ascii_of_nat (48 + n mod 10)])%list)
       alice "Task" (Z.of_nat n).

Definition fifteen : list Todo := map numbered (seq 1 15).

Definition longTitle : string := Str.ofChars (repeat "a"%char 101).

(** Requests for the list route. *)
Definition page3 : request :=
  mkReq "" alice [] [("page", JStr "3"); ("limit", JStr "6")].

Definition pageZero : request :=
  mkReq "" alice [] [("page", JStr "0")].

Definition searching (user : ObjectId) (s : string) : request :=
  mkReq "" user [] [("search", JStr s)].

Definition milkRun : Todo := todo id3 bob "Milk run" 3.

Definition onePage (n : Z) : Pagination :=
  {| currentPage := 1; totalPages := 1; totalTodos := n;
     hasNextPage := false; hasPrevPage := false |}.

(** Requests on one todo. *)
Definition onTodo (id : string) (user : ObjectId) (b : list (string * jsval)) : request :=
  mkReq id user b [].

Definition notFound : response :=
  {| status := 404; json := Message "Todo not found" |}.

(** Requests for the create route. *)
Definition creating (user : ObjectId) (b : list (string * jsval)) : request :=
  mkReq "" user b [].

Definition serverError (msg : string) : response :=
  {| status := 500; json := Message msg |}.

Definition blankTitle (user : ObjectId) : request :=
  creating user [("title", JStr "   ")].

Definition untitled (id owner : ObjectId) (at_ : Z) : Todo := todo id owner "" at_.

(** A todo with every optional field filled in. *)
Definition report : Todo :=
  {| _id := id3; userId := alice; title := "Write report";
     description := Some "Quarterly figures"; completed := false;
     dueDate := Some 20250131; priority := "high"; createdAt := 3 |}.

Definition reportDone : Todo :=
  {| _id := id3; userId := alice; title := "Write report";
     description := Some "Quarterly figures"; completed := true;
     dueDate := Some 20250131; priority := "high"; createdAt := 3 |}.

Definition updated (t : Todo) : response :=
  {| status := 200; json := MessageTodo "Todo updated successfully" t |}.

Definition markDone : request := onTodo id3 alice [("completed", JBool true)].

Definition retitle : request := onTodo id1 alice [("title", JStr " Buy bread ")].

Definition longCreate : request := creating alice [("title", JStr longTitle)].

Definition longUpdate : request := onTodo id1 alice [("title", JStr longTitle)].

Definition dated : request :=
  creating alice [("title", JStr "Pay rent"); ("dueDate", JStr "2025-01-31")].

Definition undated : request :=
  creating alice [("title", JStr "Pay rent"); ("dueDate", JNull)].

Definition payRent : Todo :=
  {| _id := id1; userId := alice; title := "Pay rent"; description := None;
     completed := false; dueDate := Some 20250131; priority := "medium";
     createdAt := 7 |}.

Definition pageOf (n : string) : request :=
  mkReq "" alice [] [("page", JStr n); ("limit", JStr "6")].

Definition pageInfo (page : Z) (next prev : bool) : Pagination :=
  {| currentPage := page; totalPages := 3; totalTodos := 15;
     hasNextPage := next; hasPrevPage := prev |}.

End Sample.

(** ** The client: the list view *)

Module TodoListView.

Definition digitChar (d : Z) : ascii := ascii_of_N (Z.to_N (48 + d)).

(** The decimal digits of a natural number, most significant first; [fuel]
    bounds the number of digits. *)
Fixpoint digitsOf (fuel : nat) (n : Z) : list ascii :=
  match fuel with
  | O => []
  | S f =>
      if n <? 10 then [digitChar n]
      else (digitsOf f (n / 10) ++ [digitChar (n mod 10)])%list
  end.

(** [String(n)] for an integer [n], as a query parameter is written: the
    decimal digits, which is what [String] gives below 10^21. *)
Definition numberToString (n : Z) : string :=
  if n <? 0
  then Str.ofChars ("-"%char :: digitsOf (S (Z.to_nat (- n))) (- n))
  else Str.ofChars (digitsOf (S (Z.to_nat n)) n).

(** The request of [fetchTodos]: the current page, six todos a page and
    the search term as typed.  [user] is the account of the session. *)
Definition fetchTodos (user : ObjectId) (currentPage : Z) (searchTerm : string) : request :=
  {| req_params_id := ""; req_user_id := user; req_body := ∅;
     req_query := <["page" := JStr (numberToString currentPage)]>
                    (<["limit" := JStr (numberToString 6)]>
                       (<["search" := JStr searchTerm]> ∅)) |}.

(** The request of [toggleTodoStatus(todoId, currentStatus)]. *)
Definition toggleTodoStatus (user : ObjectId) (todoId : string) (currentStatus : bool) : request :=
  {| req_params_id := todoId; req_user_id := user;
     req_body := <["completed" := JBool (negb currentStatus)]> ∅;
     req_query := ∅ |}.

(** The request of [confirmDelete] for the todo picked. *)
Definition confirmDelete (user : ObjectId) (todoToDelete : Todo) : request :=
  {| req_params_id := _id todoToDelete; req_user_id := user;
     req_body := ∅; req_query := ∅ |}.

(** What [renderPagination] puts in the pagination bar. *)
Inductive pageItem :=
| Prev (disabled : bool)
| Item (number : Z) (active : bool)
| Next (disabled : bool).

Definition maxVisiblePages : Z := 5.

(** The first and the last page number shown. *)
Definition pageWindow (currentPage totalPages : Z) : Z * Z :=
  let startPage := Z.max 1 (currentPage - maxVisiblePages / 2) in
  let endPage := Z.min totalPages (startPage + maxVisiblePages - 1) in
  let startPage :=
    if endPage - startPage + 1 <? maxVisiblePages
    then Z.max 1 (endPage - maxVisiblePages + 1)
    else startPage in
  (startPage, endPage).

(** The numbers [startPage, startPage + 1, ...] up to [endPage]. *)
Definition numbersFrom (startPage endPage : Z) : list Z :=
  map (fun i => startPage + Z.of_nat i) (seq 0 (Z.to_nat (endPage - startPage + 1))).

(** [renderPagination()]; [None] is the [null] that renders nothing.  The
    pagination state is [{}] ([None] here) until a list has been fetched:
    its [totalPages] is then [undefined], no comparison with it holds, and
    both buttons are disabled. *)
Definition renderPagination (currentPage : Z) (pagination : option Pagination)
    : option (list pageItem) :=
  match pagination with
  | None => Some [Prev true; Next true]
  | Some pg =>
      if totalPages pg <=? 1 then None
      else
        let '(startPage, endPage) := pageWindow currentPage (totalPages pg) in
        Some (Prev (negb (hasPrevPage pg))
              :: map (fun number => Item number (number =? currentPage))
                   (numbersFrom startPage endPage)
              ++ [Next (negb (hasNextPage pg))])%list
  end.

Definition numbers (items : list pageItem) : list Z :=
  omap (fun it => match it with Item n _ => Some n | _ => None end) items.

Definition activeNumbers (items : list pageItem) : list Z :=
  omap (fun it => match it with Item n true => Some n | _ => None end) items.

End TodoListView.

(** ** The client: the todo form *)

Module TodoFormView.

Record formData := {
  fd_title : string;
  fd_description : string;
  fd_priority : string;
  fd_dueDate : string;
  fd_completed : bool
}.

(** The choices of the priority select. *)
Definition priorityOptions : list string := ["low"; "medium"; "high"].

(** What the controls let through: [maxLength] on title and description,
    and a priority from the select. *)
Definition enterable (fd : formData) : Prop :=
  (String.length (fd_title fd) <= 100)%nat
  /\ (String.length (fd_description fd) <= 500)%nat
  /\ In (fd_priority fd) priorityOptions.

(** The submit button is enabled: [!(loading || !formData.title.trim())]. *)
Definition submitEnabled (loading : bool) (fd : formData) : bool :=
  negb (loading || String.eqb (Str.trim (fd_title fd)) "").

(** [{ ...formData, dueDate: formData.dueDate || null }] *)
Definition submitData (fd : formData) : Obj :=
  <["title" := JStr (fd_title fd)]>
    (<["description" := JStr (fd_description fd)]>
       (<["priority" := JStr (fd_priority fd)]>
          (<["dueDate" := if String.eqb (fd_dueDate fd) "" then JNull
                          else JStr (fd_dueDate fd)]>
             (<["completed" := JBool (fd_completed fd)]> ∅)))).

(** The request of [handleSubmit]: a [PUT] on the todo being edited
    ([id] is [Some]), else a [POST]. *)
Definition handleSubmit (user : ObjectId) (id : option string) (fd : formData) : request :=
  {| req_params_id := default "" id; req_user_id := user;
     req_body := submitData fd; req_query := ∅ |}.

(** The answer to [handleSubmit]; a created todo gets [newId] and [now]. *)
Definition submit (L : Lib) (sch : TodoSchema) (store : list Todo)
    (user : ObjectId) (id : option string) (fd : formData)
    (newId : ObjectId) (now : Z) : response * list Todo :=
  match id with
  | Some _ => Router.put_todo L sch store (handleSubmit user id fd)
  | None => Router.post_todo L sch store (handleSubmit user id fd) newId now
  end.

(** [str.split('T')[0]] *)
Fixpoint beforeT (l : list ascii) : list ascii :=
  match l with
  | [] => []
  | c :: l' => if Ascii.eqb c "T"%char then [] else c :: beforeT l'
  end.

(** The form [fetchTodo] fills in from the todo being edited. *)
Definition formOfTodo (L : Lib) (todo : Todo) : formData :=
  {| fd_title := title todo;
     fd_description := default "" (description todo);
     fd_priority := if String.eqb (priority todo) "" then "medium" else priority todo;
     fd_dueDate := match dueDate todo with
                   | Some d => Str.ofChars (beforeT (Str.chars (lib_toISOString L d)))
                   | None => ""
                   end;
     fd_completed := completed todo |}.

End TodoFormView.

(** ** Data for further examples *)

Module Scenario.
Import Sample.

Definition store3 : list Todo := [buyMilk; callMom; milkRun].

Definition emptyBody (id : string) (user : ObjectId) : request :=
  mkReq id user [] [].

Definition blankSearch : request := searching alice "   ".

Definition noSearch : request := mkReq "" alice [] [].

Definition testForm : TodoFormView.formData :=
  {| TodoFormView.fd_title := " Pay rent "; TodoFormView.fd_description := "";
     TodoFormView.fd_priority := "high"; TodoFormView.fd_dueDate := "2025-01-31";
     TodoFormView.fd_completed := false |}.

Definition noDateForm : TodoFormView.formData :=
  {| TodoFormView.fd_title := "Pay rent"; TodoFormView.fd_description := "";
     TodoFormView.fd_priority := "high"; TodoFormView.fd_dueDate := "";
     TodoFormView.fd_completed := false |}.

Definition twoOfAlice : Pagination :=
  {| currentPage := 1; totalPages := 1; totalTodos := 2;
     hasNextPage := false; hasPrevPage := false |}.

Definition getOne (id : string) (user : ObjectId) : request := mkReq id user [] [].

Definition created : Todo :=
  {| _id := id3; userId := alice; title := "Test"; description := None;
     completed := false; dueDate := None; priority := "medium"; createdAt := 9 |}.

Definition rename : request := onTodo id1 alice [("title", JStr "Buy oat milk")].

Definition rentTodo (id : ObjectId) (at_ : Z) (done : bool) : Todo :=
  {| _id := id; userId := alice; title := "Pay rent"; description := Some "";
     completed := done; dueDate := Some 20250131; priority := "high";
     createdAt := at_ |}.

Definition secondPage : Pagination :=
  {| currentPage := 2; totalPages := 3; totalTodos := 15;
     hasNextPage := true; hasPrevPage := true |}.

End Scenario.

(** ** Vocabulary of the further statements *)

(** [a] was created no earlier than [b]. *)
Definition notOlder (a b : Todo) : Prop := createdAt b <= createdAt a.

(** The requester's todos, newest first: what the pages of a list without
    a search term are cut from. *)
Definition newestFirst (user : ObjectId) (store : list Todo) : list Todo :=
  Mongoose.sortCreatedAtDesc (ownedTodos user store).

(** The test the filter [{ _id, userId }] makes of a document. *)
Definition idOwner (i u : ObjectId) (x : Todo) : bool :=
  String.eqb (_id x) i && (String.eqb (userId x) u && true).

(** The [$set] that sets nothing. *)
Definition emptyPatch : Mongoose.patch :=
  {| Mongoose.set_title := None; Mongoose.set_description := None;
     Mongoose.set_completed := None; Mongoose.set_dueDate := None;
     Mongoose.set_priority := None; Mongoose.set_userId := None |}.

(** The fields of a body that the update route passes on to the todo. *)
Definition updateKeys : list string :=
  ["title"; "description"; "completed"; "dueDate"; "priority"; "userId"].

(** A todo with its [completed] flag set. *)
Definition withCompleted (b : bool) (t : Todo) : Todo :=
  {| _id := _id t; userId := userId t; title := title t;
     description := description t; completed := b; dueDate := dueDate t;
     priority := priority t; createdAt := createdAt t |}.

(** * Properties *)

(** ** Characters, numerals and number parsing *)

Ltac by_cases_on_char c :=
  destruct c as [[] [] [] [] [] [] [] []]; try discriminate; try reflexivity.

Lemma digit_facts c :
  Str.isDigit c = true ->
  Str.isSpace c = false /\ JS.isX c = false
  /\ JS.digitOf 10 c = Some (Str.digitVal c)
  /\ Validator.splitSign [c] = (1, [c])
  /\ 0 <= Str.digitVal c <= 9.
Proof. by_cases_on_char c; intros _; vm_compute; intuition congruence. Qed.

Lemma splitSign_digit c l :
  Str.isDigit c = true -> Validator.splitSign (c :: l) = (1, c :: l).
Proof. by_cases_on_char c. Qed.

Lemma list_of_string_of_list l : Str.chars (Str.ofChars l) = l.
Proof. apply list_ascii_of_string_of_list_ascii. Qed.

Lemma string_of_list_of_string s : Str.ofChars (Str.chars s) = s.
Proof. apply string_of_list_ascii_of_string. Qed.

Lemma digitsValue_snoc ds c :
  Validator.digitsValue (ds ++ [c]) = Validator.digitsValue ds * 10 + Str.digitVal c.
Proof. unfold Validator.digitsValue. now rewrite fold_left_app. Qed.

Lemma numeral_sound ds n :
  numeral ds n ->
  ds <> [] /\ forallb Str.isDigit ds = true /\ Validator.digitsValue ds = n.
Proof.
  induction 1 as [c Hc | ds n c _ (Hne & Hall & Hval) Hc].
  - split; [discriminate | split; [simpl; now rewrite Hc | ]].
    unfold Validator.digitsValue; simpl; lia.
  - split; [|split].
    + destruct ds; discriminate.
    + rewrite forallb_app, Hall; simpl; now rewrite Hc.
    + rewrite digitsValue_snoc; congruence.
Qed.

Lemma numeral_complete ds :
  ds <> [] -> forallb Str.isDigit ds = true ->
  numeral ds (Validator.digitsValue ds).
Proof.
  induction ds as [|c ds IH] using rev_ind; [congruence|].
  intros _ Hall. rewrite forallb_app in Hall.
  apply andb_prop in Hall as [Hds Hc]. simpl in Hc.
  rewrite andb_true_r in Hc. rewrite digitsValue_snoc.
  destruct ds as [|d ds].
  - simpl. replace (Validator.digitsValue [] * 10 + Str.digitVal c)
      with (Str.digitVal c) by (unfold Validator.digitsValue; simpl; lia).
    now constructor.
  - constructor; [apply IH; [discriminate | exact Hds] | exact Hc].
Qed.

Lemma numeral_head ds n :
  numeral ds n -> exists c l, ds = c :: l /\ Str.isDigit c = true.
Proof.
  intros H. destruct (numeral_sound _ _ H) as (Hne & Hall & _).
  destruct ds as [|c l]; [congruence|].
  simpl in Hall. apply andb_prop in Hall as [Hc _]. eauto.
Qed.

(** The integer a signed decimal text denotes is read off by [splitSign]
    and [digitsValue]. *)
Lemma denotes_split s n :
  denotes s n ->
  exists sign ds, Validator.splitSign (Str.chars s) = (sign, ds)
    /\ ds <> [] /\ forallb Str.isDigit ds = true
    /\ n = sign * Validator.digitsValue ds
    /\ (sign = 1 \/ sign = -1).
Proof.
  intros [ds m H | ds m H | ds m H]; rewrite list_of_string_of_list;
    destruct (numeral_sound _ _ H) as (Hne & Hall & Hval).
  - destruct (numeral_head _ _ H) as (c & l & -> & Hc).
    exists 1, (c :: l). rewrite splitSign_digit by exact Hc.
    repeat split; auto; lia.
  - exists 1, ds. repeat split; auto; lia.
  - exists (-1), ds. repeat split; auto; lia.
Qed.

Lemma split_denotes s sign ds :
  Validator.splitSign (Str.chars s) = (sign, ds) ->
  ds <> [] -> forallb Str.isDigit ds = true ->
  denotes s (sign * Validator.digitsValue ds).
Proof.
  intros Hs Hne Hall. pose proof (numeral_complete ds Hne Hall) as Hn.
  rewrite <- (string_of_list_of_string s).
  unfold Validator.splitSign in Hs.
  destruct (Str.chars s) as [|c l] eqn:Hl.
  - inversion Hs; subst. congruence.
  - destruct (Ascii.eqb c "-"%char) eqn:Hm; [|destruct (Ascii.eqb c "+"%char) eqn:Hp].
    + apply Ascii.eqb_eq in Hm; subst c. inversion Hs; subst.
      replace (-1 * Validator.digitsValue ds) with (- Validator.digitsValue ds) by lia.
      now constructor.
    + apply Ascii.eqb_eq in Hp; subst c. inversion Hs; subst.
      replace (1 * Validator.digitsValue ds) with (Validator.digitsValue ds) by lia.
      now constructor.
    + assert (sign = 1 /\ ds = c :: l) as [-> ->].
      { revert Hs Hm Hp. by_cases_on_char c; intros Hs; inversion Hs; auto. }
      replace (1 * Validator.digitsValue (c :: l)) with (Validator.digitsValue (c :: l)) by lia.
      now constructor.
Qed.

(** [isInt] accepts exactly the texts that denote an integer within the
    bounds. *)
Lemma isInt_spec s min max :
  Validator.isInt s min max = true <->
  exists n, denotes s n /\ Validator.geMin n min = true /\ Validator.leMax n max = true.
Proof.
  unfold Validator.isInt. split.
  - destruct (Validator.splitSign (Str.chars s)) as [sign ds] eqn:Hs.
    destruct ds as [|c l] eqn:Hds; [discriminate|]. rewrite <- Hds in *.
    intros H. apply andb_prop in H as [H Hmax]. apply andb_prop in H as [Hall Hmin].
    exists (sign * Validator.digitsValue ds). split; [|auto].
    apply split_denotes; auto. subst ds; discriminate.
  - intros (n & Hden & Hmin & Hmax).
    destruct (denotes_split _ _ Hden) as (sign & ds & -> & Hne & Hall & -> & _).
    destruct ds; [congruence|]. now rewrite Hall, Hmin, Hmax.
Qed.

Lemma denotes_functional s n m : denotes s n -> denotes s m -> n = m.
Proof.
  intros H1 H2.
  destruct (denotes_split _ _ H1) as (s1 & d1 & E1 & _ & _ & -> & _).
  destruct (denotes_split _ _ H2) as (s2 & d2 & E2 & _ & _ & -> & _).
  congruence.
Qed.

Lemma readDigits_digits ds acc :
  forallb Str.isDigit ds = true -> ds <> [] ->
  JS.readDigits 10 acc ds
  = Some (fold_left (fun a c => a * 10 + Str.digitVal c) ds (default 0 acc)).
Proof.
  revert acc. induction ds as [|c ds IH]; [congruence|].
  intros acc Hall _. simpl in Hall. apply andb_prop in Hall as [Hc Hds].
  destruct (digit_facts c Hc) as (_ & _ & Hd & _). simpl. rewrite Hd.
  destruct ds as [|d ds']; [reflexivity|].
  rewrite IH by (auto; discriminate). reflexivity.
Qed.

Lemma parseUnsigned_digits ds :
  forallb Str.isDigit ds = true -> ds <> [] ->
  JS.parseUnsigned ds = Some (Validator.digitsValue ds).
Proof.
  intros Hall Hne. unfold JS.parseUnsigned.
  assert (Hradix : match ds with
                   | "0"%char :: x :: l' => if JS.isX x then (16, l') else (10, ds)
                   | _ => (10, ds)
                   end = (10, ds)).
  { destruct ds as [|c [|x l]]; [congruence | by_cases_on_char c |].
    simpl in Hall. apply andb_prop in Hall as [_ Hall].
    apply andb_prop in Hall as [Hx _].
    destruct (digit_facts x Hx) as (_ & -> & _). by_cases_on_char c. }
  rewrite Hradix, readDigits_digits by assumption. reflexivity.
Qed.

Lemma parseIntChars_unsigned ds :
  forallb Str.isDigit ds = true -> ds <> [] ->
  JS.parseIntChars ds = Some (Validator.digitsValue ds).
Proof.
  intros Hall Hne. rewrite <- (parseUnsigned_digits ds Hall Hne).
  destruct ds as [|c l]; [congruence|].
  simpl in Hall. apply andb_prop in Hall as [Hc _].
  destruct (digit_facts c Hc) as (Hsp & _).
  unfold JS.parseIntChars. simpl Str.dropSpaces. rewrite Hsp.
  revert Hc. clear. by_cases_on_char c.
Qed.

Lemma parseIntChars_plus ds :
  forallb Str.isDigit ds = true -> ds <> [] ->
  JS.parseIntChars ("+"%char :: ds) = Some (Validator.digitsValue ds).
Proof. intros Hall Hne. now rewrite <- (parseUnsigned_digits ds Hall Hne). Qed.

Lemma parseIntChars_minus ds :
  forallb Str.isDigit ds = true -> ds <> [] ->
  JS.parseIntChars ("-"%char :: ds) = Some (- Validator.digitsValue ds).
Proof.
  intros Hall Hne. change (JS.parseIntChars ("-"%char :: ds))
    with (Z.opp <$> JS.parseUnsigned ds).
  now rewrite (parseUnsigned_digits ds Hall Hne).
Qed.

(** [parseInt] reads the integer a decimal text denotes. *)
Lemma parseInt_denotes s n :
  denotes s n -> JS.parseInt (Some (JStr s)) = Some n.
Proof.
  intros [ds m H | ds m H | ds m H]; simpl; rewrite list_of_string_of_list;
    destruct (numeral_sound _ _ H) as (Hne & Hall & <-).
  - now apply parseIntChars_unsigned.
  - now apply parseIntChars_plus.
  - now apply parseIntChars_minus.
Qed.

(** ** The validation chains in closed form *)

#[local] Arguments EV.toString : simpl never.
#[local] Arguments Validator.isEmpty : simpl never.
#[local] Arguments Validator.trim : simpl never.
#[local] Arguments Validator.isIn : simpl never.
#[local] Arguments Validator.isInt : simpl never.
#[local] Arguments Validator.isBoolean : simpl never.
#[local] Arguments Validator.toDate : simpl never.

Section Chains.
Context (L : Lib).
Import EV.

Lemma fold_step_undefined f its errs :
  fold_left (step L f true) its (errs, None) = (errs, None).
Proof. induction its as [|it its IH]; [reflexivity | exact IH]. Qed.

(** With [optional()] in the chain, an absent field is left alone. *)
Lemma runItems_absent f its :
  existsb isOptional its = true -> runItems L f its None = ([], None).
Proof. intros H. unfold runItems. rewrite H. apply fold_step_undefined. Qed.

Lemma run_title_required f m v :
  runItems L f [notEmpty; trim; withMessage m] v
  = (failing f (negb (Validator.isEmpty (toString L v))),
     Some (JStr (Validator.trim (toString L v)))).
Proof.
  unfold runItems, failing. cbn.
  destruct (Validator.isEmpty (toString L v)); reflexivity.
Qed.

Lemma run_title_optional f x :
  runItems L f [optional; notEmpty; trim] (Some x)
  = (failing f (negb (Validator.isEmpty (toString L (Some x)))),
     Some (JStr (trimmed L x))).
Proof.
  unfold runItems, failing, trimmed. cbn.
  destruct (Validator.isEmpty (toString L (Some x))); reflexivity.
Qed.

Lemma run_trim_optional f x :
  runItems L f [optional; trim] (Some x) = ([], Some (JStr (trimmed L x))).
Proof. reflexivity. Qed.


Lemma run_isBoolean f x :
  runItems L f [optional; isBoolean] (Some x)
  = (failing f (Validator.isBoolean (toString L (Some x))), Some x).
Proof.
  unfold runItems, failing. cbn.
  destruct (Validator.isBoolean (toString L (Some x))); reflexivity.
Qed.

Lemma run_date f x :
  runItems L f [optional; isISO8601; toDate] (Some x)
  = (failing f (lib_isISO8601 L (toString L (Some x))),
     Some (Validator.toDate L (toString L (Some x)))).
Proof.
  unfold runItems, failing. cbn.
  destruct (lib_isISO8601 L (toString L (Some x))); reflexivity.
Qed.

Lemma run_isIn f vs x :
  runItems L f [optional; isIn vs] (Some x)
  = (failing f (Validator.isIn (toString L (Some x)) vs), Some x).
Proof.
  unfold runItems, failing. cbn.
  destruct (Validator.isIn (toString L (Some x)) vs); reflexivity.
Qed.

Lemma run_isInt f lo hi x :
  runItems L f [optional; isInt lo hi] (Some x)
  = (failing f (Validator.isInt (toString L (Some x)) lo hi), Some x).
Proof.
  unfold runItems, failing. cbn.
  destruct (Validator.isInt (toString L (Some x)) lo hi); reflexivity.
Qed.

Lemma run_search f x :
  runItems L f [optional; isString; trim] (Some x)
  = (failing f (isStr x), Some (JStr (trimmed L x))).
Proof. destruct x; reflexivity. Qed.

Lemma runChain_body f its req :
  runChain L (body f its) req
  = (fst (runItems L f its (req_body req !! f)),
     match snd (runItems L f its (req_body req !! f)) with
     | Some x => setBody (<[f := x]> (req_body req)) req
     | None => req
     end).
Proof.
  unfold runChain. simpl.
  destruct (runItems L f its (req_body req !! f)); reflexivity.
Qed.

Lemma runChain_query f its req :
  runChain L (query f its) req
  = (fst (runItems L f its (req_query req !! f)),
     match snd (runItems L f its (req_query req !! f)) with
     | Some x => setQuery (<[f := x]> (req_query req)) req
     | None => req
     end).
Proof.
  unfold runChain. simpl.
  destruct (runItems L f its (req_query req !! f)); reflexivity.
Qed.

Lemma run_cons c cs req :
  run L (c :: cs) req
  = ((fst (runChain L c req) ++ fst (run L cs (snd (runChain L c req))))%list,
     snd (run L cs (snd (runChain L c req)))).
Proof.
  simpl. destruct (runChain L c req) as [e1 r1]. simpl.
  destruct (run L cs r1); reflexivity.
Qed.

End Chains.

Section Routes.
Context (L : Lib).
Import EV Router.

Lemma alter_present (g : jsval -> jsval) f (o : Obj) x :
  o !! f = Some x -> alter g f o = <[f := g x]> o.
Proof.
  intros H. apply map_eq; intros k.
  rewrite lookup_alter, lookup_insert.
  case_decide; subst; [now rewrite H | reflexivity].
Qed.

Lemma alter_absent (g : jsval -> jsval) f (o : Obj) :
  o !! f = None -> alter g f o = o.
Proof.
  intros H. apply map_eq; intros k.
  rewrite lookup_alter. case_decide; subst; [now rewrite H | reflexivity].
Qed.

Lemma alter_same f (o : Obj) : alter (fun x => x) f o = o.
Proof.
  apply map_eq; intros k. rewrite lookup_alter.
  case_decide; subst; [now destruct (o !! k) | reflexivity].
Qed.

Lemma chain_optional_body f its errs g pid uid o q :
  existsb isOptional its = true ->
  (forall x, runItems L f its (Some x) = (errs x, Some (g x))) ->
  runChain L (body f its) (Build_request pid uid o q)
  = (whenPresent (o !! f) errs, Build_request pid uid (alter g f o) q).
Proof.
  intros Hopt Hrun. rewrite runChain_body. simpl req_body.
  destruct (o !! f) as [x|] eqn:Hf.
  - rewrite Hrun. simpl. now rewrite (alter_present g f o x Hf).
  - rewrite runItems_absent by exact Hopt. simpl. now rewrite alter_absent.
Qed.

Lemma chain_optional_query f its errs g pid uid o q :
  existsb isOptional its = true ->
  (forall x, runItems L f its (Some x) = (errs x, Some (g x))) ->
  runChain L (query f its) (Build_request pid uid o q)
  = (whenPresent (q !! f) errs, Build_request pid uid o (alter g f q)).
Proof.
  intros Hopt Hrun. rewrite runChain_query. simpl req_query.
  destruct (q !! f) as [x|] eqn:Hf.
  - rewrite Hrun. simpl. now rewrite (alter_present g f q x Hf).
  - rewrite runItems_absent by exact Hopt. simpl. now rewrite alter_absent.
Qed.

Lemma whenPresent_nil v : whenPresent v (fun _ => []) = [].
Proof. now destruct v. Qed.

Ltac alter_lookups :=
  repeat (rewrite lookup_alter_ne by discriminate);
  repeat (rewrite lookup_insert_ne by discriminate).

(** What [validationResult(req)] holds, and the request the handler of
    [POST /] goes on with. *)
Lemma run_createValidators pid uid o q :
  run L createValidators (Build_request pid uid o q)
  = (createErrors L o, Build_request pid uid (createBody L o) q).
Proof.
  unfold createValidators, createErrors, createBody. cbn [run].
  rewrite runChain_body, run_title_required.
  cbn [fst snd req_body setBody setLoc loc body].
  rewrite (chain_optional_body _ _ (fun _ => []) (trimField L))
    by (auto using run_trim_optional).
  rewrite (chain_optional_body _ _
             (fun x => failing "dueDate" (lib_isISO8601 L (toString L (Some x))))
             (dateField L)) by (auto using run_date).
  rewrite (chain_optional_body _ _
             (fun x => failing "priority" (Validator.isIn (toString L (Some x)) priorities))
             (fun x => x)) by (auto using run_isIn).
  alter_lookups. rewrite whenPresent_nil, alter_same, app_nil_r. reflexivity.
Qed.

Lemma run_updateValidators pid uid o q :
  run L updateValidators (Build_request pid uid o q)
  = (updateErrors L o, Build_request pid uid (updateBody L o) q).
Proof.
  unfold updateValidators, updateErrors, updateBody. cbn [run].
  rewrite (chain_optional_body _ _
             (fun x => failing "title" (negb (Validator.isEmpty (toString L (Some x)))))
             (trimField L)) by (auto using run_title_optional).
  rewrite (chain_optional_body _ _ (fun _ => []) (trimField L))
    by (auto using run_trim_optional).
  rewrite (chain_optional_body _ _
             (fun x => failing "completed" (Validator.isBoolean (toString L (Some x))))
             (fun x => x)) by (auto using run_isBoolean).
  rewrite (chain_optional_body _ _
             (fun x => failing "dueDate" (lib_isISO8601 L (toString L (Some x))))
             (dateField L)) by (auto using run_date).
  rewrite (chain_optional_body _ _
             (fun x => failing "priority" (Validator.isIn (toString L (Some x)) priorities))
             (fun x => x)) by (auto using run_isIn).
  alter_lookups. rewrite whenPresent_nil, !alter_same, app_nil_r. reflexivity.
Qed.

Lemma run_listValidators pid uid o q :
  run L listValidators (Build_request pid uid o q)
  = (listErrors L q, Build_request pid uid o (listQuery L q)).
Proof.
  unfold listValidators, listErrors, listQuery. cbn [run].
  rewrite (chain_optional_query _ _
             (fun x => failing "page" (Validator.isInt (toString L (Some x)) (Some 1) None))
             (fun x => x)) by (auto using run_isInt).
  rewrite (chain_optional_query _ _
             (fun x => failing "limit" (Validator.isInt (toString L (Some x)) (Some 1) (Some 100)))
             (fun x => x)) by (auto using run_isInt).
  rewrite (chain_optional_query _ _ (fun x => failing "search" (isStr x)) (trimField L))
    by (auto using run_search).
  alter_lookups. rewrite !alter_same, app_nil_r. reflexivity.
Qed.

End Routes.

(** ** The collection: sorting, paging and searching *)

Section Collection.
Import Mongoose.

Lemma insertDesc_perm t l : Permutation (insertDesc t l) (t :: l).
Proof.
  induction l as [|x l IH]; simpl; [reflexivity|].
  destruct (createdAt x <=? createdAt t); [reflexivity|].
  rewrite IH. apply perm_swap.
Qed.

Lemma sort_perm l : Permutation (sortCreatedAtDesc l) l.
Proof.
  induction l as [|x l IH]; simpl; [reflexivity|].
  rewrite insertDesc_perm. now constructor.
Qed.

Lemma sort_length l : length (sortCreatedAtDesc l) = length l.
Proof. apply Permutation_length, sort_perm. Qed.

Lemma page_In (t : Todo) n k l m :
  In t (take n (drop k (sortCreatedAtDesc (List.filter m l)))) ->
  In t l /\ m t = true.
Proof.
  intros H. apply filter_In.
  eapply Permutation_in; [apply sort_perm|].
  apply list_elem_of_In. apply list_elem_of_In in H.
  eapply subseteq_drop, subseteq_take, H.
Qed.

Lemma page_length (l : list Todo) (S skip : Z) :
  0 <= skip -> 0 < S ->
  Z.of_nat (length (take (Z.to_nat S) (drop (Z.to_nat skip) (sortCreatedAtDesc l))))
  = Z.min S (Z.max 0 (Z.of_nat (length l) - skip)).
Proof.
  intros Hk HS. rewrite length_take, length_drop, sort_length. lia.
Qed.

Lemma ceilDiv_spec a b :
  0 < b -> (JS.ceilDiv a b - 1) * b < a <= JS.ceilDiv a b * b.
Proof.
  intros Hb. unfold JS.ceilDiv.
  pose proof (Z.div_mod (a + b - 1) b ltac:(lia)).
  pose proof (Z.mod_pos_bound (a + b - 1) b Hb). nia.
Qed.

Context (L : Lib).

(** The filter of the list route lets through documents of the requester
    only. *)
Lemma searchQuery_owner u s m t :
  compile L (Router.searchQuery u s) = Some m -> m t = true -> userId t = u.
Proof.
  unfold Router.searchQuery. destruct (JS.truthy (Some (JStr s))); simpl.
  - destruct (lib_regex L s); [|discriminate].
    intros [= <-] H. apply andb_prop in H as [H _]. now apply String.eqb_eq.
  - intros [= <-] H. apply andb_prop in H as [H _]. now apply String.eqb_eq.
Qed.

Lemma searchQuery_compiles u s :
  s = "" \/ is_Some (lib_regex L s) -> is_Some (compile L (Router.searchQuery u s)).
Proof.
  unfold Router.searchQuery. intros [-> | [test Ht]]; [simpl; eauto|].
  destruct (JS.truthy (Some (JStr s))); simpl; [rewrite Ht|]; eauto.
Qed.

(** The list route once the query has passed its chains. *)
Lemma get_todos_valid store pid uid o q :
  listErrors L q = [] ->
  Router.get_todos L store (Build_request pid uid o q)
  = let page := JS.orNum (JS.parseInt (listQuery L q !! "page")) 1 in
    let limit := JS.orNum (JS.parseInt (listQuery L q !! "limit")) 10 in
    match compile L (Router.searchQuery uid (Router.searchOf (listQuery L q !! "search"))) with
    | Some m =>
        let total := Z.of_nat (length (List.filter m store)) in
        Router.respond 200 (Todos
          (take (Z.to_nat limit)
             (drop (Z.to_nat ((page - 1) * limit))
                (sortCreatedAtDesc (List.filter m store))))
          {| currentPage := page;
             totalPages := JS.ceilDiv total limit;
             totalTodos := total;
             hasNextPage := page <? JS.ceilDiv total limit;
             hasPrevPage := 1 <? page |})
    | None => Router.respond 500 (Message "Server error while fetching todos")
    end.
Proof.
  intros H. unfold Router.get_todos. rewrite run_listValidators, H.
  cbn [Router.isEmpty negb req_query req_user_id].
  unfold findPage, countDocuments.
  destruct (compile L _); reflexivity.
Qed.

Lemma get_todos_invalid store pid uid o q :
  listErrors L q <> [] ->
  Router.get_todos L store (Build_request pid uid o q)
  = Router.validationFailed (listErrors L q).
Proof.
  intros H. unfold Router.get_todos. rewrite run_listValidators.
  destruct (listErrors L q); [congruence | reflexivity].
Qed.

Lemma listQuery_page q : listQuery L q !! "page" = q !! "page".
Proof. unfold listQuery. now rewrite lookup_alter_ne. Qed.

Lemma listQuery_limit q : listQuery L q !! "limit" = q !! "limit".
Proof. unfold listQuery. now rewrite lookup_alter_ne. Qed.

Lemma listQuery_search q :
  listQuery L q !! "search" = trimField L <$> (q !! "search").
Proof. unfold listQuery. now rewrite lookup_alter_eq. Qed.

(** A parameter that is absent or a valid integer passes its chain and is
    read as the integer it denotes. *)
Lemma intParam_read f v dflt lo hi n :
  intParam v dflt lo hi n -> 1 <= lo ->
  whenPresent v (fun x => failing f (Validator.isInt (EV.toString L (Some x)) (Some lo) hi)) = []
  /\ (dflt <> 0 -> JS.orNum (JS.parseInt v) dflt = n).
Proof.
  intros [[-> ->] | (s & -> & Hden & Hlo & Hhi)] Hpos.
  - split; [reflexivity|]. reflexivity.
  - split.
    + cbn [whenPresent]. unfold failing.
      replace (Validator.isInt _ _ _) with true; [reflexivity|].
      symmetry. apply isInt_spec. exists n. repeat split; auto.
      simpl. now apply Z.leb_le.
    + intros _. rewrite (parseInt_denotes _ _ Hden). unfold JS.orNum.
      destruct (Z.eqb_spec n 0); [lia | reflexivity].
Qed.

Lemma intParam_reject f s lo hi :
  ~ (exists n, denotes s n /\ lo <= n /\ Validator.leMax n hi = true) ->
  whenPresent (Some (JStr s))
    (fun x => failing f (Validator.isInt (EV.toString L (Some x)) (Some lo) hi)) = [f].
Proof.
  intros H. cbn [whenPresent]. unfold failing.
  destruct (Validator.isInt _ _ _) eqn:E; [|reflexivity].
  exfalso. apply H. apply isInt_spec in E as (n & Hden & Hmin & Hmax).
  exists n. repeat split; auto. simpl in Hmin. now apply Z.leb_le.
Qed.

(** A supplied parameter that has passed its chain is read as the integer
    it denotes. *)
Lemma supplied_read f s n lo hi dflt :
  whenPresent (Some (JStr s))
    (fun x => failing f (Validator.isInt (EV.toString L (Some x)) (Some lo) hi)) = [] ->
  denotes s n -> 1 <= lo ->
  JS.orNum (JS.parseInt (Some (JStr s))) dflt = n /\ lo <= n.
Proof.
  cbn [whenPresent]. unfold failing.
  change (EV.toString L (Some (JStr s))) with s.
  destruct (Validator.isInt s (Some lo) hi) eqn:E; [|discriminate].
  intros _ Hd Hlo. apply isInt_spec in E as (n' & Hd' & Hmin & _).
  rewrite (denotes_functional _ _ _ Hd' Hd) in Hmin. simpl in Hmin.
  apply Z.leb_le in Hmin. rewrite (parseInt_denotes _ _ Hd). unfold JS.orNum.
  destruct (Z.eqb_spec n 0); [lia | auto].
Qed.

End Collection.

(** ** The list route *)

Section ListRoute.
Context (L : Lib).
Import Mongoose Router.

Lemma filter_length_le (m m' : Todo -> bool) l :
  (forall t, m t = true -> m' t = true) ->
  (length (List.filter m l) <= length (List.filter m' l))%nat.
Proof.
  intros H. induction l as [|x l IH]; simpl; [lia|].
  destruct (m x) eqn:E; [rewrite (H _ E); simpl; lia|].
  destruct (m' x); simpl; lia.
Qed.

Lemma searchOf_trimField v :
  searchOf (trimField L <$> v) = from_option (trimmed L) "" v.
Proof. now destruct v. Qed.

Lemma searchAccepted_compiles uid v :
  searchAccepted L v ->
  is_Some (compile L (searchQuery uid (searchOf (trimField L <$> v)))).
Proof.
  intros H. apply searchQuery_compiles. rewrite searchOf_trimField.
  destruct v as [x|]; simpl in *; [tauto | now left].
Qed.

Lemma searchAccepted_errors v :
  searchAccepted L v -> whenPresent v (fun x => failing "search" (isStr x)) = [].
Proof. destruct v as [x|]; simpl; [|reflexivity]. now intros [-> _]. Qed.

(** C9. Every todo the list route returns belongs to the requester and is
    in the collection, whatever the search term: the search only narrows
    the requester's own todos, so the number of matches never exceeds the
    number of todos the requester owns. *)
Theorem list_returns_own_todos store req items pg :
  get_todos L store req = respond 200 (Todos items pg) ->
  (forall t, In t items -> In t store /\ userId t = req_user_id req)
  /\ totalTodos pg <= Z.of_nat (length (ownedTodos (req_user_id req) store)).
Proof.
  destruct req as [pid uid o q]. simpl req_user_id.
  destruct (listErrors L q) as [|e es] eqn:He.
  - rewrite get_todos_valid by exact He. cbv zeta.
    destruct (compile L _) as [m|] eqn:Hm; [|discriminate].
    intros [= <- <-]. split.
    + intros t Ht. apply page_In in Ht as [Hin Hmt].
      split; [exact Hin | exact (searchQuery_owner L _ _ _ _ Hm Hmt)].
    + simpl. apply inj_le, filter_length_le.
      intros t Hmt. apply String.eqb_eq. exact (searchQuery_owner L _ _ _ _ Hm Hmt).
  - rewrite get_todos_invalid by (rewrite He; discriminate). discriminate.
Qed.

(** C10. A page parameter that is supplied but is no integer of at least 1,
    or a limit parameter that is supplied but is no integer from 1 to 100,
    makes the list route answer 400 with the validation errors, and the
    answer does not depend on the collection.  When the route answers 200,
    a supplied page (a safe integer) is the current page and a supplied
    limit is the page size, and the page 1 and the size 10 are used only
    for a parameter that is absent. *)
Theorem invalid_paging_rejected store req :
  ((exists s, req_query req !! "page" = Some (JStr s)
              /\ ~ (exists n, denotes s n /\ 1 <= n))
   \/ (exists s, req_query req !! "limit" = Some (JStr s)
                 /\ ~ (exists n, denotes s n /\ 1 <= n <= 100)) ->
   exists errs, errs <> []
     /\ forall store', get_todos L store' req = validationFailed errs /\ status (get_todos L store' req) = 400%nat)
  /\ (forall items pg,
        get_todos L store req = respond 200 (Todos items pg) ->
        (req_query req !! "page" = None -> currentPage pg = 1)
        /\ (forall s n, req_query req !! "page" = Some (JStr s) -> denotes s n ->
                        safeInteger n -> currentPage pg = n)
        /\ (req_query req !! "limit" = None ->
            totalPages pg = JS.ceilDiv (totalTodos pg) 10 /\ (length items <= 10)%nat)
        /\ (forall s n, req_query req !! "limit" = Some (JStr s) -> denotes s n ->
                        totalPages pg = JS.ceilDiv (totalTodos pg) n
                        /\ Z.of_nat (length items) <= n)).
Proof.
  destruct req as [pid uid o q]. simpl req_query. split.
  - intros H. exists (listErrors L q).
    assert (Hne : listErrors L q <> []).
    { unfold listErrors. destruct H as [(s & Hs & Hbad) | (s & Hs & Hbad)]; rewrite Hs.
      - rewrite (intParam_reject L "page" s 1 None); [discriminate|].
        intros (n & Hd & Hn & _). apply Hbad. eauto.
      - rewrite (intParam_reject L "limit" s 1 (Some 100)).
        + destruct (whenPresent (q !! "page") _); discriminate.
        + intros (n & Hd & Hn & Hm). apply Hbad. exists n. simpl in Hm.
          apply Z.leb_le in Hm. auto. }
    split; [exact Hne|]. intros store'.
    rewrite get_todos_invalid by exact Hne. split; reflexivity.
  - intros items pg.
    destruct (listErrors L q) as [|e es] eqn:He;
      [|rewrite get_todos_invalid by (rewrite He; discriminate); discriminate].
    rewrite get_todos_valid by exact He. cbv zeta.
    rewrite listQuery_page, listQuery_limit.
    destruct (compile L _) as [m|]; [|discriminate].
    intros [= <- <-]. simpl.
    unfold listErrors in He.
    apply app_eq_nil in He as [Hp He]. apply app_eq_nil in He as [Hl _].
    split; [now intros -> | split; [|split]].
    + intros s n Hs Hd _. rewrite Hs in *.
      now destruct (supplied_read L _ _ _ _ _ 1 Hp Hd ltac:(lia)) as [-> _].
    + intros ->. split; [reflexivity|]. simpl. rewrite length_take. lia.
    + intros s n Hs Hd. rewrite Hs in *.
      destruct (supplied_read L _ _ _ _ _ 10 Hl Hd ltac:(lia)) as [-> Hn].
      split; [reflexivity|]. rewrite length_take. lia.
Qed.

End ListRoute.

Section Pagination.
Context (L : Lib).
Import Mongoose Router.

Lemma intParam_lower v dflt lo hi n :
  intParam v dflt lo hi n -> lo <= dflt -> lo <= n.
Proof. intros [[_ ->] | (s & _ & _ & H & _)]; lia. Qed.

(** C3. For a page number of at least 1 and a page size from 1 to 100
    (or the defaults 1 and 10 when they are absent), the numbers being
    safe integers together with their product, the list route answers
    with the requested page; the number of pages it reports is the ceiling
    of the number of matching todos over the page size, there is a next
    page exactly when the current page is below that number, and a
    previous page exactly when the current page is above 1.  The page
    holds as many todos as are left after the earlier pages, at most the
    page size; without a search term the todos counted are those of the
    requester.  (15 todos with page size 6: three pages of 6, 6 and 3.) *)
Theorem pagination_info store req P S :
  intParam (req_query req !! "page") 1 1 None P ->
  intParam (req_query req !! "limit") 10 1 (Some 100) S ->
  searchAccepted L (req_query req !! "search") ->
  safeInteger (P * S) ->
  exists items pg,
    get_todos L store req = respond 200 (Todos items pg)
    /\ currentPage pg = P
    /\ 0 <= totalTodos pg
    /\ (totalPages pg - 1) * S < totalTodos pg <= totalPages pg * S
    /\ (hasNextPage pg = true <-> P < totalPages pg)
    /\ (hasPrevPage pg = true <-> 1 < P)
    /\ Z.of_nat (length items) = Z.min S (Z.max 0 (totalTodos pg - (P - 1) * S))
    /\ (req_query req !! "search" = None ->
        totalTodos pg = Z.of_nat (length (ownedTodos (req_user_id req) store))).
Proof.
  destruct req as [pid uid o q]. simpl req_query. simpl req_user_id.
  intros HP HS Hsearch _.
  pose proof (intParam_lower _ _ _ _ _ HP ltac:(lia)) as HP1.
  pose proof (intParam_lower _ _ _ _ _ HS ltac:(lia)) as HS1.
  destruct (intParam_read L "page" _ _ _ _ _ HP ltac:(lia)) as [Ep Vp].
  destruct (intParam_read L "limit" _ _ _ _ _ HS ltac:(lia)) as [El Vl].
  specialize (Vp ltac:(lia)). specialize (Vl ltac:(lia)).
  assert (He : listErrors L q = []).
  { unfold listErrors. now rewrite Ep, El, (searchAccepted_errors L _ Hsearch). }
  rewrite get_todos_valid by exact He. cbv zeta.
  rewrite listQuery_page, listQuery_limit, listQuery_search, Vp, Vl.
  destruct (searchAccepted_compiles L uid _ Hsearch) as [m Hm]. rewrite Hm.
  eexists _, _. split; [reflexivity|]. cbn [currentPage totalPages totalTodos hasNextPage hasPrevPage].
  split; [reflexivity|]. split; [lia|].
  split; [apply ceilDiv_spec; lia|].
  split; [apply Z.ltb_lt|]. split; [apply Z.ltb_lt|].
  split; [apply page_length; nia|].
  intros Hnone. rewrite Hnone in Hm. simpl in Hm. injection Hm as <-.
  unfold ownedTodos. f_equal. f_equal. apply filter_ext.
  intros t. apply andb_true_r.
Qed.

End Pagination.

(** *** The list route on the sample data *)

Import Sample Router.

Lemma numeral_3 : numeral ["3"%char] 3.
Proof. exact (numeral_one "3"%char eq_refl). Qed.

Lemma numeral_6 : numeral ["6"%char] 6.
Proof. exact (numeral_one "6"%char eq_refl). Qed.

Lemma denotes_3 : denotes "3" 3.
Proof. exact (denotes_plain _ _ numeral_3). Qed.

Lemma denotes_6 : denotes "6" 6.
Proof. exact (denotes_plain _ _ numeral_6). Qed.

Lemma pagination_info_witness :
  exists items pg,
    get_todos lib fifteen page3 = respond 200 (Todos items pg)
    /\ length items = 3%nat /\ totalTodos pg = 15 /\ totalPages pg = 3
    /\ hasNextPage pg = false /\ hasPrevPage pg = true.
Proof.
  destruct (pagination_info lib fifteen page3 3 6) as
    (items & pg & Heq & Hcur & Hpos & Hceil & Hnext & Hprev & Hlen & Htotal).
  - right. exists "3". repeat split; [exact denotes_3 | lia].
  - right. exists "6". repeat split; [exact denotes_6 | lia].
  - exact I.
  - unfold safeInteger. simpl. lia.
  - specialize (Htotal eq_refl).
    change (Z.of_nat (length (ownedTodos (req_user_id page3) fifteen))) with 15 in Htotal.
    exists items, pg. split; [exact Heq|].
    assert (totalPages pg = 3) by lia.
    repeat split; try lia.
    + destruct (hasNextPage pg); [|reflexivity]. lia.
    + apply Hprev. lia.
Defined.

(** Fifteen todos in pages of six: 6, 6 and 3 todos, newest first. *)
Example fifteen_in_pages :
  get_todos lib fifteen (pageOf "1")
  = respond 200 (Todos (map numbered (rev (seq 10 6))) (pageInfo 1 true false))
  /\ get_todos lib fifteen (pageOf "2")
     = respond 200 (Todos (map numbered (rev (seq 4 6))) (pageInfo 2 true true))
  /\ get_todos lib fifteen (pageOf "3")
     = respond 200 (Todos (map numbered (rev (seq 1 3))) (pageInfo 3 false true)).
Proof. vm_compute. repeat split. Qed.

Lemma denotes_0_only n : denotes "0" n -> n = 0.
Proof.
  intros H. apply (denotes_functional "0" n 0 H).
  exact (denotes_plain _ _ (numeral_one "0"%char eq_refl)).
Qed.

Lemma list_returns_own_todos_witness :
  get_todos lib [buyMilk; callMom; milkRun] (searching alice "milk")
  = respond 200 (Todos [buyMilk] (onePage 1))
  /\ ((forall t, In t [buyMilk] ->
         In t [buyMilk; callMom; milkRun] /\ userId t = alice)
      /\ totalTodos (onePage 1)
         <= Z.of_nat (length (ownedTodos alice [buyMilk; callMom; milkRun]))).
Proof.
  split; [vm_compute; reflexivity|].
  apply (list_returns_own_todos lib [buyMilk; callMom; milkRun]
           (searching alice "milk") [buyMilk] (onePage 1)).
  vm_compute; reflexivity.
Defined.

Lemma invalid_paging_rejected_witness :
  exists errs, errs <> []
    /\ forall store', get_todos lib store' pageZero = validationFailed errs
                      /\ status (get_todos lib store' pageZero) = 400%nat.
Proof.
  apply (proj1 (invalid_paging_rejected lib [] pageZero)).
  left. exists "0". split; [reflexivity|].
  intros (n & Hd & Hn). apply denotes_0_only in Hd. lia.
Defined.

(** ** Searching *)

Lemma prefixb_spec p l :
  Str.prefixb p l = true <-> exists post, l = (p ++ post)%list.
Proof.
  revert l. induction p as [|a p IH]; intros l; simpl.
  - split; [eauto | reflexivity].
  - destruct l as [|b l].
    + split; [discriminate | intros [post H]; discriminate H].
    + destruct (Ascii.eqb_spec a b) as [<- | Hne].
      * rewrite IH. split; intros [post H]; exists post; congruence.
      * split; [discriminate | intros [post H]; congruence].
Qed.

Lemma infixb_spec p l :
  Str.infixb p l = true <-> exists pre post, l = (pre ++ p ++ post)%list.
Proof.
  induction l as [|b l IH]; simpl.
  - rewrite orb_false_r, prefixb_spec. split.
    + intros [post H]. now exists [], post.
    + intros (pre & post & H). destruct pre; [eauto|discriminate].
  - rewrite orb_true_iff, prefixb_spec, IH. split.
    + intros [[post H] | (pre & post & H)].
      * now exists [], post.
      * exists (b :: pre), post. now rewrite H.
    + intros (pre & post & H). destruct pre as [|c pre].
      * left. eauto.
      * right. injection H as _ H. eauto.
Qed.

(** [containsCI needle hay]: the text [needle] occurs in [hay] when letter
    case is ignored. *)
Lemma containsCI_spec needle hay :
  Str.containsCI needle hay = true <->
  exists pre post,
    Str.lower (Str.chars hay) = (pre ++ Str.lower (Str.chars needle) ++ post)%list.
Proof. apply infixb_spec. Qed.


Section Search.
Context (L : Lib).
Import Mongoose.



End Search.

(** The sample engine finds ordinary text by substring search. *)






(** ** Bodies that name fields of a todo only *)

Lemma onlyFields_list fields (b : list (string * jsval)) :
  forallb (fun kv => existsb (String.eqb kv.1) fields) b = true ->
  onlyFields fields (list_to_map b).
Proof.
  intros H k [v Hk]. apply elem_of_list_to_map_2, list_elem_of_In in Hk.
  rewrite forallb_forall in H. specialize (H _ Hk). simpl in H.
  apply existsb_exists in H as (f & Hf & E).
  apply String.eqb_eq in E. now subst.
Qed.

Lemma onlyFields_absent fields (o : Obj) k :
  onlyFields fields o -> ~ In k fields -> o !! k = None.
Proof.
  intros H Hk. destruct (o !! k) as [v|] eqn:E; [|reflexivity].
  exfalso. apply Hk, H. now exists v.
Qed.

Lemma mutableFields_no_userId (o : Obj) :
  onlyFields mutableFields o -> o !! "userId" = None.
Proof.
  intros H. apply (onlyFields_absent _ _ _ H).
  unfold mutableFields. simpl. intros [E|[E|[E|[E|[E|[]]]]]]; discriminate E.
Qed.

(** ** Access to one todo *)

Section OneTodo.
Context (L : Lib) (sch : TodoSchema).
Import Mongoose.

Lemma find_none_all (m : Todo -> bool) l :
  (forall x, In x l -> m x = false) -> List.find m l = None.
Proof.
  induction l as [|x l IH]; intros H; [reflexivity|]. simpl.
  rewrite (H x (or_introl eq_refl)). apply IH. intros y Hy. apply H. now right.
Qed.

Lemma uniqueIds_inj store x y :
  uniqueIds store -> In x store -> In y store -> _id x = _id y -> x = y.
Proof.
  unfold uniqueIds. induction store as [|z l IH]; [contradiction|].
  simpl. intros Hnd [-> | Hx] [-> | Hy] E; auto.
  - apply NoDup_cons in Hnd as [Hz _]. exfalso. apply Hz.
    rewrite E. apply list_elem_of_In, in_map, Hy.
  - apply NoDup_cons in Hnd as [Hz _]. exfalso. apply Hz.
    rewrite <- E. apply list_elem_of_In, in_map, Hx.
  - apply NoDup_cons in Hnd as [_ Hnd]. auto.
Qed.

(** The filter [{ _id: req.params.id, userId: req.user._id }]. *)
Lemma ownedBy_compile pid uid o q :
  compile L (ownedBy (Build_request pid uid o q))
  = match castObjectId pid with
    | Some i => Some (fun t => String.eqb (_id t) i && (String.eqb (userId t) uid && true))
    | None => None
    end.
Proof. unfold ownedBy. simpl. now destruct (castObjectId pid). Qed.

(** Another account's todo is not found by the filter. *)
Lemma find_foreign store t uid :
  uniqueIds store -> In t store -> userId t <> uid ->
  List.find (fun x => String.eqb (_id x) (_id t) && (String.eqb (userId x) uid && true)) store
  = None.
Proof.
  intros Hu Hin Hne. apply find_none_all. intros x Hx.
  destruct (String.eqb_spec (_id x) (_id t)) as [E|]; [|reflexivity].
  rewrite (uniqueIds_inj store x t Hu Hx Hin E).
  destruct (String.eqb_spec (userId t) uid); [contradiction | reflexivity].
Qed.

(** Nor is a todo that is not in the collection. *)
Lemma find_missing store i uid :
  (forall x, In x store -> _id x <> i) ->
  List.find (fun x => String.eqb (_id x) i && (String.eqb (userId x) uid && true)) store
  = None.
Proof.
  intros H. apply find_none_all. intros x Hx.
  destruct (String.eqb_spec (_id x) i); [now apply H in Hx | reflexivity].
Qed.

(** The update route in terms of the errors and the sanitized body. *)
Lemma put_todo_eq store pid uid o q :
  put_todo L sch store (Build_request pid uid o q)
  = if Router.isEmpty (updateErrors L o) then
      match findOneAndUpdate L sch store
              (ownedBy (Build_request pid uid (updateBody L o) q)) (updateBody L o) with
      | (Return (Some todo), store') =>
          (respond 200 (MessageTodo "Todo updated successfully" todo), store')
      | (Return None, store') => (respond 404 (Message "Todo not found"), store')
      | (Throw, store') =>
          (respond 500 (Message "Server error while updating todo"), store')
      end
    else (validationFailed (updateErrors L o), store).
Proof.
  unfold put_todo. rewrite run_updateValidators.
  now destruct (updateErrors L o).
Qed.

(** C1, amended. For a todo of account A and a requester B other than A:
    the get and delete routes answer 404 "Todo not found"; the update
    route answers 400 when the fields fail the request validation, and
    404 when the body names fields of a todo only and these pass the
    request validation and the casts and validators of the schema; each
    answer, of the update route too and whatever the body, is the one
    given when the collection has no todo with that identifier, and the
    collection is left as it was. *)
Theorem foreign_todo_not_found store store0 req t :
  uniqueIds store -> In t store ->
  castObjectId (req_params_id req) = Some (_id t) ->
  userId t <> req_user_id req ->
  (forall x, In x store0 -> _id x <> _id t) ->
  get_todo L store req = respond 404 (Message "Todo not found")
  /\ get_todo L store0 req = get_todo L store req
  /\ delete_todo L store req = (respond 404 (Message "Todo not found"), store)
  /\ fst (delete_todo L store0 req) = fst (delete_todo L store req)
  /\ snd (put_todo L sch store req) = store
  /\ fst (put_todo L sch store0 req) = fst (put_todo L sch store req)
  /\ (updateErrors L (req_body req) <> [] ->
      fst (put_todo L sch store req) = validationFailed (updateErrors L (req_body req)))
  /\ (updateErrors L (req_body req) = [] ->
      onlyFields updateKeys (req_body req) ->
      forall p, castUpdate L (updateBody L (req_body req)) = Return p ->
                validatePatch sch p = true ->
                fst (put_todo L sch store req) = respond 404 (Message "Todo not found")).
Proof.
  destruct req as [pid uid o q]. simpl req_params_id. simpl req_user_id. simpl req_body.
  intros Hu Hin Hid Hne Hmiss.
  pose proof (find_foreign store t uid Hu Hin Hne) as Hfind.
  pose proof (find_missing store0 (_id t) uid Hmiss) as Hfind0.
  unfold get_todo, delete_todo, findOne, findOneAndDelete.
  rewrite !put_todo_eq. unfold findOneAndUpdate.
  rewrite !ownedBy_compile, Hid, Hfind, Hfind0.
  repeat (split; [reflexivity|]).
  split; [|split; [|split]].
  - destruct (Router.isEmpty _); [|reflexivity].
    destruct (castUpdate L _) as [p|]; [|reflexivity].
    now destruct (validatePatch sch p).
  - destruct (Router.isEmpty _); [|reflexivity].
    destruct (castUpdate L _) as [p|]; [|reflexivity].
    now destruct (validatePatch sch p).
  - intros He. destruct (updateErrors L o); [congruence | reflexivity].
  - intros -> _ p -> ->. reflexivity.
Qed.

End OneTodo.

Lemma foreign_todo_not_found_witness :
  let req := onTodo id1 bob [("title", JStr "Buy bread")] in
  get_todo lib [buyMilk; callMom] req = notFound
  /\ get_todo lib [callMom] req = get_todo lib [buyMilk; callMom] req
  /\ delete_todo lib [buyMilk; callMom] req = (notFound, [buyMilk; callMom])
  /\ put_todo lib specSchema [buyMilk; callMom] req = (notFound, [buyMilk; callMom])
  /\ put_todo lib specSchema [callMom] req = (notFound, [callMom]).
Proof.
  intros req.
  destruct (foreign_todo_not_found lib specSchema [buyMilk; callMom] [callMom] req buyMilk)
    as (Hget & Hget0 & Hdel & _ & Hstore & Hsame & _ & Hput).
  - unfold uniqueIds. apply (bool_decide_unpack _). vm_compute. exact I.
  - now left.
  - reflexivity.
  - discriminate.
  - intros x [<- | []]. discriminate.
  - assert (Hkeys : onlyFields updateKeys (req_body req))
      by (apply onlyFields_list; reflexivity).
    specialize (Hput eq_refl Hkeys _ eq_refl eq_refl).
    split; [exact Hget|]. split; [exact Hget0|]. split; [exact Hdel|].
    split; [|reflexivity].
    rewrite (surjective_pairing (put_todo _ _ _ _)), Hstore, Hput. reflexivity.
Defined.

(** The claim as first stated fails for an update whose fields do not pass
    the request validation: the answer is 400, not 404. *)
Lemma foreign_update_invalid_fields :
  In buyMilk [buyMilk; callMom] /\ userId buyMilk <> bob
  /\ put_todo lib specSchema [buyMilk; callMom] (onTodo id1 bob [("title", JStr "")])
     = (validationFailed ["title"], [buyMilk; callMom])
  /\ status (validationFailed ["title"]) = 400%nat.
Proof. split; [now left|]. split; [discriminate|]. vm_compute. split; reflexivity. Qed.

(** ** Creating a todo *)

Section Create.
Context (L : Lib) (sch : TodoSchema).
Import Mongoose.

Lemma createBody_title o :
  createBody L o !! "title"
  = Some (JStr (Validator.trim (EV.toString L (o !! "title")))).
Proof.
  unfold createBody. rewrite !lookup_alter_ne by discriminate.
  apply lookup_insert_eq.
Qed.

Lemma createBody_description o :
  createBody L o !! "description" = trimField L <$> (o !! "description").
Proof.
  unfold createBody. rewrite lookup_alter_ne by discriminate.
  rewrite lookup_alter_eq. now rewrite lookup_insert_ne by discriminate.
Qed.

Lemma createBody_dueDate o :
  createBody L o !! "dueDate" = dateField L <$> (o !! "dueDate").
Proof.
  unfold createBody. rewrite lookup_alter_eq.
  rewrite lookup_alter_ne by discriminate.
  now rewrite lookup_insert_ne by discriminate.
Qed.

Lemma createBody_priority o : createBody L o !! "priority" = o !! "priority".
Proof.
  unfold createBody. rewrite !lookup_alter_ne by discriminate.
  now rewrite lookup_insert_ne by discriminate.
Qed.

(** The create route in terms of the errors and the sanitized body. *)
Lemma post_todo_eq store pid uid o q id now :
  post_todo L sch store (Build_request pid uid o q) id now
  = if Router.isEmpty (createErrors L o) then
      match newTodo L (Some (JStr (Validator.trim (EV.toString L (o !! "title")))))
              (trimField L <$> (o !! "description"))
              (dateField L <$> (o !! "dueDate"))
              (if JS.truthy (o !! "priority") then o !! "priority"
               else Some (JStr "medium"))
              uid id now with
      | Return todo =>
          match save sch store todo with
          | (Return saved, store') =>
              (respond 201 (MessageTodo "Todo created successfully" saved), store')
          | (Throw, store') =>
              (respond 500 (Message "Server error while creating todo"), store')
          end
      | Throw => (respond 500 (Message "Server error while creating todo"), store)
      end
    else (validationFailed (createErrors L o), store).
Proof.
  unfold post_todo. rewrite run_createValidators.
  cbn [req_body req_user_id].
  rewrite createBody_title, createBody_description, createBody_dueDate,
    createBody_priority.
  now destruct (createErrors L o).
Qed.

(** The document built from a sanitized body. *)
Lemma newTodo_sanitized t d due p uid id now :
  newTodo L (Some (JStr t)) (trimField L <$> d) (dateField L <$> due)
    (Some (JStr p)) uid id now
  = Return {| _id := id; userId := uid; title := t;
              description := trimmed L <$> d; completed := false;
              dueDate := due ≫= dueOf L; priority := p; createdAt := now |}.
Proof.
  unfold newTodo. destruct d as [d|], due as [due|]; simpl;
    unfold dateField, dueOf, Validator.toDate;
    try destruct (lib_dateParse L _); reflexivity.
Qed.

Lemma save_fresh store id :
  freshId store id ->
  existsb (fun x => String.eqb (_id x) id) store = false.
Proof.
  intros H. apply not_true_is_false. intros E.
  apply existsb_exists in E as (x & Hx & Ex).
  apply String.eqb_eq in Ex. exact (H x Hx Ex).
Qed.

(** An unknown priority fails the chain of the route. *)
Lemma unknown_priority_error o v :
  o !! "priority" = Some v ->
  Validator.isIn (EV.toString L (Some v)) priorities = false ->
  In "priority" (createErrors L o).
Proof.
  intros Hv Hin. unfold createErrors. rewrite Hv. cbn [whenPresent].
  rewrite Hin. apply in_or_app. right. apply in_or_app. right. now left.
Qed.

(** C5, amended. A create call that leaves the priority out and is
    otherwise acceptable (it passes the request validation, its trimmed
    title and description pass the validators of the schema, and the new
    identifier is not in use) stores a todo whose priority is medium.  A
    create call with a priority outside low, medium and high is answered
    400 with a validation error on the priority, and nothing is stored. *)
Theorem create_priority store req id now :
  (req_body req !! "priority" = None ->
   createErrors L (req_body req) = [] ->
   validTitle sch (Validator.trim (EV.toString L (req_body req !! "title"))) = true ->
   (forall d, req_body req !! "description" = Some d ->
              validDescription sch (trimmed L d) = true) ->
   freshId store id ->
   exists todo,
     post_todo L sch store req id now
     = (respond 201 (MessageTodo "Todo created successfully" todo),
        (store ++ [todo])%list)
     /\ priority todo = "medium" /\ completed todo = false
     /\ userId todo = req_user_id req /\ _id todo = id /\ createdAt todo = now
     /\ title todo = Validator.trim (EV.toString L (req_body req !! "title")))
  /\ (forall v,
        req_body req !! "priority" = Some v ->
        Validator.isIn (EV.toString L (Some v)) priorities = false ->
        post_todo L sch store req id now
        = (validationFailed (createErrors L (req_body req)), store)
        /\ In "priority" (createErrors L (req_body req))
        /\ status (fst (post_todo L sch store req id now)) = 400%nat).
Proof.
  destruct req as [pid uid o q]. cbn [req_body req_user_id]. split.
  - intros Hp He Ht Hd Hfresh.
    rewrite post_todo_eq, He, Hp. cbn [Router.isEmpty JS.truthy].
    rewrite newTodo_sanitized. unfold save. cbn [title description priority _id].
    rewrite Ht, (save_fresh store id Hfresh).
    replace (from_option (validDescription sch) true (trimmed L <$> o !! "description"))
      with true by (destruct (o !! "description") as [d|]; simpl; [now rewrite Hd | reflexivity]).
    cbn. eexists. split; [reflexivity|]. repeat split.
  - intros v Hv Hin.
    pose proof (unknown_priority_error o v Hv Hin) as Herr.
    rewrite post_todo_eq.
    destruct (createErrors L o) as [|e es]; [contradiction|].
    repeat split. exact Herr.
Qed.

End Create.

Lemma create_priority_witness :
  (exists todo,
     post_todo lib specSchema [buyMilk] (creating alice [("title", JStr "Test")]) id2 7
     = (respond 201 (MessageTodo "Todo created successfully" todo), [buyMilk; todo])
     /\ priority todo = "medium" /\ completed todo = false)
  /\ post_todo lib specSchema [buyMilk]
       (creating alice [("title", JStr "Test"); ("priority", JStr "urgent")]) id2 7
     = (validationFailed ["priority"], [buyMilk]).
Proof.
  split.
  - destruct (proj1 (create_priority lib specSchema [buyMilk]
                       (creating alice [("title", JStr "Test")]) id2 7))
      as (todo & Heq & Hp & Hc & _).
    + reflexivity.
    + reflexivity.
    + reflexivity.
    + intros d Hd. discriminate Hd.
    + intros x [<- | []]. discriminate.
    + exists todo. repeat split; assumption.
  - destruct (proj2 (create_priority lib specSchema [buyMilk]
                       (creating alice [("title", JStr "Test"); ("priority", JStr "urgent")])
                       id2 7) (JStr "urgent")) as (Heq & _).
    + reflexivity.
    + reflexivity.
    + exact Heq.
Defined.

(** The claim as first stated fails for a priority that is not one of the
    three: the call is refused and nothing is stored. *)
Lemma unknown_priority_is_refused :
  post_todo lib specSchema []
    (creating alice [("title", JStr "Test"); ("priority", JStr "urgent")]) id1 7
  = (validationFailed ["priority"], [])
  /\ status (validationFailed ["priority"]) = 400%nat.
Proof. vm_compute. split; reflexivity. Qed.

(** A due date is parsed by the chain; the [null] the form sends for an
    empty date does not pass it. *)
Example create_with_due_date :
  post_todo lib specSchema [] dated id1 7
  = (respond 201 (MessageTodo "Todo created successfully" payRent), [payRent])
  /\ post_todo lib specSchema [] undated id1 7 = (validationFailed ["dueDate"], [])
  /\ datePrint 20250131 = "2025-01-31".
Proof. vm_compute. repeat split. Qed.

Section CreateTitle.
Context (L : Lib) (sch : TodoSchema).
Import Mongoose.

(** A create call without a title, or with the empty title, is answered
    400 and stores nothing. *)
Lemma missing_title_refused store req id now :
  req_body req !! "title" = None \/ req_body req !! "title" = Some (JStr "") ->
  post_todo L sch store req id now
  = (validationFailed (createErrors L (req_body req)), store)
  /\ In "title" (createErrors L (req_body req)).
Proof.
  destruct req as [pid uid o q]. cbn [req_body]. intros H.
  assert (Herr : In "title" (createErrors L o)).
  { unfold createErrors. apply in_or_app. left.
    destruct H as [-> | ->]; now left. }
  rewrite post_todo_eq. destruct (createErrors L o); [contradiction|].
  split; [reflexivity | exact Herr].
Qed.

Lemma trim_empty : Validator.trim "" = "".
Proof. reflexivity. Qed.

(** A title that is not empty once trimmed passes the check of the
    title. *)
Lemma title_check_passes (o : Obj) s :
  o !! "title" = Some (JStr s) -> Validator.trim s <> "" ->
  failing "title" (negb (Validator.isEmpty (EV.toString L (o !! "title")))) = [].
Proof.
  intros -> Hs. change (EV.toString L (Some (JStr s))) with s.
  unfold Validator.isEmpty. destruct (String.eqb_spec s ""); [|reflexivity].
  subst s. now rewrite trim_empty in Hs.
Qed.

(** C6 (the route departs from the claim). A title made of blanks only
    passes the request validation, because it is tested for emptiness
    before it is trimmed: the call is not answered 400.  The empty title
    it leaves is refused by a schema that requires the title, which the
    route reports as a server error, and is stored by a schema that does
    not. *)
Theorem blank_title_passes_validation store uid id now :
  createErrors L (req_body (blankTitle uid)) = []
  /\ post_todo L specSchema store (blankTitle uid) id now
     = (serverError "Server error while creating todo", store)
  /\ post_todo L bareSchema [] (blankTitle uid) id now
     = (respond 201 (MessageTodo "Todo created successfully" (untitled id uid now)),
        [untitled id uid now]).
Proof.
  split; [reflexivity|]. unfold blankTitle, creating, mkReq.
  rewrite !post_todo_eq. split; reflexivity.
Qed.

End CreateTitle.

(** ** Updating a todo *)

Section Update.
Context (L : Lib) (sch : TodoSchema).
Import Mongoose.

Lemma updateBody_title o :
  updateBody L o !! "title" = trimField L <$> (o !! "title").
Proof.
  unfold updateBody. rewrite !lookup_alter_ne by discriminate.
  apply lookup_alter_eq.
Qed.

Lemma updateBody_description o :
  updateBody L o !! "description" = trimField L <$> (o !! "description").
Proof.
  unfold updateBody. rewrite lookup_alter_ne by discriminate.
  rewrite lookup_alter_eq. now rewrite lookup_alter_ne by discriminate.
Qed.

Lemma updateBody_dueDate o :
  updateBody L o !! "dueDate" = dateField L <$> (o !! "dueDate").
Proof.
  unfold updateBody. rewrite lookup_alter_eq.
  now rewrite !lookup_alter_ne by discriminate.
Qed.

(** The chains leave the other fields of the body as they came. *)
Lemma updateBody_other o k :
  k <> "title" -> k <> "description" -> k <> "dueDate" ->
  updateBody L o !! k = o !! k.
Proof.
  intros H1 H2 H3. unfold updateBody.
  now rewrite !lookup_alter_ne by congruence.
Qed.

Lemma castKey_trimmed v :
  castKey (castString L) (trimField L <$> v) = Return (trimmed L <$> v).
Proof. now destruct v. Qed.

Lemma castKey_date v :
  castNullableKey (castDate L) (dateField L <$> v) = Return (dueOf L <$> v).
Proof.
  destruct v as [x|]; [|reflexivity]. simpl.
  unfold dateField, dueOf, Validator.toDate.
  now destruct (lib_dateParse L _).
Qed.

(** The [$set] the sanitized body of an update amounts to. *)
Lemma castUpdate_sanitized o :
  castUpdate L (updateBody L o)
  = match castKey castBoolean (o !! "completed"),
          castKey (castString L) (o !! "priority"),
          castKey castObjectIdVal (o !! "userId") with
    | Return c, Return p, Return u =>
        Return {| set_title := trimmed L <$> (o !! "title");
                  set_description := trimmed L <$> (o !! "description");
                  set_completed := c;
                  set_dueDate := dueOf L <$> (o !! "dueDate");
                  set_priority := p;
                  set_userId := u |}
    | _, _, _ => Throw
    end.
Proof.
  unfold castUpdate.
  rewrite updateBody_title, updateBody_description, updateBody_dueDate.
  rewrite !updateBody_other by discriminate.
  rewrite !castKey_trimmed, castKey_date.
  destruct (castKey castBoolean (o !! "completed")),
    (castKey (castString L) (o !! "priority")),
    (castKey castObjectIdVal (o !! "userId")); reflexivity.
Qed.

Lemma castKey_Return {A} (c : jsval -> cast A) v r :
  castKey c v = Return r ->
  match v with
  | Some x => exists a, c x = Cast a /\ r = Some a
  | None => r = None
  end.
Proof.
  destruct v as [x|]; simpl; [|congruence].
  destruct (c x); [|discriminate..]. intros [= <-]. eauto.
Qed.

(** The first document that passes a test splits the collection around
    it, and an update of it leaves the rest in place. *)
Lemma replaceFirst_split (m : Todo -> bool) f l t :
  List.find m l = Some t ->
  exists l1 l2, l = (l1 ++ t :: l2)%list /\ m t = true
                /\ replaceFirst m f l = (l1 ++ f t :: l2)%list.
Proof.
  induction l as [|x l IH]; [discriminate|]. simpl.
  destruct (m x) eqn:E.
  - intros [= ->]. exists [], l. auto.
  - intros H. destruct (IH H) as (l1 & l2 & -> & Hm & ->).
    exists (x :: l1), l2. auto.
Qed.

(** What an answer 200 of the update route tells: the body passed the
    chains, its [$set] passed the validators of the schema, and the filter
    found a todo, which the [$set] was applied to. *)
Lemma put_todo_success store req msg todo' store' :
  put_todo L sch store req = (respond 200 (MessageTodo msg todo'), store') ->
  exists t l1 l2 c p u,
    store = (l1 ++ t :: l2)%list /\ store' = (l1 ++ todo' :: l2)%list
    /\ userId t = req_user_id req
    /\ castObjectId (req_params_id req) = Some (_id t)
    /\ castKey castBoolean (req_body req !! "completed") = Return c
    /\ castKey (castString L) (req_body req !! "priority") = Return p
    /\ castKey castObjectIdVal (req_body req !! "userId") = Return u
    /\ todo' = applyPatch
                 {| set_title := trimmed L <$> req_body req !! "title";
                    set_description := trimmed L <$> req_body req !! "description";
                    set_completed := c;
                    set_dueDate := dueOf L <$> req_body req !! "dueDate";
                    set_priority := p;
                    set_userId := u |} t.
Proof.
  destruct req as [pid uid o q]. cbn [req_body req_user_id req_params_id].
  rewrite put_todo_eq. destruct (Router.isEmpty _); [|discriminate].
  unfold findOneAndUpdate. rewrite ownedBy_compile, castUpdate_sanitized.
  destruct (castObjectId pid) as [i|]; [|discriminate].
  destruct (castKey castBoolean _) as [c|] eqn:Hc; [|discriminate].
  destruct (castKey (castString L) _) as [p|] eqn:Hp; [|discriminate].
  destruct (castKey castObjectIdVal _) as [u|] eqn:Hu; [|discriminate].
  destruct (validatePatch sch _); [|discriminate].
  destruct (List.find _ store) as [t|] eqn:Hfind; [|discriminate].
  intros [= <- <- <-].
  destruct (replaceFirst_split _ (applyPatch
              {| set_title := trimmed L <$> o !! "title";
                 set_description := trimmed L <$> o !! "description";
                 set_completed := c;
                 set_dueDate := dueOf L <$> o !! "dueDate";
                 set_priority := p;
                 set_userId := u |}) _ _ Hfind) as (l1 & l2 & Hs & Hm & Hr).
  apply andb_prop in Hm as [Hid Hown]. apply andb_prop in Hown as [Hown _].
  apply String.eqb_eq in Hid, Hown. subst i.
  exists t, l1, l2, c, p, u. repeat split; auto.
Qed.

(** C7, amended. When the update route answers 200 to a body whose keys
    are among title, description, completed, dueDate and priority, the
    collection had a todo [t] of the requester under the requested
    identifier, the answer carries the todo as it is stored afterwards,
    and the collection differs from the one before in that todo alone.
    Each of these fields that the body supplies takes the supplied value
    as the route has sanitized and cast it (title and description
    trimmed, dueDate parsed as a date); each field the body does not
    supply, the identifier, the owner and the creation time keep the
    value they had. *)
Theorem update_changes_supplied_fields store req msg todo' store' :
  onlyFields mutableFields (req_body req) ->
  put_todo L sch store req = (respond 200 (MessageTodo msg todo'), store') ->
  exists t l1 l2,
    store = (l1 ++ t :: l2)%list /\ store' = (l1 ++ todo' :: l2)%list
    /\ userId t = req_user_id req
    /\ castObjectId (req_params_id req) = Some (_id t)
    /\ _id todo' = _id t /\ createdAt todo' = createdAt t
    /\ title todo' = from_option (trimmed L) (title t) (req_body req !! "title")
    /\ description todo'
       = match req_body req !! "description" with
         | Some x => Some (trimmed L x)
         | None => description t
         end
    /\ dueDate todo' = from_option (dueOf L) (dueDate t) (req_body req !! "dueDate")
    /\ match req_body req !! "completed" with
       | Some x => castBoolean x = Cast (completed todo')
       | None => completed todo' = completed t
       end
    /\ match req_body req !! "priority" with
       | Some x => castString L x = Cast (priority todo')
       | None => priority todo' = priority t
       end
    /\ userId todo' = userId t.
Proof.
  intros Hkeys H. apply mutableFields_no_userId in Hkeys.
  destruct (put_todo_success _ _ _ _ _ H)
    as (t & l1 & l2 & c & p & u & Hs & Hs' & Hown & Hid & Hc & Hp & Hu & ->).
  exists t, l1, l2. split; [exact Hs|]. split; [exact Hs'|].
  split; [exact Hown|]. split; [exact Hid|].
  apply castKey_Return in Hc, Hp, Hu.
  unfold applyPatch. cbn [_id createdAt title description dueDate completed priority
                          userId set_title set_description set_completed set_dueDate
                          set_priority set_userId].
  split; [reflexivity|]. split; [reflexivity|].
  split; [now destruct (req_body req !! "title")|].
  split; [now destruct (req_body req !! "description")|].
  split; [now destruct (req_body req !! "dueDate")|].
  split; [|split].
  - destruct (req_body req !! "completed");
      [destruct Hc as (a & -> & ->) | subst c]; reflexivity.
  - destruct (req_body req !! "priority");
      [destruct Hp as (a & -> & ->) | subst p]; reflexivity.
  - rewrite Hkeys in Hu. now subst u.
Qed.

(** C2 (the route departs from the claim). The update route hands the
    whole body to the update: a body with a [userId] makes the todo
    another account's.  Afterwards its former owner no longer finds it and
    the other account does. *)
Theorem update_reassigns_owner :
  put_todo L sch [buyMilk] (onTodo id1 alice [("userId", JStr bob)])
  = (updated (todo id1 bob "Buy milk" 1), [todo id1 bob "Buy milk" 1])
  /\ get_todo L [todo id1 bob "Buy milk" 1] (onTodo id1 alice []) = notFound
  /\ get_todo L [todo id1 bob "Buy milk" 1] (onTodo id1 bob [])
     = respond 200 (TodoDoc (todo id1 bob "Buy milk" 1)).
Proof.
  unfold onTodo, mkReq. rewrite put_todo_eq. repeat split; reflexivity.
Qed.

(** With no [userId] in the body, an update leaves the owner as it was. *)
Lemma update_keeps_owner store req msg todo' store' :
  req_body req !! "userId" = None ->
  put_todo L sch store req = (respond 200 (MessageTodo msg todo'), store') ->
  userId todo' = req_user_id req.
Proof.
  intros Hnone H.
  destruct (put_todo_success store req msg todo' store' H)
    as (t & l1 & l2 & c & p & u & _ & _ & Hown & _ & _ & _ & Hu & ->).
  rewrite Hnone in Hu. injection Hu as <-. exact Hown.
Qed.

End Update.

Lemma update_changes_supplied_fields_witness :
  put_todo lib specSchema [buyMilk; report] markDone
  = (updated reportDone, [buyMilk; reportDone])
  /\ exists t l1 l2,
       [buyMilk; report] = (l1 ++ t :: l2)%list
       /\ [buyMilk; reportDone] = (l1 ++ reportDone :: l2)%list
       /\ title reportDone = title t /\ description reportDone = description t
       /\ dueDate reportDone = dueDate t /\ priority reportDone = priority t
       /\ createdAt reportDone = createdAt t /\ completed reportDone = true.
Proof.
  assert (H : put_todo lib specSchema [buyMilk; report] markDone
              = (updated reportDone, [buyMilk; reportDone])) by (vm_compute; reflexivity).
  split; [exact H|].
  assert (Hkeys : onlyFields mutableFields (req_body markDone))
    by (apply onlyFields_list; reflexivity).
  destruct (update_changes_supplied_fields lib specSchema _ _ _ _ _ Hkeys H)
    as (t & l1 & l2 & Hs & Hs' & _ & _ & _ & Hc & Ht & Hd & Hdue & _ & Hp & _).
  exists t, l1, l2. repeat split; assumption.
Defined.

(** The claim as first stated fails for a title with blanks around it: the
    title stored is the trimmed one, not the one supplied. *)
Lemma update_stores_trimmed_title :
  put_todo lib specSchema [buyMilk] retitle
  = (updated (todo id1 alice "Buy bread" 1), [todo id1 alice "Buy bread" 1])
  /\ req_body retitle !! "title" = Some (JStr " Buy bread ")
  /\ title (todo id1 alice "Buy bread" 1) <> " Buy bread ".
Proof. split; [vm_compute; reflexivity|]. split; [reflexivity | discriminate]. Qed.

(** ** Bounds on the lengths *)

Section Lengths.
Context (L : Lib) (sch : TodoSchema).
Import Mongoose.

Lemma newTodo_fields t d due p uid id now todo :
  newTodo L (Some (JStr t)) (trimField L <$> d) due p uid id now = Return todo ->
  title todo = t /\ description todo = trimmed L <$> d.
Proof.
  unfold newTodo. cbn [castKey castString].
  replace (castNullableKey (castString L) (trimField L <$> d))
    with (Return (Some <$> (trimmed L <$> d))) by now destruct d.
  destruct (castNullableKey (castDate L) due); [|discriminate].
  destruct (castKey (castString L) p) as [[]|]; [|discriminate..].
  intros [= <-]. split; [reflexivity|]. now destruct d.
Qed.

Lemma too_long n s :
  (n < String.length s)%nat -> withinLength (Some n) s = false.
Proof. intros H. simpl. apply Nat.leb_gt, H. Qed.

Lemma trimmed_nonempty x n :
  (n < String.length (trimmed L x))%nat ->
  Validator.isEmpty (EV.toString L (Some x)) = false.
Proof.
  unfold trimmed, Validator.isEmpty. intros H.
  destruct (String.eqb_spec (EV.toString L (Some x)) "") as [E|]; [|reflexivity].
  rewrite E in H. simpl in H. lia.
Qed.

Lemma failing_In f g ok : In f (failing g ok) -> f = g /\ ok = false.
Proof. unfold failing. destruct ok; [contradiction|]. intros [<- | []]. auto. Qed.

Lemma whenPresent_In f g v ok :
  In f (whenPresent v (fun x => failing g (ok x))) ->
  f = g /\ exists x, v = Some x /\ ok x = false.
Proof.
  destruct v as [x|]; [|contradiction]. simpl. intros H.
  apply failing_In in H as [-> H]. eauto.
Qed.

(** The request validation reports a title only when it is empty, and
    never a description. *)
Lemma title_error_empty o :
  In "title" (createErrors L o) \/ In "title" (updateErrors L o) ->
  Validator.isEmpty (EV.toString L (o !! "title")) = true.
Proof.
  unfold createErrors, updateErrors. intros [H | H];
    repeat (apply in_app_or in H as [H | H]);
    try (apply whenPresent_In in H as [E _]; discriminate E).
  - apply failing_In in H as [_ H]. now apply negb_false_iff in H.
  - apply whenPresent_In in H as (_ & x & -> & H). now apply negb_false_iff in H.
Qed.

Lemma no_description_error o :
  ~ In "description" (createErrors L o) /\ ~ In "description" (updateErrors L o).
Proof.
  unfold createErrors, updateErrors. split; intros H;
    repeat (apply in_app_or in H as [H | H]);
    try (apply whenPresent_In in H as [E _]; discriminate E).
  apply failing_In in H as [E _]. discriminate E.
Qed.

(** C8, amended. The request validation of create and update does not
    look at lengths: a title of more than 100 characters is not reported,
    and a description never is.  With a schema that bounds the title at
    100 and the description at 500 characters, a create or update call
    that passes the request validation with a longer title or description
    (after trimming) is answered with a server error, status 500, and the
    collection is left as it was. *)
Theorem long_text_server_error store req id now :
  title_maxlength sch = Some 100%nat ->
  description_maxlength sch = Some 500%nat ->
  (exists x, req_body req !! "title" = Some x
             /\ (100 < String.length (trimmed L x))%nat)
  \/ (exists x, req_body req !! "description" = Some x
                /\ (500 < String.length (trimmed L x))%nat) ->
  (createErrors L (req_body req) = [] ->
   post_todo L sch store req id now
   = (respond 500 (Message "Server error while creating todo"), store))
  /\ (updateErrors L (req_body req) = [] ->
      put_todo L sch store req
      = (respond 500 (Message "Server error while updating todo"), store))
  /\ ((exists x, req_body req !! "title" = Some x
                 /\ (100 < String.length (trimmed L x))%nat) ->
      ~ In "title" (createErrors L (req_body req))
      /\ ~ In "title" (updateErrors L (req_body req)))
  /\ ~ In "description" (createErrors L (req_body req))
  /\ ~ In "description" (updateErrors L (req_body req)).
Proof.
  destruct req as [pid uid o q]. cbn [req_body]. intros Ht Hd Hlong.
  assert (Hbad : forall p,
             set_title p = trimmed L <$> o !! "title" ->
             set_description p = trimmed L <$> o !! "description" ->
             validatePatch sch p = false).
  { intros p Et Ed. unfold validatePatch. rewrite Et, Ed.
    destruct Hlong as [(x & -> & Hx) | (x & -> & Hx)]; simpl.
    - unfold validTitle. rewrite Ht, (too_long _ _ Hx).
      now rewrite andb_false_r.
    - unfold validDescription. rewrite Hd, (too_long _ _ Hx).
      now rewrite andb_false_r. }
  split; [|split; [|split; [|apply no_description_error]]].
  - intros He. rewrite post_todo_eq, He. cbn [Router.isEmpty].
    destruct (newTodo L _ _ _ _ uid id now) as [todo|] eqn:Hnew; [|reflexivity].
    apply newTodo_fields in Hnew as [Etitle Edesc].
    unfold save. rewrite Etitle, Edesc.
    replace (validTitle sch _ && from_option (validDescription sch) true _) with false;
      [reflexivity|].
    symmetry. destruct Hlong as [(x & Hx & Hlen) | (x & Hx & Hlen)]; rewrite Hx.
    + unfold validTitle. fold (trimmed L x). rewrite Ht, (too_long _ _ Hlen).
      now rewrite andb_false_r.
    + simpl. unfold validDescription. rewrite Hd, (too_long _ _ Hlen).
      apply andb_false_r.
  - intros He. rewrite put_todo_eq, He. cbn [Router.isEmpty].
    unfold findOneAndUpdate. rewrite castUpdate_sanitized.
    destruct (compile L _); [|reflexivity].
    destruct (castKey castBoolean _); [|reflexivity].
    destruct (castKey (castString L) _); [|reflexivity].
    destruct (castKey castObjectIdVal _); [|reflexivity].
    now rewrite Hbad.
  - intros (x & Hx & Hlen).
    pose proof (trimmed_nonempty x _ Hlen) as Hne.
    split; intros H;
      [pose proof (title_error_empty o (or_introl H)) as E
      |pose proof (title_error_empty o (or_intror H)) as E];
      rewrite Hx in E; congruence.
Qed.

End Lengths.

Lemma long_text_server_error_witness :
  post_todo lib specSchema [buyMilk] longCreate id2 7
  = (serverError "Server error while creating todo", [buyMilk])
  /\ put_todo lib specSchema [buyMilk] longUpdate
     = (serverError "Server error while updating todo", [buyMilk])
  /\ ~ In "title" (createErrors lib (req_body longCreate)).
Proof.
  destruct (long_text_server_error lib specSchema [buyMilk] longCreate id2 7)
    as (Hpost & _ & Herr & _); [reflexivity | reflexivity | |].
  { left. exists (JStr longTitle). split; [reflexivity | vm_compute; lia]. }
  destruct (long_text_server_error lib specSchema [buyMilk] longUpdate id2 7)
    as (_ & Hput & _); [reflexivity | reflexivity | |].
  { left. exists (JStr longTitle). split; [reflexivity | vm_compute; lia]. }
  split; [apply Hpost; reflexivity|]. split; [apply Hput; reflexivity|].
  apply Herr. exists (JStr longTitle). split; [reflexivity | vm_compute; lia].
Defined.

(** The claim as first stated fails: a title of 101 characters is not
    answered 400.  With the bounds in the schema the answer is 500; with a
    schema without bounds the todo is stored. *)
Lemma long_title_is_not_invalid_input :
  String.length longTitle = 101%nat
  /\ post_todo lib specSchema [] longCreate id1 7
     = (serverError "Server error while creating todo", [])
  /\ post_todo lib bareSchema [] longCreate id1 7
     = (respond 201 (MessageTodo "Todo created successfully" (todo id1 alice longTitle 7)),
        [todo id1 alice longTitle 7])
  /\ put_todo lib specSchema [buyMilk] longUpdate
     = (serverError "Server error while updating todo", [buyMilk]).
Proof. vm_compute. repeat split. Qed.

(** * Further properties *)

(** ** The list route: order, bounds, pages *)

Section ListMore.
Context (L : Lib).
Import Mongoose.

Lemma insertDesc_sorted t l :
  StronglySorted notOlder l -> StronglySorted notOlder (insertDesc t l).
Proof.
  induction l as [|x l IH]; intros Hs; simpl.
  - repeat constructor.
  - apply StronglySorted_inv in Hs as [Hl Hx].
    destruct (Z.leb_spec (createdAt x) (createdAt t)) as [Hle | Hlt].
    + constructor; [now constructor|].
      constructor; [exact Hle|].
      eapply Forall_impl; [exact Hx|]. unfold notOlder. intros y Hy. lia.
    + constructor; [now apply IH|].
      eapply Permutation_Forall; [symmetry; apply insertDesc_perm|].
      constructor; [unfold notOlder; lia | exact Hx].
Qed.

Lemma sort_sorted l : StronglySorted notOlder (sortCreatedAtDesc l).
Proof.
  induction l as [|x l IH]; simpl; [constructor | now apply insertDesc_sorted].
Qed.

(** Todos with distinct creation times have one listing newest first. *)
Lemma newest_first_unique (l1 l2 : list Todo) :
  NoDup (map createdAt l1) -> Permutation l1 l2 ->
  StronglySorted notOlder l1 -> StronglySorted notOlder l2 -> l1 = l2.
Proof.
  revert l2. induction l1 as [|x l1 IH]; intros l2 Hnd Hp H1 H2.
  - apply Permutation_nil in Hp. now subst.
  - destruct l2 as [|y l2];
      [symmetry in Hp; apply Permutation_nil in Hp; discriminate|].
    apply StronglySorted_inv in H1 as [H1 Hx].
    apply StronglySorted_inv in H2 as [H2 Hy].
    simpl in Hnd. apply NoDup_cons in Hnd as [Hnx Hnd].
    assert (E : x = y).
    { assert (Hxin : In x (y :: l2))
        by (apply (Permutation_in _ Hp); now left).
      assert (Hyin : In y (x :: l1))
        by (apply (Permutation_in _ (Permutation_sym Hp)); now left).
      destruct Hxin as [-> | Hxin]; [reflexivity|].
      destruct Hyin as [-> | Hyin]; [reflexivity|].
      rewrite List.Forall_forall in Hx, Hy.
      pose proof (Hx y Hyin) as Hle1. pose proof (Hy x Hxin) as Hle2.
      unfold notOlder in Hle1, Hle2.
      exfalso. apply Hnx. apply list_elem_of_In.
      replace (createdAt x) with (createdAt y) by lia.
      now apply in_map. }
    subst y. f_equal. apply IH; auto.
    now apply Permutation_cons_inv in Hp.
Qed.

Lemma page_sorted (l : list Todo) n k :
  StronglySorted notOlder l -> StronglySorted notOlder (take n (drop k l)).
Proof.
  intros H. rewrite <- (take_drop k l) in H.
  apply StronglySorted_app_1_r in H.
  rewrite <- (take_drop n (drop k l)) in H.
  now apply StronglySorted_app_1_l in H.
Qed.

(** A parameter that has passed its chain is read as a number within the
    bounds of the chain, whatever kind of value it is. *)
Lemma param_range f v lo hi dflt :
  whenPresent v (fun x => failing f (Validator.isInt (EV.toString L (Some x)) (Some lo) hi)) = [] ->
  1 <= lo -> lo <= dflt -> Validator.leMax dflt hi = true ->
  lo <= JS.orNum (JS.parseInt v) dflt
  /\ Validator.leMax (JS.orNum (JS.parseInt v) dflt) hi = true.
Proof.
  intros He Hlo Hd Hhi. destruct v as [x|]; [|simpl; auto].
  cbn [whenPresent] in He. unfold failing in He.
  destruct (Validator.isInt _ _ _) eqn:E; [|discriminate].
  destruct x as [| b | s | d]; try (simpl; auto; fail).
  change (EV.toString L (Some (JStr s))) with s in E.
  apply isInt_spec in E as (n & Hden & Hmin & Hmax). simpl in Hmin.
  apply Z.leb_le in Hmin. rewrite (parseInt_denotes _ _ Hden). unfold JS.orNum.
  destruct (Z.eqb_spec n 0); [lia | auto].
Qed.

(** What an answer 200 of the list route tells. *)
Lemma get_todos_ok store req items pg :
  get_todos L store req = respond 200 (Todos items pg) ->
  exists m P S,
    compile L (searchQuery (req_user_id req)
                 (searchOf (listQuery L (req_query req) !! "search"))) = Some m
    /\ P = JS.orNum (JS.parseInt (req_query req !! "page")) 1
    /\ S = JS.orNum (JS.parseInt (req_query req !! "limit")) 10
    /\ 1 <= P /\ 1 <= S <= 100
    /\ items = take (Z.to_nat S)
                 (drop (Z.to_nat ((P - 1) * S)) (sortCreatedAtDesc (List.filter m store)))
    /\ pg = {| currentPage := P;
               totalPages := JS.ceilDiv (Z.of_nat (length (List.filter m store))) S;
               totalTodos := Z.of_nat (length (List.filter m store));
               hasNextPage := P <? JS.ceilDiv (Z.of_nat (length (List.filter m store))) S;
               hasPrevPage := 1 <? P |}.
Proof.
  destruct req as [pid uid o q]. cbn [req_query req_user_id].
  destruct (listErrors L q) as [|e es] eqn:He;
    [|rewrite get_todos_invalid by (rewrite He; discriminate); discriminate].
  rewrite get_todos_valid by exact He. cbv zeta.
  rewrite listQuery_page, listQuery_limit.
  destruct (compile L _) as [m|]; [|discriminate].
  intros [= <- <-]. unfold listErrors in He.
  apply app_eq_nil in He as [Hp He]. apply app_eq_nil in He as [Hl _].
  destruct (param_range "page" _ 1 None 1 Hp) as [HP _]; [lia | lia | reflexivity |].
  destruct (param_range "limit" _ 1 (Some 100) 10 Hl) as [HS1 HS2];
    [lia | lia | reflexivity |].
  simpl in HS2. apply Z.leb_le in HS2.
  eexists m, _, _. split; [reflexivity|]. split; [reflexivity|].
  split; [reflexivity|]. repeat split; auto.
Qed.

(** X1. The todos of a list answer come newest first: no todo is followed
    by one created later. *)
Theorem list_newest_first store req items pg :
  get_todos L store req = respond 200 (Todos items pg) ->
  StronglySorted notOlder items.
Proof.
  intros H. destruct (get_todos_ok _ _ _ _ H) as (m & P & S & _ & _ & _ & _ & _ & -> & _).
  apply page_sorted, sort_sorted.
Qed.

(** X2. A list answer never carries more than 100 todos, nor more than the
    number of matches it reports, whatever the query asks for. *)
Theorem list_at_most_100 store req items pg :
  get_todos L store req = respond 200 (Todos items pg) ->
  (length items <= 100)%nat /\ Z.of_nat (length items) <= totalTodos pg.
Proof.
  intros H.
  destruct (get_todos_ok _ _ _ _ H) as (m & P & S & _ & _ & _ & _ & HS & -> & ->).
  rewrite length_take, length_drop, sort_length. cbn [totalTodos]. lia.
Qed.

Lemma filter_owned (m : Todo -> bool) u store :
  (forall t, m t = true -> userId t = u) ->
  List.filter m (ownedTodos u store) = List.filter m store.
Proof.
  intros Hm. unfold ownedTodos. induction store as [|x l IH]; [reflexivity|].
  simpl. destruct (String.eqb_spec (userId x) u) as [E | Hne]; simpl.
  - now rewrite IH.
  - rewrite IH. destruct (m x) eqn:Hx; [|reflexivity].
    now apply Hm in Hx.
Qed.

(** The list route looks at the requester's todos only. *)
Lemma get_todos_owned store req :
  get_todos L (ownedTodos (req_user_id req) store) req = get_todos L store req.
Proof.
  destruct req as [pid uid o q]. cbn [req_user_id].
  destruct (listErrors L q) as [|e es] eqn:He;
    [|now rewrite !get_todos_invalid by (rewrite He; discriminate)].
  rewrite !get_todos_valid by exact He. cbv zeta.
  destruct (compile L _) as [m|] eqn:Hm; [|reflexivity].
  rewrite (filter_owned m uid store); [reflexivity|].
  intros t. exact (searchQuery_owner L _ _ _ _ Hm).
Qed.

(** X3. What the list route answers to a requester depends on that
    requester's todos alone: two collections that hold the same todos of
    the requester, in the same order, get the same answer, whatever the
    other accounts have stored. *)
Theorem list_ignores_other_accounts store1 store2 req :
  ownedTodos (req_user_id req) store1 = ownedTodos (req_user_id req) store2 ->
  get_todos L store1 req = get_todos L store2 req.
Proof.
  intros H. rewrite <- (get_todos_owned store1), <- (get_todos_owned store2).
  now rewrite H.
Qed.

(** X4. A search term that is blank once trimmed is no search: the answer
    is the one given to the same request without the search parameter. *)
Theorem blank_search_is_no_search store pid uid o q s :
  Validator.trim s = "" ->
  get_todos L store (Build_request pid uid o (<["search" := JStr s]> q))
  = get_todos L store (Build_request pid uid o (delete "search" q)).
Proof.
  intros Hs.
  assert (He : listErrors L (<["search" := JStr s]> q) = listErrors L (delete "search" q)).
  { unfold listErrors. rewrite lookup_insert_eq, lookup_delete_eq.
    rewrite !lookup_insert_ne, !lookup_delete_ne by discriminate.
    reflexivity. }
  destruct (listErrors L (delete "search" q)) as [|e es] eqn:Hd.
  - rewrite !get_todos_valid by congruence. cbv zeta.
    rewrite !listQuery_page, !listQuery_limit, !listQuery_search.
    rewrite lookup_insert_eq, lookup_delete_eq.
    rewrite !lookup_insert_ne, !lookup_delete_ne by discriminate.
    cbn [fmap option_fmap option_map searchOf trimField].
    unfold trimmed. change (EV.toString L (Some (JStr s))) with s.
    now rewrite Hs.
  - rewrite !get_todos_invalid by congruence. now rewrite He, Hd.
Qed.

(** X5. Without a search term, when the requester's todos have distinct
    creation times, page [P] of size [S] ([P * S] a safe integer) holds
    the todos at the positions [(P-1)*S, ..., P*S-1] of the requester's
    todos taken newest first, which is their only listing newest first:
    the pages cut that list into consecutive pieces, so no todo is
    skipped or shown twice.  A page after the last one is an empty list,
    answered 200. *)
Theorem pages_cut_the_list store req P S :
  intParam (req_query req !! "page") 1 1 None P ->
  intParam (req_query req !! "limit") 10 1 (Some 100) S ->
  req_query req !! "search" = None ->
  safeInteger (P * S) ->
  NoDup (map createdAt (ownedTodos (req_user_id req) store)) ->
  exists items pg,
    get_todos L store req = respond 200 (Todos items pg)
    /\ (forall i, (i < Z.to_nat S)%nat ->
          items !! i = newestFirst (req_user_id req) store !! (Z.to_nat ((P - 1) * S) + i)%nat)
    /\ (forall i, (Z.to_nat S <= i)%nat -> items !! i = None)
    /\ (totalPages pg < P -> items = [])
    /\ (P <= totalPages pg -> items <> [])
    /\ (forall l, Permutation l (ownedTodos (req_user_id req) store) ->
                  StronglySorted notOlder l ->
                  l = newestFirst (req_user_id req) store).
Proof.
  destruct req as [pid uid o q]. cbn [req_query req_user_id].
  intros HP HS Hnone _ Hdistinct.
  pose proof (intParam_lower _ _ _ _ _ HP ltac:(lia)) as HP1.
  pose proof (intParam_lower _ _ _ _ _ HS ltac:(lia)) as HS1.
  destruct (intParam_read L "page" _ _ _ _ _ HP ltac:(lia)) as [Ep Vp].
  destruct (intParam_read L "limit" _ _ _ _ _ HS ltac:(lia)) as [El Vl].
  specialize (Vp ltac:(lia)). specialize (Vl ltac:(lia)).
  assert (He : listErrors L q = []).
  { unfold listErrors. now rewrite Ep, El, Hnone. }
  rewrite get_todos_valid by exact He. cbv zeta.
  rewrite listQuery_page, listQuery_limit, listQuery_search, Vp, Vl, Hnone.
  cbn [fmap option_fmap option_map searchOf searchQuery JS.truthy String.eqb negb compile
       compileCond].
  rewrite (filter_ext _ (fun t => String.eqb (userId t) uid)) by (intros t; apply andb_true_r).
  fold (ownedTodos uid store). fold (newestFirst uid store).
  eexists _, _. split; [reflexivity|]. cbn [totalPages].
  assert (Hlen : length (newestFirst uid store) = length (ownedTodos uid store))
    by apply sort_length.
  pose proof (ceilDiv_spec (Z.of_nat (length (ownedTodos uid store))) S ltac:(lia)) as Hc.
  split; [|split; [|split; [|split]]].
  - intros i Hi. rewrite lookup_take_lt by exact Hi. apply lookup_drop.
  - intros i Hi. now apply lookup_take_ge.
  - intros Hlt. apply length_zero_iff_nil.
    rewrite length_take, length_drop, Hlen. nia.
  - intros Hle Hnil. apply (f_equal length) in Hnil.
    rewrite length_take, length_drop, Hlen in Hnil. simpl in Hnil. nia.
  - intros l Hperm Hsorted. apply newest_first_unique.
    + apply (Permutation_map createdAt) in Hperm.
      eapply NoDup_Permutation_proper; [exact Hperm | exact Hdistinct].
    + etransitivity; [exact Hperm|]. symmetry. apply sort_perm.
    + exact Hsorted.
    + apply sort_sorted.
Qed.

End ListMore.

(** ** One todo: reading, deleting, creating *)

Section OneTodoMore.
Context (L : Lib) (sch : TodoSchema).
Import Mongoose.

Lemma idOwner_true i u x : idOwner i u x = true <-> _id x = i /\ userId x = u.
Proof.
  unfold idOwner. rewrite andb_true_r, andb_true_iff.
  now rewrite !String.eqb_eq.
Qed.

Lemma ownedBy_idOwner pid uid o q i :
  castObjectId pid = Some i ->
  compile L (ownedBy (Build_request pid uid o q)) = Some (idOwner i uid).
Proof. intros H. now rewrite ownedBy_compile, H. Qed.

(** The owner's todo is the one the filter finds. *)
Lemma find_own store t :
  uniqueIds store -> In t store ->
  List.find (idOwner (_id t) (userId t)) store = Some t.
Proof.
  intros Hu Hin. destruct (List.find _ store) as [x|] eqn:Hf.
  - apply find_some in Hf as [Hx Hm]. apply idOwner_true in Hm as [Hid _].
    f_equal. exact (uniqueIds_inj store x t Hu Hx Hin Hid).
  - apply (find_none _ _ Hf) in Hin.
    assert (idOwner (_id t) (userId t) t = true) by now apply idOwner_true.
    congruence.
Qed.

Lemma removeFirst_split (m : Todo -> bool) l t :
  List.find m l = Some t ->
  exists l1 l2, l = (l1 ++ t :: l2)%list /\ removeFirst m l = (l1 ++ l2)%list.
Proof.
  induction l as [|x l IH]; [discriminate|]. simpl.
  destruct (m x) eqn:E.
  - intros [= ->]. now exists [], l.
  - intros H. destruct (IH H) as (l1 & l2 & -> & ->). now exists (x :: l1), l2.
Qed.

Lemma uniqueIds_absent l1 t l2 :
  uniqueIds (l1 ++ t :: l2) -> freshId (l1 ++ l2) (_id t).
Proof.
  unfold uniqueIds, freshId. rewrite map_app. simpl. intros Hnd x Hx E.
  apply NoDup_app in Hnd as (_ & Hdis & Hnd2).
  apply NoDup_cons in Hnd2 as [Hnot _].
  apply in_app_or in Hx as [Hx | Hx].
  - apply (Hdis (_id x)); [apply list_elem_of_In, in_map, Hx|].
    rewrite E. now left.
  - apply Hnot. rewrite <- E. apply list_elem_of_In, in_map, Hx.
Qed.

(** X6. The owner reads a todo back as it is stored: the get route answers
    200 with the very document of the collection. *)
Theorem owner_gets_todo store req t :
  uniqueIds store -> In t store ->
  castObjectId (req_params_id req) = Some (_id t) ->
  userId t = req_user_id req ->
  get_todo L store req = respond 200 (TodoDoc t).
Proof.
  destruct req as [pid uid o q]. cbn [req_params_id req_user_id].
  intros Hu Hin Hid <-. unfold get_todo, findOne.
  rewrite (ownedBy_idOwner _ _ _ _ _ Hid), (find_own store t Hu Hin). reflexivity.
Qed.

(** X7. The owner's delete answers 200 and takes that todo, and no other,
    out of the collection; from then on the same get and the same delete
    are answered 404. *)
Theorem owner_deletes_todo store req t :
  uniqueIds store -> In t store ->
  castObjectId (req_params_id req) = Some (_id t) ->
  userId t = req_user_id req ->
  exists l1 l2,
    store = (l1 ++ t :: l2)%list
    /\ delete_todo L store req
       = (respond 200 (Message "Todo deleted successfully"), (l1 ++ l2)%list)
    /\ get_todo L (l1 ++ l2) req = respond 404 (Message "Todo not found")
    /\ delete_todo L (l1 ++ l2) req
       = (respond 404 (Message "Todo not found"), (l1 ++ l2)%list).
Proof.
  destruct req as [pid uid o q]. cbn [req_params_id req_user_id].
  intros Hu Hin Hid <-.
  pose proof (find_own store t Hu Hin) as Hfind.
  destruct (removeFirst_split _ _ _ Hfind) as (l1 & l2 & Hs & Hr).
  exists l1, l2. split; [exact Hs|].
  unfold delete_todo, get_todo, findOneAndDelete, findOne.
  rewrite !(ownedBy_idOwner _ _ _ _ _ Hid), Hfind, Hr.
  rewrite Hs in Hu. pose proof (uniqueIds_absent _ _ _ Hu) as Hfresh.
  assert (Hgone : List.find (idOwner (_id t) (userId t)) (l1 ++ l2) = None)
    by exact (find_missing (l1 ++ l2) (_id t) (userId t) Hfresh).
  rewrite Hgone. repeat split.
Qed.

Lemma newTodo_ids title description dueDate priority uid id now todo :
  newTodo L title description dueDate priority uid id now = Return todo ->
  _id todo = id /\ userId todo = uid /\ createdAt todo = now /\ completed todo = false.
Proof.
  unfold newTodo.
  destruct (castKey (castString L) title) as [[]|]; try discriminate.
  destruct (castNullableKey (castString L) description); try discriminate.
  destruct (castNullableKey (castDate L) dueDate); try discriminate.
  destruct (castKey (castString L) priority) as [[]|]; try discriminate.
  intros [= <-]. repeat split.
Qed.

(** What the create route does to the collection: it appends the todo it
    answers 201 with, under an identifier that was not in use, or leaves
    the collection as it was. *)
Lemma post_todo_store store req id now :
  (exists todo,
     post_todo L sch store req id now
     = (respond 201 (MessageTodo "Todo created successfully" todo), (store ++ [todo])%list)
     /\ _id todo = id /\ userId todo = req_user_id req
     /\ createdAt todo = now /\ completed todo = false
     /\ freshId store id)
  \/ (snd (post_todo L sch store req id now) = store
      /\ status (fst (post_todo L sch store req id now)) <> 201%nat).
Proof.
  destruct req as [pid uid o q]. cbn [req_user_id].
  rewrite post_todo_eq. destruct (Router.isEmpty _); [|now right].
  destruct (newTodo L _ _ _ _ uid id now) as [todo|] eqn:Hnew; [|now right].
  apply newTodo_ids in Hnew as (Hid & Hown & Hnow & Hc).
  unfold save. destruct (validTitle sch _ && _ && _ && negb _) eqn:E; [|now right].
  left. exists todo. repeat split; auto.
  apply andb_prop in E as [_ E]. apply negb_true_iff in E.
  intros x Hx Hx'. rewrite Hid in E.
  assert (existsb (fun y => String.eqb (_id y) id) store = true); [|congruence].
  apply existsb_exists. exists x. split; [exact Hx | now apply String.eqb_eq].
Qed.

Lemma uniqueIds_snoc store t :
  uniqueIds store -> freshId store (_id t) -> uniqueIds (store ++ [t]).
Proof.
  unfold uniqueIds, freshId. intros Hu Hf. rewrite map_app. simpl.
  apply NoDup_app. split; [exact Hu|]. split; [|apply NoDup_singleton].
  intros i Hi Hi'. apply list_elem_of_In in Hi. apply list_elem_of_singleton in Hi'. subst i.
  apply in_map_iff in Hi as (x & E & Hx). exact (Hf x Hx E).
Qed.

(** X8. A todo the create route answers 201 with is stored at the end of
    the collection under the requester's account, with [completed] false,
    and its creator reads it back with the get route. *)
Theorem created_todo_is_read_back store req id now msg todo store' :
  uniqueIds store ->
  castObjectId id = Some id ->
  post_todo L sch store req id now = (respond 201 (MessageTodo msg todo), store') ->
  store' = (store ++ [todo])%list
  /\ userId todo = req_user_id req /\ completed todo = false /\ createdAt todo = now
  /\ get_todo L store'
       {| req_params_id := id; req_user_id := req_user_id req;
          req_body := ∅; req_query := ∅ |}
     = respond 200 (TodoDoc todo).
Proof.
  intros Hu Hid H.
  destruct (post_todo_store store req id now)
    as [(t & Heq & Ht & Hown & Hnow & Hc & Hfresh) | [_ Hst]];
    [|rewrite H in Hst; now contradiction Hst].
  rewrite H in Heq. injection Heq as _ -> ->.
  repeat split; auto.
  unfold get_todo, findOne.
  rewrite (ownedBy_idOwner _ _ _ _ _ Hid), <- Ht, <- Hown.
  rewrite find_own; [reflexivity | | apply in_or_app; right; now left].
  apply uniqueIds_snoc; [exact Hu | now rewrite Ht].
Qed.

End OneTodoMore.

(** ** What the writing routes keep *)

Section Writes.
Context (L : Lib) (sch : TodoSchema).
Import Mongoose.

Lemma removeFirst_In (m : Todo -> bool) l x : In x (removeFirst m l) -> In x l.
Proof.
  induction l as [|y l IH]; [contradiction|]. simpl.
  destruct (m y); [now right|]. intros [-> | H]; [now left | right; auto].
Qed.

Lemma removeFirst_none (m : Todo -> bool) l :
  List.find m l = None -> removeFirst m l = l.
Proof.
  induction l as [|y l IH]; [reflexivity|]. simpl.
  destruct (m y); [discriminate|]. intros H. now rewrite IH.
Qed.

(** The delete route either takes one todo of the requester out of the
    collection, answering 200, or leaves the collection as it was. *)
Lemma delete_todo_cases store req :
  (exists t l1 l2,
     store = (l1 ++ t :: l2)%list /\ userId t = req_user_id req
     /\ delete_todo L store req
        = (respond 200 (Message "Todo deleted successfully"), (l1 ++ l2)%list))
  \/ (snd (delete_todo L store req) = store
      /\ status (fst (delete_todo L store req)) <> 200%nat).
Proof.
  destruct req as [pid uid o q]. cbn [req_user_id].
  unfold delete_todo, findOneAndDelete. rewrite ownedBy_compile.
  destruct (castObjectId pid) as [i|]; [|now right].
  fold (idOwner i uid).
  destruct (List.find (idOwner i uid) store) as [t|] eqn:Hf; [|now right].
  left. destruct (removeFirst_split _ _ _ Hf) as (l1 & l2 & Hs & Hr).
  apply find_some in Hf as [_ Hm]. apply idOwner_true in Hm as [_ Hown].
  exists t, l1, l2. rewrite Hr. auto.
Qed.

(** The update route either answers 200, or leaves the collection as it
    was. *)
Lemma put_todo_cases store req :
  (exists todo' store',
     put_todo L sch store req
     = (respond 200 (MessageTodo "Todo updated successfully" todo'), store'))
  \/ (snd (put_todo L sch store req) = store
      /\ status (fst (put_todo L sch store req)) <> 200%nat).
Proof.
  destruct req as [pid uid o q]. rewrite put_todo_eq.
  destruct (Router.isEmpty _); [|now right].
  unfold findOneAndUpdate.
  destruct (compile L _); [|now right].
  destruct (castUpdate L _); [|now right].
  destruct (validatePatch sch _); [|now right].
  destruct (List.find _ store); [left; eauto | now right].
Qed.

Lemma uniqueIds_swap l1 (t t' : Todo) l2 :
  _id t' = _id t -> uniqueIds (l1 ++ t :: l2) -> uniqueIds (l1 ++ t' :: l2).
Proof. unfold uniqueIds. rewrite !map_app. simpl. now intros ->. Qed.

Lemma uniqueIds_remove l1 (t : Todo) l2 :
  uniqueIds (l1 ++ t :: l2) -> uniqueIds (l1 ++ l2).
Proof.
  unfold uniqueIds. rewrite !map_app. simpl. intros H.
  apply NoDup_app in H as (H1 & Hdis & H2).
  apply NoDup_cons in H2 as [_ H2]. apply NoDup_app.
  split; [exact H1|]. split; [|exact H2].
  intros i Hi Hi'. apply (Hdis i Hi). now right.
Qed.

(** X9. The routes keep the identifiers of the collection distinct: after
    a create, an update or a delete, answered with success or not, no two
    todos share an identifier if none did before. *)
Theorem routes_keep_identifiers_distinct store req id now :
  uniqueIds store ->
  uniqueIds (snd (post_todo L sch store req id now))
  /\ uniqueIds (snd (put_todo L sch store req))
  /\ uniqueIds (snd (delete_todo L store req)).
Proof.
  intros Hu. split; [|split].
  - destruct (post_todo_store L sch store req id now)
      as [(todo & -> & Hid & _ & _ & _ & Hfresh) | [-> _]]; [|exact Hu].
    apply uniqueIds_snoc; [exact Hu | now rewrite Hid].
  - destruct (put_todo_cases store req) as [(todo' & store' & H) | [-> _]]; [|exact Hu].
    destruct (put_todo_success L sch _ _ _ _ _ H)
      as (t & l1 & l2 & c & p & u & Hs & Hs' & _ & _ & _ & _ & _ & Ht).
    rewrite H. cbn [snd]. rewrite Hs'. rewrite Hs in Hu.
    apply (uniqueIds_swap l1 t todo' l2); [now rewrite Ht | exact Hu].
  - destruct (delete_todo_cases store req) as [(t & l1 & l2 & Hs & _ & ->) | [-> _]];
      [|exact Hu].
    rewrite Hs in Hu. exact (uniqueIds_remove _ _ _ Hu).
Qed.

Lemma post_todo_count store req id now :
  length (snd (post_todo L sch store req id now))
  = (if (status (fst (post_todo L sch store req id now)) =? 201)%nat
     then S (length store) else length store)
  /\ (status (fst (post_todo L sch store req id now)) <> 201%nat ->
      snd (post_todo L sch store req id now) = store).
Proof.
  destruct (post_todo_store L sch store req id now) as [(todo & H & _) | [H H']].
  - rewrite H. cbn [fst snd status respond Nat.eqb]. rewrite length_app. simpl.
    split; [lia | intros C; now contradiction C].
  - rewrite H. apply Nat.eqb_neq in H'. rewrite H'. auto.
Qed.

Lemma put_todo_count store req :
  length (snd (put_todo L sch store req)) = length store
  /\ (status (fst (put_todo L sch store req)) <> 200%nat ->
      snd (put_todo L sch store req) = store).
Proof.
  destruct (put_todo_cases store req) as [(todo' & store' & H) | [H H']]; [|now rewrite H].
  destruct (put_todo_success L sch _ _ _ _ _ H)
    as (t & l1 & l2 & _ & _ & _ & Hs & Hs' & _).
  rewrite H. cbn [fst snd status respond]. rewrite Hs, Hs', !length_app. simpl.
  split; [reflexivity | intros C; now contradiction C].
Qed.

Lemma delete_todo_count store req :
  length store
  = (if (status (fst (delete_todo L store req)) =? 200)%nat
     then S (length (snd (delete_todo L store req)))
     else length (snd (delete_todo L store req)))
  /\ (status (fst (delete_todo L store req)) <> 200%nat ->
      snd (delete_todo L store req) = store).
Proof.
  destruct (delete_todo_cases store req) as [(t & l1 & l2 & Hs & _ & H) | [H H']].
  - rewrite H. cbn [fst snd status respond Nat.eqb]. rewrite Hs, !length_app. simpl.
    split; [lia | intros C; now contradiction C].
  - rewrite H. apply Nat.eqb_neq in H'. rewrite H'. auto.
Qed.

(** X10. The number of stored todos changes only with success: it grows by
    one exactly when the create route answers 201, shrinks by one exactly
    when the delete route answers 200, and an update never changes it.  A
    create not answered 201, and an update or delete not answered 200,
    leave the collection as it was. *)
Theorem routes_change_the_collection_on_success_only store req id now :
  (length (snd (post_todo L sch store req id now))
   = if (status (fst (post_todo L sch store req id now)) =? 201)%nat
     then S (length store) else length store)
  /\ length (snd (put_todo L sch store req)) = length store
  /\ (length store
      = if (status (fst (delete_todo L store req)) =? 200)%nat
        then S (length (snd (delete_todo L store req)))
        else length (snd (delete_todo L store req)))
  /\ (status (fst (post_todo L sch store req id now)) <> 201%nat ->
      snd (post_todo L sch store req id now) = store)
  /\ (status (fst (put_todo L sch store req)) <> 200%nat ->
      snd (put_todo L sch store req) = store)
  /\ (status (fst (delete_todo L store req)) <> 200%nat ->
      snd (delete_todo L store req) = store).
Proof.
  destruct (post_todo_count store req id now) as [Hp Hp'].
  destruct (put_todo_count store req) as [Hu Hu'].
  destruct (delete_todo_count store req) as [Hd Hd'].
  repeat split; assumption.
Qed.

End Writes.

(** ** Updates by the owner *)

Section UpdateMore.
Context (L : Lib) (sch : TodoSchema).
Import Mongoose.

(** The update route on a body that is accepted: it turns on whether the
    filter finds a todo. *)
Lemma put_todo_accepted store pid uid o q i p :
  updateErrors L o = [] -> castObjectId pid = Some i ->
  castUpdate L (updateBody L o) = Return p -> validatePatch sch p = true ->
  put_todo L sch store (Build_request pid uid o q)
  = match List.find (idOwner i uid) store with
    | Some t =>
        (respond 200 (MessageTodo "Todo updated successfully" (applyPatch p t)),
         replaceFirst (idOwner i uid) (applyPatch p) store)
    | None => (respond 404 (Message "Todo not found"), store)
    end.
Proof.
  intros He Hi Hp Hv. rewrite put_todo_eq, He. cbn [Router.isEmpty].
  unfold findOneAndUpdate. rewrite (ownedBy_idOwner L _ _ _ _ _ Hi), Hp, Hv.
  now destruct (List.find _ store).
Qed.

(** On a body that is not accepted the answer does not depend on the
    collection, which is left as it was. *)
Lemma put_todo_refused store store0 pid uid o q :
  (updateErrors L o <> []
   \/ castObjectId pid = None
   \/ castUpdate L (updateBody L o) = Throw
   \/ exists p, castUpdate L (updateBody L o) = Return p /\ validatePatch sch p = false) ->
  snd (put_todo L sch store (Build_request pid uid o q)) = store
  /\ fst (put_todo L sch store (Build_request pid uid o q))
     = fst (put_todo L sch store0 (Build_request pid uid o q)).
Proof.
  rewrite !put_todo_eq. unfold findOneAndUpdate. rewrite !ownedBy_compile.
  intros [He | [Hi | [Hp | (p & Hp & Hv)]]].
  - destruct (updateErrors L o); [congruence | auto].
  - rewrite Hi. destruct (Router.isEmpty _); auto.
  - rewrite Hp. destruct (Router.isEmpty _); [|auto].
    destruct (castObjectId pid); auto.
  - rewrite Hp, Hv. destruct (Router.isEmpty _); [|auto].
    destruct (castObjectId pid); auto.
Qed.

Lemma replaceFirst_again (m : Todo -> bool) f l t :
  List.find m l = Some t -> m (f t) = true -> f (f t) = f t ->
  List.find m (replaceFirst m f l) = Some (f t)
  /\ replaceFirst m f (replaceFirst m f l) = replaceFirst m f l.
Proof.
  intros Hf Hm Hff. induction l as [|x l IH]; [discriminate|]. simpl in *.
  destruct (m x) eqn:E.
  - injection Hf as ->. simpl. now rewrite Hm, Hff.
  - simpl. rewrite E. destruct (IH Hf) as [-> ->]. auto.
Qed.

Lemma applyPatch_twice p t : applyPatch p (applyPatch p t) = applyPatch p t.
Proof.
  unfold applyPatch. cbn.
  destruct (set_userId p), (set_title p), (set_description p), (set_completed p),
    (set_dueDate p), (set_priority p); reflexivity.
Qed.

Lemma applyPatch_idOwner p i u t :
  set_userId p = None -> idOwner i u (applyPatch p t) = idOwner i u t.
Proof. intros H. unfold idOwner, applyPatch. cbn. now rewrite H. Qed.

(** X11. An update whose body has keys among title, description,
    completed, dueDate and priority only is idempotent: sent a second
    time, it gets the same answer and leaves the collection as the first
    one left it. *)
Theorem update_is_idempotent store req :
  onlyFields mutableFields (req_body req) ->
  put_todo L sch (snd (put_todo L sch store req)) req = put_todo L sch store req.
Proof.
  destruct req as [pid uid o q]. cbn [req_body]. intros Hnone.
  apply mutableFields_no_userId in Hnone.
  destruct (updateErrors L o) as [|e es] eqn:He;
    [|now destruct (put_todo_refused store store pid uid o q) as [-> _];
        [left; rewrite He; discriminate|]].
  destruct (castObjectId pid) as [i|] eqn:Hi;
    [|now destruct (put_todo_refused store store pid uid o q) as [-> _]; [auto|]].
  destruct (castUpdate L (updateBody L o)) as [p|] eqn:Hp;
    [|now destruct (put_todo_refused store store pid uid o q) as [-> _]; [auto|]].
  destruct (validatePatch sch p) eqn:Hv;
    [|now destruct (put_todo_refused store store pid uid o q) as [-> _]; [eauto 6|]].
  assert (Hu : set_userId p = None).
  { rewrite castUpdate_sanitized, Hnone in Hp. simpl in Hp.
    destruct (castKey castBoolean (o !! "completed")); [|discriminate].
    destruct (castKey (castString L) (o !! "priority")); [|discriminate].
    now injection Hp as <-. }
  rewrite !(put_todo_accepted _ _ _ _ _ _ _ He Hi Hp Hv).
  destruct (List.find (idOwner i uid) store) as [t|] eqn:Hf.
  - cbn [snd].
    destruct (replaceFirst_again (idOwner i uid) (applyPatch p) store t Hf) as [H1 H2].
    + rewrite (applyPatch_idOwner p i uid t Hu).
      now apply find_some in Hf as [_ Hm].
    + apply applyPatch_twice.
    + rewrite H1, H2. cbv beta iota. now rewrite applyPatch_twice.
  - cbn [snd]. now rewrite Hf.
Qed.

Lemma applyPatch_empty t : applyPatch emptyPatch t = t.
Proof. now destruct t. Qed.

Lemma replaceFirst_same (m : Todo -> bool) f l :
  (forall x, f x = x) -> replaceFirst m f l = l.
Proof.
  intros Hf. induction l as [|x l IH]; [reflexivity|]. simpl.
  destruct (m x); [now rewrite Hf | now rewrite IH].
Qed.

Lemma In_updateKeys (P : string -> Prop) :
  (forall k, In k updateKeys -> P k) ->
  P "title" /\ P "description" /\ P "completed" /\ P "dueDate" /\ P "priority"
  /\ P "userId".
Proof. intros H. repeat split; apply H; simpl; tauto. Qed.

(** X12. An update with an empty body is answered 200 with the todo as it
    is, and changes nothing. *)
Theorem update_without_fields_changes_nothing store req t :
  req_body req = ∅ ->
  uniqueIds store -> In t store ->
  castObjectId (req_params_id req) = Some (_id t) ->
  userId t = req_user_id req ->
  put_todo L sch store req
  = (respond 200 (MessageTodo "Todo updated successfully" t), store).
Proof.
  destruct req as [pid uid o q]. cbn [req_body req_params_id req_user_id].
  intros -> Hu Hin Hid <-. set (o := (∅ : Obj)).
  destruct (In_updateKeys (fun k => o !! k = None) (fun k _ => lookup_empty k))
    as (Ht & Hd & Hc & Hdue & Hp & Hown).
  assert (He : updateErrors L o = []).
  { unfold updateErrors. now rewrite Ht, Hc, Hdue, Hp. }
  assert (Hcast : castUpdate L (updateBody L o) = Return emptyPatch).
  { rewrite castUpdate_sanitized. now rewrite Ht, Hd, Hc, Hdue, Hp, Hown. }
  rewrite (put_todo_accepted _ _ _ _ _ _ _ He Hid Hcast eq_refl).
  rewrite (find_own store t Hu Hin), applyPatch_empty.
  now rewrite (replaceFirst_same _ _ _ applyPatch_empty).
Qed.

Lemma ownedTodos_app A l1 l2 :
  ownedTodos A (l1 ++ l2) = (ownedTodos A l1 ++ ownedTodos A l2)%list.
Proof. unfold ownedTodos. apply List.filter_app. Qed.

Lemma ownedTodos_other A t l :
  userId t <> A -> ownedTodos A (t :: l) = ownedTodos A l.
Proof.
  intros H. unfold ownedTodos. simpl.
  destruct (String.eqb_spec (userId t) A); [contradiction | reflexivity].
Qed.

(** X13. A request leaves the todos of every account other than the
    requester's as they were: after a create or a delete, and after an
    update whose body has keys among title, description, completed,
    dueDate and priority only, each other account owns the same todos in
    the same order; after any update, each todo another account owned is
    still there, unchanged. *)
Theorem writes_spare_other_accounts store req A id now :
  A <> req_user_id req ->
  ownedTodos A (snd (post_todo L sch store req id now)) = ownedTodos A store
  /\ ownedTodos A (snd (delete_todo L store req)) = ownedTodos A store
  /\ (onlyFields mutableFields (req_body req) ->
      ownedTodos A (snd (put_todo L sch store req)) = ownedTodos A store)
  /\ (forall x, In x (ownedTodos A store) ->
                In x (ownedTodos A (snd (put_todo L sch store req)))).
Proof.
  intros HA. split; [|split].
  - destruct (post_todo_store L sch store req id now)
      as [(todo & -> & _ & Hown & _) | [-> _]]; [|reflexivity].
    cbn [snd]. rewrite ownedTodos_app, ownedTodos_other by congruence.
    apply app_nil_r.
  - destruct (delete_todo_cases L store req) as [(t & l1 & l2 & -> & Hown & ->) | [-> _]];
      [|reflexivity].
    cbn [snd]. rewrite !ownedTodos_app, ownedTodos_other by congruence. reflexivity.
  - destruct (put_todo_cases L sch store req) as [(todo' & store' & H) | [-> _]];
      [|split; auto].
    destruct (put_todo_success L sch _ _ _ _ _ H)
      as (t & l1 & l2 & c & p & u & Hs & Hs' & Hown & _ & _ & _ & Hu & Ht).
    rewrite H. cbn [snd]. rewrite Hs, Hs', !ownedTodos_app.
    rewrite (ownedTodos_other A t) by congruence. split.
    + intros Hnone. apply mutableFields_no_userId in Hnone.
      rewrite Hnone in Hu. injection Hu as <-.
      rewrite ownedTodos_other; [reflexivity|]. rewrite Ht. cbn. congruence.
    + intros x Hx. apply in_or_app. apply in_app_or in Hx as [Hx | Hx]; [now left|].
      right. unfold ownedTodos at 1. simpl.
      destruct (String.eqb (userId todo') A); [now right | exact Hx].
Qed.

(** X14. Ticking a todo in the list view: the request of
    [toggleTodoStatus] for one of the user's todos is answered 200, and the
    todo stored afterwards is the same todo with [completed] negated, every
    other todo being left alone; ticking it again restores the collection. *)
Theorem toggle_flips_completed store t :
  uniqueIds store -> In t store ->
  castObjectId (_id t) = Some (_id t) ->
  exists l1 l2,
    store = (l1 ++ t :: l2)%list
    /\ put_todo L sch store
         (TodoListView.toggleTodoStatus (userId t) (_id t) (completed t))
       = (respond 200 (MessageTodo "Todo updated successfully"
                         (withCompleted (negb (completed t)) t)),
          (l1 ++ withCompleted (negb (completed t)) t :: l2)%list)
    /\ put_todo L sch (l1 ++ withCompleted (negb (completed t)) t :: l2)
         (TodoListView.toggleTodoStatus (userId t) (_id t) (negb (completed t)))
       = (respond 200 (MessageTodo "Todo updated successfully" t), store).
Proof.
  intros Hu Hin Hid.
  assert (Hreq : forall b store',
             put_todo L sch store' (TodoListView.toggleTodoStatus (userId t) (_id t) b)
             = match List.find (idOwner (_id t) (userId t)) store' with
               | Some x =>
                   (respond 200 (MessageTodo "Todo updated successfully"
                                   (withCompleted (negb b) x)),
                    replaceFirst (idOwner (_id t) (userId t)) (withCompleted (negb b)) store')
               | None => (respond 404 (Message "Todo not found"), store')
               end).
  { intros b store'. unfold TodoListView.toggleTodoStatus.
    rewrite (put_todo_accepted store' _ _ _ _ (_id t)
               {| set_title := None; set_description := None;
                  set_completed := Some (negb b); set_dueDate := None;
                  set_priority := None; set_userId := None |});
      [reflexivity | now destruct b | exact Hid | now destruct b | reflexivity]. }
  pose proof (find_own store t Hu Hin) as Hfind.
  destruct (replaceFirst_split (idOwner (_id t) (userId t))
              (withCompleted (negb (completed t))) store t Hfind)
    as (l1 & l2 & Hs & _ & Hr).
  exists l1, l2. split; [exact Hs|]. split.
  - now rewrite Hreq, Hfind, Hr.
  - set (t' := withCompleted (negb (completed t)) t).
    assert (Hu' : uniqueIds (l1 ++ t' :: l2)).
    { apply (uniqueIds_swap l1 t t' l2); [reflexivity | now rewrite <- Hs]. }
    assert (Hin' : In t' (l1 ++ t' :: l2)) by (apply in_or_app; right; now left).
    pose proof (find_own _ t' Hu' Hin') as Hfind'.
    change (_id t') with (_id t) in Hfind'. change (userId t') with (userId t) in Hfind'.
    destruct (replaceFirst_split (idOwner (_id t) (userId t))
                (withCompleted (negb (negb (completed t)))) _ t' Hfind')
      as (k1 & k2 & Hk & _ & Hr').
    rewrite Hreq, Hfind', Hr'.
    assert (Hback : withCompleted (negb (negb (completed t))) t' = t).
    { unfold t', withCompleted. destruct t. cbn. now rewrite negb_involutive. }
    rewrite Hback, Hs. f_equal.
    assert (Hlists : l1 = k1 /\ l2 = k2); [|now destruct Hlists as [-> ->]].
    rewrite Hs in Hu. clear - Hu Hk.
    revert k1 Hk. induction l1 as [|a l1 IH]; intros [|b k1] Hk; simpl in *.
    + injection Hk as ->. auto.
    + exfalso. injection Hk as Hk1 Hk2.
      unfold uniqueIds in Hu. simpl in Hu. apply NoDup_cons in Hu as [Hn _].
      apply Hn. apply list_elem_of_In.
      assert (Hin : In (withCompleted (negb (completed t)) t) l2)
        by (rewrite Hk2; apply in_or_app; right; now left).
      apply (in_map _id) in Hin. exact Hin.
    + exfalso. injection Hk as Hk1 Hk2. subst a.
      unfold uniqueIds in Hu. simpl in Hu. apply NoDup_cons in Hu as [Hn _].
      apply Hn. apply list_elem_of_In. rewrite map_app. apply in_or_app. right. now left.
    + injection Hk as -> Hk. unfold uniqueIds in Hu. simpl in Hu.
      apply NoDup_cons in Hu as [_ Hu].
      destruct (IH Hu k1 Hk) as [-> ->]. auto.
Qed.

End UpdateMore.

(** ** The pagination bar of the list view *)

Section PaginationBar.
Import TodoListView.

Lemma pageWindow_bounds cur total :
  1 < total -> 1 <= cur <= total ->
  1 <= fst (pageWindow cur total) <= cur
  /\ cur <= snd (pageWindow cur total) <= total
  /\ snd (pageWindow cur total) - fst (pageWindow cur total) + 1 = Z.min 5 total.
Proof.
  intros Ht Hc. unfold pageWindow, maxVisiblePages.
  change (5 / 2) with 2.
  destruct (Z.ltb_spec (Z.min total (Z.max 1 (cur - 2) + 5 - 1) - Z.max 1 (cur - 2) + 1) 5);
    cbn [fst snd]; lia.
Qed.

Lemma In_numbersFrom s e n : In n (numbersFrom s e) <-> s <= n <= e.
Proof.
  unfold numbersFrom. rewrite in_map_iff. split.
  - intros (i & <- & Hi). apply in_seq in Hi. lia.
  - intros H. exists (Z.to_nat (n - s)). split; [lia|]. apply in_seq. lia.
Qed.

Lemma NoDup_offsets s a n : NoDup (map (fun i => s + Z.of_nat i) (seq a n)).
Proof.
  revert a. induction n as [|n IH]; intros a; simpl; [constructor|].
  apply NoDup_cons. split; [|apply IH].
  intros H. apply list_elem_of_In, in_map_iff in H as (i & E & Hi).
  apply in_seq in Hi. lia.
Qed.

Lemma length_numbersFrom s e :
  Z.of_nat (length (numbersFrom s e)) = Z.max 0 (e - s + 1).
Proof. unfold numbersFrom. rewrite length_map, length_seq. lia. Qed.

Lemma numbers_rendered d1 d2 (f : Z -> bool) ns :
  numbers (Prev d1 :: map (fun n => Item n (f n)) ns ++ [Next d2]) = ns
  /\ activeNumbers (Prev d1 :: map (fun n => Item n (f n)) ns ++ [Next d2])
     = List.filter f ns.
Proof.
  unfold numbers, activeNumbers. cbn [omap list_omap].
  induction ns as [|n ns [IH1 IH2]]; [split; reflexivity|].
  cbn [map app omap list_omap List.filter]. rewrite IH1.
  split; [reflexivity|]. destruct (f n); now rewrite IH2.
Qed.

Lemma only_one (l : list Z) c :
  NoDup l -> (forall n, In n l <-> n = c) -> l = [c].
Proof.
  intros Hnd H. destruct l as [|a l].
  - exfalso. now apply (proj2 (H c)).
  - assert (a = c) as -> by (apply H; now left).
    destruct l as [|b l]; [reflexivity|]. exfalso.
    assert (b = c) as -> by (apply H; right; now left).
    apply NoDup_cons in Hnd as [Hn _]. apply Hn. now left.
Qed.

Lemma NoDup_filter_Z (f : Z -> bool) l : NoDup l -> NoDup (List.filter f l).
Proof.
  induction l as [|a l IH]; intros H; simpl; [constructor|].
  apply NoDup_cons in H as [Ha Hl].
  destruct (f a); [|auto]. apply NoDup_cons. split; [|auto].
  intros Hin. apply Ha. apply list_elem_of_In in Hin.
  apply list_elem_of_In. now apply filter_In in Hin as [Hin _].
Qed.

(** X15. With more than one page and the current page among them, the
    pagination bar is a previous button, page numbers and a next button.
    The numbers are consecutive pages between 1 and the last page, five of
    them or all pages if there are fewer, the current page is one of them,
    and it is the one number marked active.  With at most one page there is
    no bar. *)
Theorem pagination_bar_shows_current_page cur pg :
  (totalPages pg <= 1 -> renderPagination cur (Some pg) = None)
  /\ (1 < totalPages pg -> 1 <= cur <= totalPages pg ->
      exists items first last,
        renderPagination cur (Some pg) = Some items
        /\ (exists mid, items = (Prev (negb (hasPrevPage pg)) :: mid
                                 ++ [Next (negb (hasNextPage pg))])%list
                        /\ length mid = length (numbers items))
        /\ numbers items = numbersFrom first last
        /\ 1 <= first <= cur /\ cur <= last <= totalPages pg
        /\ Z.of_nat (length (numbers items)) = Z.min 5 (totalPages pg)
        /\ activeNumbers items = [cur]).
Proof.
  unfold renderPagination. split.
  - intros H. now destruct (Z.leb_spec (totalPages pg) 1); [|lia].
  - intros Ht Hc. destruct (Z.leb_spec (totalPages pg) 1); [lia|].
    destruct (pageWindow_bounds cur (totalPages pg) Ht Hc) as (Hf & Hl & Hsize).
    destruct (pageWindow cur (totalPages pg)) as [first last]. cbn [fst snd] in *.
    destruct (numbers_rendered (negb (hasPrevPage pg)) (negb (hasNextPage pg))
                (fun n => n =? cur) (numbersFrom first last)) as [Hn Ha].
    eexists _, first, last. split; [reflexivity|]. rewrite Hn, Ha.
    split; [eexists; split; [reflexivity | now rewrite length_map]|].
    split; [reflexivity|]. split; [exact Hf|]. split; [exact Hl|].
    split; [rewrite length_numbersFrom; lia|].
    apply only_one.
    + apply NoDup_filter_Z, NoDup_offsets.
    + intros n. rewrite filter_In, In_numbersFrom, Z.eqb_eq. lia.
Qed.

Context (L : Lib).

(** X16. On the pagination state of a list answer, the previous button of
    the bar is disabled exactly on page 1 and the next button exactly on
    the last page or beyond: an enabled previous button leads to a page
    number of at least 1, an enabled next button to a page no later than
    the last one. *)
Theorem bar_buttons_follow_the_answer store req items pg :
  get_todos L store req = respond 200 (Todos items pg) ->
  1 < totalPages pg ->
  exists prevDisabled nextDisabled mid,
    renderPagination (currentPage pg) (Some pg)
    = Some (Prev prevDisabled :: mid ++ [Next nextDisabled])%list
    /\ (prevDisabled = true <-> currentPage pg = 1)
    /\ (nextDisabled = true <-> totalPages pg <= currentPage pg)
    /\ (prevDisabled = false -> 1 <= currentPage pg - 1)
    /\ (nextDisabled = false -> 1 <= currentPage pg + 1 <= totalPages pg).
Proof.
  intros H Ht.
  destruct (get_todos_ok L _ _ _ _ H) as (m & P & S & _ & _ & _ & HP & _ & _ & ->).
  cbn [totalPages currentPage hasPrevPage hasNextPage] in *.
  unfold renderPagination. cbn [totalPages hasPrevPage hasNextPage].
  destruct (Z.leb_spec (JS.ceilDiv (Z.of_nat (length (List.filter m store))) S) 1); [lia|].
  destruct (pageWindow P _) as [first last].
  eexists _, _, _. split; [reflexivity|].
  rewrite !negb_true_iff, !negb_false_iff, !Z.ltb_lt, !Z.ltb_ge. lia.
Qed.

End PaginationBar.

(** ** The requests of the list view *)

Section FetchTodos.
Context (L : Lib).
Import TodoListView Mongoose.

Lemma digitChar_digit d :
  0 <= d < 10 ->
  Str.isDigit (digitChar d) = true /\ Str.digitVal (digitChar d) = d.
Proof.
  intros H.
  assert (d = 0 \/ d = 1 \/ d = 2 \/ d = 3 \/ d = 4 \/ d = 5 \/ d = 6 \/ d = 7
          \/ d = 8 \/ d = 9) as E by lia.
  repeat (destruct E as [-> | E]; [split; reflexivity|]). subst d. split; reflexivity.
Qed.

(** The digits written for a natural number denote it. *)
Lemma digitsOf_numeral fuel n :
  0 <= n -> (Z.to_nat n < fuel)%nat -> numeral (digitsOf fuel n) n.
Proof.
  revert n. induction fuel as [|f IH]; intros n Hn Hf; [lia|]. simpl.
  destruct (Z.ltb_spec n 10) as [Hlt | Hge].
  - destruct (digitChar_digit n ltac:(lia)) as [Hd Hv].
    rewrite <- Hv at 2. now constructor.
  - pose proof (Z.div_mod n 10 ltac:(lia)) as Hdm.
    pose proof (Z.mod_pos_bound n 10 ltac:(lia)) as Hm.
    destruct (digitChar_digit (n mod 10) Hm) as [Hd Hv].
    replace n with (n / 10 * 10 + Str.digitVal (digitChar (n mod 10))) at 3 by lia.
    constructor; [|exact Hd]. apply IH; [lia|]. lia.
Qed.

Lemma numberToString_denotes n : 0 <= n -> denotes (numberToString n) n.
Proof.
  intros Hn. unfold numberToString.
  destruct (Z.ltb_spec n 0); [lia|].
  constructor. apply digitsOf_numeral; lia.
Qed.

(** X17. Every request the list view sends for a page number of at least 1
    (a safe integer, six times it too) passes the validation of the list
    route, whatever was typed in the search box: the answer is never 400.
    It is 200, with the page asked for and at most six todos, whenever
    the text typed is blank or compiles as a regular expression, and 500
    otherwise. *)
Theorem fetchTodos_is_accepted store user cur term :
  1 <= cur -> safeInteger (cur * 6) ->
  status (get_todos L store (fetchTodos user cur term)) <> 400%nat
  /\ (Validator.trim term = "" \/ is_Some (lib_regex L (Validator.trim term)) ->
      exists items pg,
        get_todos L store (fetchTodos user cur term) = respond 200 (Todos items pg)
        /\ currentPage pg = cur /\ (length items <= 6)%nat)
  /\ (Validator.trim term <> "" -> lib_regex L (Validator.trim term) = None ->
      get_todos L store (fetchTodos user cur term)
      = respond 500 (Message "Server error while fetching todos")).
Proof.
  intros Hcur _. unfold fetchTodos.
  set (q := <["page" := JStr (numberToString cur)]>
              (<["limit" := JStr (numberToString 6)]> (<["search" := JStr term]> ∅))).
  assert (Hp : q !! "page" = Some (JStr (numberToString cur))) by reflexivity.
  assert (Hl : q !! "limit" = Some (JStr "6")) by reflexivity.
  assert (Hs : q !! "search" = Some (JStr term)) by reflexivity.
  assert (HP : intParam (q !! "page") 1 1 None cur).
  { right. exists (numberToString cur). rewrite Hp.
    repeat split; [apply numberToString_denotes; lia | lia]. }
  assert (HS : intParam (q !! "limit") 10 1 (Some 100) 6).
  { right. exists "6". rewrite Hl. repeat split; [|lia].
    exact (numberToString_denotes 6 ltac:(lia)). }
  destruct (intParam_read L "page" _ _ _ _ _ HP ltac:(lia)) as [Ep Vp].
  destruct (intParam_read L "limit" _ _ _ _ _ HS ltac:(lia)) as [El Vl].
  specialize (Vp ltac:(lia)). specialize (Vl ltac:(lia)).
  assert (He : listErrors L q = []).
  { unfold listErrors. now rewrite Ep, El, Hs. }
  rewrite !get_todos_valid by exact He. cbv zeta.
  rewrite listQuery_page, listQuery_limit, listQuery_search, Vp, Vl, Hs.
  change (searchOf (trimField L <$> Some (JStr term))) with (Validator.trim term).
  split; [|split].
  - destruct (compile L _); discriminate.
  - intros Hok. destruct (searchQuery_compiles L user _ Hok) as [m ->].
    eexists _, _. split; [reflexivity|]. split; [reflexivity|].
    rewrite length_take. lia.
  - intros Hne Hbad. unfold searchQuery. simpl JS.truthy.
    destruct (String.eqb_spec (Validator.trim term) ""); [contradiction|].
    simpl. now rewrite Hbad.
Qed.

End FetchTodos.

(** ** The todo form against the routes *)

Section Form.
Context (L : Lib) (sch : TodoSchema).
Import TodoFormView Mongoose.

Lemma submitData_lookups fd :
  submitData fd !! "title" = Some (JStr (fd_title fd))
  /\ submitData fd !! "description" = Some (JStr (fd_description fd))
  /\ submitData fd !! "priority" = Some (JStr (fd_priority fd))
  /\ submitData fd !! "dueDate"
     = Some (if String.eqb (fd_dueDate fd) "" then JNull else JStr (fd_dueDate fd))
  /\ submitData fd !! "completed" = Some (JBool (fd_completed fd))
  /\ submitData fd !! "userId" = None.
Proof. repeat split. Qed.

(** The edit form of a todo without a due date has the date empty. *)
Lemma formOfTodo_no_date t : dueDate t = None -> fd_dueDate (formOfTodo L t) = "".
Proof. unfold formOfTodo. now intros ->. Qed.

(** X18. A form submitted with the due date left empty is refused: the
    form sends [null] for the date, which the chain of the date does not
    skip, so both the create and the update route answer 400 with an error
    on [dueDate] and store nothing.  In particular the edit form of a todo
    that has no due date cannot be saved as it was filled in.  (The check
    of the date text is assumed not to accept the empty text.) *)
Theorem form_without_due_date_is_refused store user id newId now :
  lib_isISO8601 L "" = false ->
  (forall fd, fd_dueDate fd = "" ->
     exists errs,
       submit L sch store user id fd newId now = (validationFailed errs, store)
       /\ In "dueDate" errs /\ status (validationFailed errs) = 400%nat)
  /\ (forall t, dueDate t = None ->
        exists errs,
          submit L sch store user (Some (_id t)) (formOfTodo L t) newId now
          = (validationFailed errs, store)
          /\ In "dueDate" errs).
Proof.
  intros Hiso.
  assert (Hput : forall fd pid, fd_dueDate fd = "" ->
            In "dueDate" (updateErrors L (submitData fd))
            /\ put_todo L sch store (handleSubmit user (Some pid) fd)
               = (validationFailed (updateErrors L (submitData fd)), store)).
  { intros fd pid Hdate.
    destruct (submitData_lookups fd) as (_ & _ & _ & Hdue & _).
    rewrite Hdate in Hdue. simpl in Hdue.
    assert (Hin : In "dueDate" (updateErrors L (submitData fd))).
    { unfold updateErrors. rewrite Hdue. cbn [whenPresent].
      change (EV.toString L (Some JNull)) with "". rewrite Hiso.
      apply in_or_app. right. apply in_or_app. right. apply in_or_app. left. now left. }
    split; [exact Hin|]. unfold handleSubmit. rewrite put_todo_eq.
    now destruct (updateErrors L (submitData fd)). }
  split.
  - intros fd Hdate. unfold submit. destruct id as [pid|].
    + cbv beta iota. destruct (Hput fd pid Hdate) as [Hin Heq].
      eexists. split; [exact Heq|]. split; [exact Hin | reflexivity].
    + destruct (submitData_lookups fd) as (_ & _ & _ & Hdue & _).
      rewrite Hdate in Hdue. simpl in Hdue.
      exists (createErrors L (submitData fd)).
      assert (Hin : In "dueDate" (createErrors L (submitData fd))).
      { unfold createErrors. rewrite Hdue. cbn [whenPresent].
        change (EV.toString L (Some JNull)) with "". rewrite Hiso.
        apply in_or_app. right. apply in_or_app. left. now left. }
      unfold handleSubmit. rewrite post_todo_eq.
      destruct (createErrors L (submitData fd)); [contradiction|].
      repeat split. exact Hin.
  - intros t Hnone. unfold submit. cbv beta iota.
    destruct (Hput (formOfTodo L t) (_id t) (formOfTodo_no_date t Hnone)) as [Hin Heq].
    eexists. split; [exact Heq | exact Hin].
Qed.

Lemma dropSpaces_length l : (length (Str.dropSpaces l) <= length l)%nat.
Proof.
  induction l as [|c l IH]; simpl; [lia|]. destruct (Str.isSpace c); simpl; lia.
Qed.

Lemma length_ofChars l : String.length (Str.ofChars l) = length l.
Proof. induction l as [|c l IH]; simpl; [reflexivity | now rewrite IH]. Qed.

Lemma length_chars s : length (Str.chars s) = String.length s.
Proof. induction s as [|c s IH]; simpl; [reflexivity | now rewrite IH]. Qed.

(** Trimming does not lengthen a text. *)
Lemma trim_length s : (String.length (Validator.trim s) <= String.length s)%nat.
Proof.
  unfold Validator.trim, Str.trim, Str.trimChars.
  rewrite length_ofChars, length_rev, <- length_chars.
  etransitivity; [apply dropSpaces_length|].
  rewrite length_rev. apply dropSpaces_length.
Qed.

Lemma withinLength_le max s s' bound :
  (forall n, max = Some n -> (bound <= n)%nat) ->
  (String.length s' <= String.length s)%nat -> (String.length s <= bound)%nat ->
  withinLength max s' = true.
Proof.
  intros Hmax Hs' Hs. destruct max as [n|]; [|reflexivity]. simpl.
  specialize (Hmax n eq_refl). apply Nat.leb_le. lia.
Qed.

Lemma option_In_priorities p :
  In p priorityOptions ->
  Validator.isIn p priorities = true /\ String.eqb p "" = false.
Proof.
  simpl. intros [<- | [<- | [<- | []]]]; split; reflexivity.
Qed.

(** What the form lets through passes the validators of a schema whose
    bounds are not below those of the form. *)
Lemma form_passes_schema fd :
  (forall n, title_maxlength sch = Some n -> (100 <= n)%nat) ->
  (forall n, description_maxlength sch = Some n -> (500 <= n)%nat) ->
  enterable fd -> submitEnabled false fd = true ->
  validTitle sch (Validator.trim (fd_title fd)) = true
  /\ validDescription sch (Validator.trim (fd_description fd)) = true
  /\ validPriority (fd_priority fd) = true.
Proof.
  intros Ht Hd (Hlt & Hld & Hp) Hen.
  unfold submitEnabled in Hen. simpl in Hen. apply negb_true_iff in Hen.
  split; [|split].
  - unfold validTitle. change (Validator.trim (fd_title fd)) with (Str.trim (fd_title fd)).
    rewrite Hen, orb_true_r. simpl.
    exact (withinLength_le _ _ _ 100%nat Ht (trim_length _) Hlt).
  - exact (withinLength_le _ _ _ 500%nat Hd (trim_length _) Hld).
  - now apply option_In_priorities.
Qed.

(** X19. A new todo the form lets the user submit (title not blank and at
    most 100 characters, description at most 500, a priority from the
    select) with a due date that is a valid date is accepted by the create
    route, whenever the bounds of the schema are not below those of the
    form: the todo is stored under the user's account with the trimmed
    title and description, the chosen priority, the parsed date and
    [completed] false. *)
Theorem form_creates_todo store user fd newId now :
  (forall n, title_maxlength sch = Some n -> (100 <= n)%nat) ->
  (forall n, description_maxlength sch = Some n -> (500 <= n)%nat) ->
  enterable fd -> submitEnabled false fd = true ->
  fd_dueDate fd <> "" -> lib_isISO8601 L (fd_dueDate fd) = true ->
  freshId store newId ->
  let todo :=
    {| _id := newId; userId := user;
       title := Validator.trim (fd_title fd);
       description := Some (Validator.trim (fd_description fd));
       completed := false;
       dueDate := lib_dateParse L (fd_dueDate fd);
       priority := fd_priority fd;
       createdAt := now |} in
  submit L sch store user None fd newId now
  = (respond 201 (MessageTodo "Todo created successfully" todo), (store ++ [todo])%list).
Proof.
  intros Ht Hd Hent Hen Hdate Hiso Hfresh todo.
  destruct (form_passes_schema fd Ht Hd Hent Hen) as (Vt & Vd & Vp).
  destruct Hent as (_ & _ & Hp). apply option_In_priorities in Hp as [Hin Hne].
  destruct (submitData_lookups fd) as (Et & Ed & Ep & Edue & _).
  destruct (String.eqb_spec (fd_dueDate fd) ""); [contradiction|].
  unfold submit, handleSubmit. rewrite post_todo_eq.
  assert (He : createErrors L (submitData fd) = []).
  { unfold createErrors. rewrite Et, Edue, Ep. cbn [whenPresent].
    change (EV.toString L (Some (JStr (fd_title fd)))) with (fd_title fd).
    change (EV.toString L (Some (JStr (fd_dueDate fd)))) with (fd_dueDate fd).
    change (EV.toString L (Some (JStr (fd_priority fd)))) with (fd_priority fd).
    rewrite Hiso, Hin. unfold submitEnabled in Hen. simpl in Hen.
    apply negb_true_iff in Hen. unfold Validator.isEmpty.
    destruct (String.eqb_spec (fd_title fd) "") as [E|]; [|reflexivity].
    rewrite E in Hen. discriminate Hen. }
  rewrite He, Et, Ed, Edue, Ep. cbn [Router.isEmpty JS.truthy].
  rewrite Hne. cbn [negb].
  change (EV.toString L (Some (JStr (fd_title fd)))) with (fd_title fd).
  rewrite newTodo_sanitized. unfold save.
  cbn [title description priority _id from_option fmap option_fmap option_map mbind
       option_bind].
  unfold trimmed, dueOf.
  change (EV.toString L (Some (JStr (fd_description fd)))) with (fd_description fd).
  change (EV.toString L (Some (JStr (fd_dueDate fd)))) with (fd_dueDate fd).
  rewrite Vt, Vd, Vp, (save_fresh store newId Hfresh). reflexivity.
Qed.

(** X20. Saving the edit form of one of the user's todos, under the same
    conditions on what was entered, is accepted by the update route: the
    todo stored afterwards has the trimmed title and description, the
    chosen priority, the parsed date and the state of the checkbox; its
    identifier, owner and creation time are as before, and no other todo
    changes. *)
Theorem form_updates_todo store fd t newId now :
  (forall n, title_maxlength sch = Some n -> (100 <= n)%nat) ->
  (forall n, description_maxlength sch = Some n -> (500 <= n)%nat) ->
  enterable fd -> submitEnabled false fd = true ->
  fd_dueDate fd <> "" -> lib_isISO8601 L (fd_dueDate fd) = true ->
  uniqueIds store -> In t store -> castObjectId (_id t) = Some (_id t) ->
  let todo :=
    {| _id := _id t; userId := userId t;
       title := Validator.trim (fd_title fd);
       description := Some (Validator.trim (fd_description fd));
       completed := fd_completed fd;
       dueDate := lib_dateParse L (fd_dueDate fd);
       priority := fd_priority fd;
       createdAt := createdAt t |} in
  exists l1 l2,
    store = (l1 ++ t :: l2)%list
    /\ submit L sch store (userId t) (Some (_id t)) fd newId now
       = (respond 200 (MessageTodo "Todo updated successfully" todo),
          (l1 ++ todo :: l2)%list).
Proof.
  intros Ht Hd Hent Hen Hdate Hiso Hu Hin Hid todo.
  destruct (form_passes_schema fd Ht Hd Hent Hen) as (Vt & Vd & Vp).
  destruct Hent as (_ & _ & Hp). apply option_In_priorities in Hp as [Hpin Hne].
  destruct (submitData_lookups fd) as (Et & Ed & Ep & Edue & Ec & Eu).
  destruct (String.eqb_spec (fd_dueDate fd) ""); [contradiction|].
  assert (He : updateErrors L (submitData fd) = []).
  { unfold updateErrors. rewrite Et, Edue, Ep, Ec. cbn [whenPresent].
    change (EV.toString L (Some (JStr (fd_title fd)))) with (fd_title fd).
    change (EV.toString L (Some (JStr (fd_dueDate fd)))) with (fd_dueDate fd).
    change (EV.toString L (Some (JStr (fd_priority fd)))) with (fd_priority fd).
    rewrite Hiso, Hpin. unfold submitEnabled in Hen. simpl in Hen.
    apply negb_true_iff in Hen.
    assert (Validator.isEmpty (fd_title fd) = false) as ->.
    { unfold Validator.isEmpty. destruct (String.eqb_spec (fd_title fd) "") as [E|];
        [rewrite E in Hen; discriminate Hen | reflexivity]. }
    now destruct (fd_completed fd). }
  set (p := {| set_title := Some (Validator.trim (fd_title fd));
               set_description := Some (Validator.trim (fd_description fd));
               set_completed := Some (fd_completed fd);
               set_dueDate := Some (lib_dateParse L (fd_dueDate fd));
               set_priority := Some (fd_priority fd);
               set_userId := None |}).
  assert (Hcast : castUpdate L (updateBody L (submitData fd)) = Return p).
  { rewrite castUpdate_sanitized, Et, Ed, Edue, Ep, Ec, Eu. reflexivity. }
  assert (Hv : validatePatch sch p = true).
  { unfold validatePatch, p. cbn. now rewrite Vt, Vd, Vp. }
  pose proof (find_own store t Hu Hin) as Hfind.
  destruct (replaceFirst_split (idOwner (_id t) (userId t)) (applyPatch p) store t Hfind)
    as (l1 & l2 & Hs & _ & Hr).
  exists l1, l2. split; [exact Hs|].
  unfold submit, handleSubmit. cbn [default from_option].
  rewrite (put_todo_accepted L sch store _ _ _ _ _ p He Hid Hcast Hv), Hfind, Hr.
  reflexivity.
Qed.

End Form.

(** ** The further properties on the sample data *)

Import Scenario.

Lemma sample_uniqueIds : uniqueIds store3.
Proof. unfold uniqueIds. apply (bool_decide_unpack _). vm_compute. exact I. Qed.

Lemma sample_iso_empty : lib_isISO8601 lib "" = false.
Proof. reflexivity. Qed.

Lemma list_newest_first_witness : StronglySorted notOlder [callMom; buyMilk].
Proof.
  apply (list_newest_first lib store3 noSearch [callMom; buyMilk] twoOfAlice).
  vm_compute. reflexivity.
Defined.

Lemma list_at_most_100_witness :
  (length [callMom; buyMilk] <= 100)%nat
  /\ Z.of_nat (length [callMom; buyMilk]) <= totalTodos twoOfAlice.
Proof.
  apply (list_at_most_100 lib store3 noSearch [callMom; buyMilk] twoOfAlice).
  vm_compute. reflexivity.
Defined.

Lemma list_ignores_other_accounts_witness :
  get_todos lib store3 (searching alice "milk")
  = get_todos lib [buyMilk; callMom] (searching alice "milk").
Proof.
  apply (list_ignores_other_accounts lib store3 [buyMilk; callMom] (searching alice "milk")).
  vm_compute. reflexivity.
Defined.

Lemma blank_search_is_no_search_witness :
  get_todos lib store3 (Build_request "" alice ∅ (<["search" := JStr "   "]> ∅))
  = get_todos lib store3 (Build_request "" alice ∅ (delete "search" ∅)).
Proof.
  apply (blank_search_is_no_search lib store3 "" alice ∅ ∅ "   ").
  vm_compute. reflexivity.
Defined.

Lemma pages_cut_the_list_witness :
  exists items pg,
    get_todos lib fifteen page3 = respond 200 (Todos items pg)
    /\ items !! 0%nat = newestFirst alice fifteen !! 12%nat
    /\ items !! 2%nat = newestFirst alice fifteen !! 14%nat
    /\ items !! 6%nat = None.
Proof.
  destruct (pages_cut_the_list lib fifteen page3 3 6)
    as (items & pg & Heq & Hat & Hout & _).
  - right. exists "3". repeat split; [exact denotes_3 | lia].
  - right. exists "6". repeat split; [exact denotes_6 | lia].
  - reflexivity.
  - unfold safeInteger. simpl. lia.
  - apply (bool_decide_unpack _). vm_compute. exact I.
  - exists items, pg. split; [exact Heq|].
    split; [exact (Hat 0%nat ltac:(vm_compute; lia))|].
    split; [exact (Hat 2%nat ltac:(vm_compute; lia))|].
    exact (Hout 6%nat ltac:(vm_compute; lia)).
Defined.

Lemma owner_gets_todo_witness :
  get_todo lib store3 (getOne id2 alice) = respond 200 (TodoDoc callMom).
Proof.
  apply (owner_gets_todo lib store3 (getOne id2 alice) callMom sample_uniqueIds).
  - right. now left.
  - reflexivity.
  - reflexivity.
Defined.

Lemma owner_deletes_todo_witness :
  exists l1 l2,
    store3 = (l1 ++ callMom :: l2)%list
    /\ delete_todo lib store3 (getOne id2 alice)
       = (respond 200 (Message "Todo deleted successfully"), (l1 ++ l2)%list)
    /\ get_todo lib (l1 ++ l2) (getOne id2 alice) = respond 404 (Message "Todo not found")
    /\ delete_todo lib (l1 ++ l2) (getOne id2 alice)
       = (respond 404 (Message "Todo not found"), (l1 ++ l2)%list).
Proof.
  apply (owner_deletes_todo lib store3 (getOne id2 alice) callMom sample_uniqueIds).
  - right. now left.
  - reflexivity.
  - reflexivity.
Defined.

Lemma created_todo_is_read_back_witness :
  [buyMilk; created] = ([buyMilk] ++ [created])%list
  /\ userId created = alice /\ completed created = false /\ createdAt created = 9
  /\ get_todo lib [buyMilk; created] (getOne id3 alice) = respond 200 (TodoDoc created).
Proof.
  apply (created_todo_is_read_back lib specSchema [buyMilk]
           (creating alice [("title", JStr "Test")]) id3 9
           "Todo created successfully" created [buyMilk; created]).
  - unfold uniqueIds. apply (bool_decide_unpack _). vm_compute. exact I.
  - reflexivity.
  - vm_compute. reflexivity.
Defined.

Lemma routes_keep_identifiers_distinct_witness :
  uniqueIds (snd (post_todo lib specSchema store3 (creating alice [("title", JStr "Test")]) id1 9))
  /\ uniqueIds (snd (put_todo lib specSchema store3 rename))
  /\ uniqueIds (snd (delete_todo lib store3 (getOne id2 alice))).
Proof.
  split; [|split].
  - apply (routes_keep_identifiers_distinct lib specSchema store3
             (creating alice [("title", JStr "Test")]) id1 9 sample_uniqueIds).
  - apply (routes_keep_identifiers_distinct lib specSchema store3 rename id1 9
             sample_uniqueIds).
  - apply (routes_keep_identifiers_distinct lib specSchema store3 (getOne id2 alice) id1 9
             sample_uniqueIds).
Defined.

Lemma update_is_idempotent_witness :
  put_todo lib specSchema (snd (put_todo lib specSchema store3 rename)) rename
  = put_todo lib specSchema store3 rename.
Proof.
  apply (update_is_idempotent lib specSchema store3 rename).
  apply onlyFields_list. reflexivity.
Defined.

Lemma update_without_fields_changes_nothing_witness :
  put_todo lib specSchema store3 (emptyBody id2 alice)
  = (respond 200 (MessageTodo "Todo updated successfully" callMom), store3).
Proof.
  apply (update_without_fields_changes_nothing lib specSchema store3
           (emptyBody id2 alice) callMom).
  - reflexivity.
  - exact sample_uniqueIds.
  - right. now left.
  - reflexivity.
  - reflexivity.
Defined.

Lemma writes_spare_other_accounts_witness :
  ownedTodos bob (snd (post_todo lib specSchema store3
                         (creating alice [("title", JStr "Test")]) id3 9))
  = ownedTodos bob store3
  /\ ownedTodos bob (snd (delete_todo lib store3 (getOne id2 alice))) = ownedTodos bob store3
  /\ ownedTodos bob (snd (put_todo lib specSchema store3 rename)) = ownedTodos bob store3.
Proof.
  destruct (writes_spare_other_accounts lib specSchema store3
              (creating alice [("title", JStr "Test")]) bob id3 9) as (H1 & _);
    [discriminate|].
  destruct (writes_spare_other_accounts lib specSchema store3
              (getOne id2 alice) bob id3 9) as (_ & H2 & _); [discriminate|].
  destruct (writes_spare_other_accounts lib specSchema store3 rename bob id3 9)
    as (_ & _ & H3 & _); [discriminate|].
  split; [exact H1|]. split; [exact H2|]. apply H3.
  apply onlyFields_list. reflexivity.
Defined.

Lemma toggle_flips_completed_witness :
  exists l1 l2,
    store3 = (l1 ++ callMom :: l2)%list
    /\ put_todo lib specSchema store3 (TodoListView.toggleTodoStatus alice id2 false)
       = (respond 200 (MessageTodo "Todo updated successfully" (withCompleted true callMom)),
          (l1 ++ withCompleted true callMom :: l2)%list)
    /\ put_todo lib specSchema (l1 ++ withCompleted true callMom :: l2)
         (TodoListView.toggleTodoStatus alice id2 true)
       = (respond 200 (MessageTodo "Todo updated successfully" callMom), store3).
Proof.
  apply (toggle_flips_completed lib specSchema store3 callMom sample_uniqueIds).
  - right. now left.
  - reflexivity.
Defined.

Lemma pagination_bar_shows_current_page_witness :
  exists items first last,
    TodoListView.renderPagination 2 (Some secondPage) = Some items
    /\ TodoListView.numbers items = TodoListView.numbersFrom first last
    /\ TodoListView.numbers items = [1; 2; 3]
    /\ TodoListView.activeNumbers items = [2].
Proof.
  destruct (proj2 (pagination_bar_shows_current_page 2 secondPage))
    as (items & first & last & Heq & _ & Hn & _ & _ & _ & Ha);
    [reflexivity | split; discriminate |].
  exists items, first, last. split; [exact Heq|]. split; [exact Hn|].
  split; [|exact Ha].
  vm_compute in Heq. injection Heq as <-. reflexivity.
Defined.

Lemma bar_buttons_follow_the_answer_witness :
  exists prevDisabled nextDisabled mid,
    TodoListView.renderPagination (currentPage (pageInfo 3 false true))
      (Some (pageInfo 3 false true))
    = Some (TodoListView.Prev prevDisabled :: mid ++ [TodoListView.Next nextDisabled])%list
    /\ (prevDisabled = true <-> currentPage (pageInfo 3 false true) = 1)
    /\ (nextDisabled = true <-> totalPages (pageInfo 3 false true) <= currentPage (pageInfo 3 false true)).
Proof.
  destruct (bar_buttons_follow_the_answer lib fifteen (pageOf "3")
              (map numbered (rev (seq 1 3))) (pageInfo 3 false true))
    as (d1 & d2 & mid & Heq & H1 & H2 & _).
  - vm_compute. reflexivity.
  - reflexivity.
  - exists d1, d2, mid. split; [exact Heq|]. split; [exact H1 | exact H2].
Defined.

Lemma fetchTodos_is_accepted_witness :
  status (get_todos lib fifteen (TodoListView.fetchTodos alice 2 "task")) <> 400%nat
  /\ exists items pg,
       get_todos lib fifteen (TodoListView.fetchTodos alice 2 "task")
       = respond 200 (Todos items pg)
       /\ currentPage pg = 2 /\ (length items <= 6)%nat.
Proof.
  destruct (fetchTodos_is_accepted lib fifteen alice 2 "task") as (H1 & H2 & _);
    [lia | unfold safeInteger; simpl; lia |].
  split; [exact H1|]. apply H2. right. vm_compute. eauto.
Defined.

Lemma form_without_due_date_is_refused_witness :
  (exists errs,
     TodoFormView.submit lib specSchema store3 alice None noDateForm id3 9
     = (validationFailed errs, store3)
     /\ In "dueDate" errs /\ status (validationFailed errs) = 400%nat)
  /\ exists errs,
       TodoFormView.submit lib specSchema store3 alice (Some (_id callMom))
         (TodoFormView.formOfTodo lib callMom) id3 9
       = (validationFailed errs, store3)
       /\ In "dueDate" errs.
Proof.
  split.
  - apply (proj1 (form_without_due_date_is_refused lib specSchema store3 alice None id3 9
                    sample_iso_empty)). reflexivity.
  - apply (proj2 (form_without_due_date_is_refused lib specSchema store3 alice None id3 9
                    sample_iso_empty)). reflexivity.
Defined.

Lemma form_creates_todo_witness :
  TodoFormView.submit lib specSchema [buyMilk] alice None testForm id2 9
  = (respond 201 (MessageTodo "Todo created successfully" (rentTodo id2 9 false)),
     [buyMilk; rentTodo id2 9 false]).
Proof.
  apply (form_creates_todo lib specSchema [buyMilk] alice testForm id2 9).
  - intros n [= <-]. lia.
  - intros n [= <-]. lia.
  - vm_compute. repeat split; try lia. tauto.
  - reflexivity.
  - discriminate.
  - reflexivity.
  - intros x [<- | []]. discriminate.
Defined.

Lemma form_updates_todo_witness :
  exists l1 l2,
    store3 = (l1 ++ callMom :: l2)%list
    /\ TodoFormView.submit lib specSchema store3 alice (Some id2) testForm id3 9
       = (respond 200 (MessageTodo "Todo updated successfully" (rentTodo id2 2 false)),
          (l1 ++ rentTodo id2 2 false :: l2)%list).
Proof.
  apply (form_updates_todo lib specSchema store3 testForm callMom id3 9).
  - intros n [= <-]. lia.
  - intros n [= <-]. lia.
  - vm_compute. repeat split; try lia. tauto.
  - reflexivity.
  - discriminate.
  - reflexivity.
  - exact sample_uniqueIds.
  - right. now left.
  - reflexivity.
Defined.

(** ** Deleting from the list view *)

Section DeleteListed.
Context (L : Lib).
Import Mongoose.

(** X21. Any todo shown in a list answer can be deleted by the one who
    listed it: the request of [confirmDelete] for it is answered 200 and
    takes exactly that todo out of the collection. *)
Theorem listed_todo_can_be_deleted store req items pg t :
  uniqueIds store ->
  get_todos L store req = respond 200 (Todos items pg) ->
  In t items -> castObjectId (_id t) = Some (_id t) ->
  exists l1 l2,
    store = (l1 ++ t :: l2)%list
    /\ delete_todo L store (TodoListView.confirmDelete (req_user_id req) t)
       = (respond 200 (Message "Todo deleted successfully"), (l1 ++ l2)%list).
Proof.
  intros Hu H Hin Hid.
  destruct (get_todos_ok L _ _ _ _ H) as (m & P & S & Hm & _ & _ & _ & _ & -> & _).
  apply page_In in Hin as [Hstore Hmt].
  pose proof (searchQuery_owner L _ _ _ _ Hm Hmt) as Hown.
  pose proof (find_own store t Hu Hstore) as Hfind. rewrite Hown in Hfind.
  destruct (removeFirst_split _ _ _ Hfind) as (l1 & l2 & Hs & Hr).
  exists l1, l2. split; [exact Hs|].
  unfold TodoListView.confirmDelete, delete_todo, findOneAndDelete.
  now rewrite (ownedBy_idOwner L _ _ _ _ _ Hid), Hfind, Hr.
Qed.

End DeleteListed.

Lemma listed_todo_can_be_deleted_witness :
  exists l1 l2,
    store3 = (l1 ++ callMom :: l2)%list
    /\ delete_todo lib store3 (TodoListView.confirmDelete alice callMom)
       = (respond 200 (Message "Todo deleted successfully"), (l1 ++ l2)%list).
Proof.
  apply (listed_todo_can_be_deleted lib store3 noSearch [callMom; buyMilk] twoOfAlice
           callMom sample_uniqueIds).
  - vm_compute. reflexivity.
  - now left.
  - reflexivity.
Defined.
